(** * eda_cli.core: statistics and quality-scoring engine

    A shallow embedding of [eda_cli/core.py] (the profilers, the quality
    scorer and the report assembler) together with the part of the pandas /
    numpy behaviour the module relies on, and the properties of the
    specification that were checked against it.

    Conventions of the embedding:
    - a [DataFrame] is an index length and an ordered list of labelled
      columns; labels are unique, as [pandas.read_csv] guarantees;
    - a column ([Series]) is a tagged variant by dtype: [int64], [float64]
      (NaN is the null), [object] (strings, [None] is the null) and [bool];
    - Python [float] and numpy [float64] are IEEE binary64, modelled by
      Rocq's primitive floats; Python [int] and numpy [int64] counts are
      modelled by [Z];
    - a Python [dict] is an association list in insertion order;
    - exceptions are modelled by the [result] monad. *)

From Stdlib Require Import ZArith List String Ascii Bool Lia Arith.
From Stdlib Require Import Floats Uint63 OrderedTypeEx Sorted Permutation.
Import ListNotations.

Set Warnings "-inexact-float".

Local Open Scope Z_scope.

(* ===================================================================== *)
(** * Exceptions *)
(* ===================================================================== *)

Inductive exn : Type :=
| ZeroDivisionError
| KeyError (label : string).

Inductive result (A : Type) : Type :=
| Ok (a : A)
| Raise (e : exn).

Arguments Ok {A} a.
Arguments Raise {A} e.

Definition bind {A B : Type} (m : result A) (k : A -> result B) : result B :=
  match m with
  | Ok a => k a
  | Raise e => Raise e
  end.

Declare Scope result_scope.
Delimit Scope result_scope with result.
Notation "x <- m ;; k" := (bind m (fun x => k))
  (at level 61, m at next level, right associativity) : result_scope.
Local Open Scope result_scope.

(** A Python loop that builds a list, one (fallible) element per
    iteration. *)
Fixpoint mapM {A B : Type} (f : A -> result B) (l : list A) : result (list B) :=
  match l with
  | [] => Ok []
  | a :: t =>
      b <- f a ;;
      bs <- mapM f t ;;
      Ok (b :: bs)
  end.

(** A loop of the shape [for x in l: if cond(x): out.append(item(x))],
    where computing the condition can raise. *)
Fixpoint filter_mapM {A B : Type} (f : A -> result (option B)) (l : list A)
  : result (list B) :=
  match l with
  | [] => Ok []
  | a :: t =>
      o <- f a ;;
      bs <- filter_mapM f t ;;
      Ok (match o with Some b => b :: bs | None => bs end)
  end.

Definition is_ok {A : Type} (m : result A) : bool :=
  match m with Ok _ => true | Raise _ => false end.

(* ===================================================================== *)
(** * Numbers: Python [int], numpy [int64], IEEE doubles *)
(* ===================================================================== *)

Definition len {A : Type} (l : list A) : Z := Z.of_nat (List.length l).

(** Conversion of an integer to a double (round to nearest), as numpy does
    before a true division and as [float(n)] does. Exact below 2^53; the
    model covers the [int64] range. *)
Definition float_of_int (z : Z) : float :=
  if z <? 0 then PrimFloat.opp (PrimFloat.of_uint63 (Uint63.of_Z (- z)))
  else PrimFloat.of_uint63 (Uint63.of_Z z).

(** [a / b] where [a] is a numpy scalar or array element: IEEE division,
    a zero divisor gives [nan] or [inf] (with a RuntimeWarning only). *)
Definition np_true_divide (a b : Z) : float :=
  PrimFloat.div (float_of_int a) (float_of_int b).

(** [a / b] on two Python [int]: raises [ZeroDivisionError] on a zero
    divisor; otherwise the quotient rounded to a double, which for
    operands below 2^53 is the IEEE division of their conversions. *)
Definition py_true_divide (a b : Z) : result float :=
  if b =? 0 then Raise ZeroDivisionError
  else Ok (PrimFloat.div (float_of_int a) (float_of_int b)).

(** [x > y] on doubles; false as soon as one side is NaN. *)
Definition float_gt (x y : float) : bool := PrimFloat.ltb y x.

Definition float_sum (l : list float) : float :=
  fold_left PrimFloat.add l 0%float.

Fixpoint Zsum (l : list Z) : Z :=
  match l with
  | [] => 0
  | x :: t => x + Zsum t
  end.

Definition b2z (b : bool) : Z := if b then 1 else 0.

(** [mask.sum()] on a boolean array. *)
Definition sum_mask (m : list bool) : Z := Zsum (map b2z m).

(* ===================================================================== *)
(** * Strings: [str.lower] and the [in] operator *)
(* ===================================================================== *)

Definition lower_ascii (c : ascii) : ascii :=
  let n := nat_of_ascii c in
  if (andb (65 <=? n)%nat (n <=? 90)%nat) then ascii_of_nat (n + 32) else c.

Fixpoint lower (s : string) : string :=
  match s with
  | EmptyString => EmptyString
  | String c t => String (lower_ascii c) (lower t)
  end.

(** [sub in s]: some suffix of [s] starts with [sub]. *)
Fixpoint str_in (sub s : string) : bool :=
  match s with
  | EmptyString => prefix sub EmptyString
  | String _ t => prefix sub s || str_in sub t
  end.

(* ===================================================================== *)
(** * Columns *)
(* ===================================================================== *)

(** A column by dtype. [Float64] holds NaN for a missing cell, [Object]
    holds [None]; [Int64] and [Boolean] columns have no missing cells. *)
Inductive Series : Type :=
| Int64 (xs : list Z)
| Float64 (xs : list float)
| Object (xs : list (option string))
| Boolean (xs : list bool).

(** A non-null cell value, as pandas' hash tables key it. *)
Inductive scalar : Type :=
| SInt (z : Z)
| SFloat (f : float)
| SStr (s : string)
| SBool (b : bool).

(** A cell: [None] is the null (NaN or None). *)
Definition cell : Type := option scalar.

(** Hash-table key of a double: every NaN is the null, and [-0.0] and
    [0.0] are one key. *)
Definition float_cell (f : float) : cell :=
  if PrimFloat.is_nan f then None
  else Some (SFloat (if PrimFloat.eqb f 0%float then 0%float else f)).

Definition cells (s : Series) : list cell :=
  match s with
  | Int64 xs => map (fun z => Some (SInt z)) xs
  | Float64 xs => map float_cell xs
  | Object xs => map (option_map SStr) xs
  | Boolean xs => map (fun b => Some (SBool b)) xs
  end.

Definition size (s : Series) : nat := List.length (cells s).

Definition float_eq_dec (x y : float) : {x = y} + {x <> y}.
Proof.
  destruct (PrimFloat.Leibniz.eqb x y) eqn:E.
  - left. apply FloatAxioms.Leibniz.eqb_spec. exact E.
  - right. intro H. apply FloatAxioms.Leibniz.eqb_spec in H. congruence.
Defined.

Definition scalar_eq_dec (x y : scalar) : {x = y} + {x <> y}.
Proof.
  decide equality.
  - apply Z.eq_dec.
  - apply float_eq_dec.
  - apply string_dec.
  - apply bool_dec.
Defined.

Definition cell_eq_dec (x y : cell) : {x = y} + {x <> y}.
Proof. decide equality. apply scalar_eq_dec. Defined.

Definition ostring_eq_dec (x y : option string) : {x = y} + {x <> y}.
Proof. decide equality. apply string_dec. Defined.

(** ** Hash-table algorithms, generic in the key type *)

Section Hashing.
Context {K : Type} (eq_dec : forall x y : K, {x = y} + {x <> y}).

Definition mem (x : K) (l : list K) : bool :=
  if in_dec eq_dec x l then true else false.

(** [unique()]: the distinct keys in order of first appearance. *)
Fixpoint unique_from (seen l : list K) : list K :=
  match l with
  | [] => []
  | x :: t =>
      if mem x seen then unique_from seen t
      else x :: unique_from (x :: seen) t
  end.

Definition unique (l : list K) : list K := unique_from [] l.

(** [duplicated()] with the default [keep='first']: the mask of the
    positions whose key has already been seen. *)
Fixpoint duplicated_from (seen l : list K) : list bool :=
  match l with
  | [] => []
  | x :: t => mem x seen :: duplicated_from (x :: seen) t
  end.

Definition duplicated (l : list K) : list bool := duplicated_from [] l.

Definition count (x : K) (l : list K) : Z := Z.of_nat (count_occ eq_dec l x).

(** The frequency table of a hash table: one entry per distinct key, in
    order of first appearance. *)
Definition frequencies (l : list K) : list (K * Z) :=
  map (fun k => (k, count k l)) (unique l).
End Hashing.

(** Stable insertion sort of a frequency table by decreasing count: equal
    counts keep their order of first appearance. *)
Fixpoint insert_desc {K : Type} (e : K * Z) (l : list (K * Z)) : list (K * Z) :=
  match l with
  | [] => [e]
  | h :: t => if snd e <? snd h then h :: insert_desc e t else e :: l
  end.

Definition sort_desc {K : Type} (l : list (K * Z)) : list (K * Z) :=
  fold_right insert_desc [] l.

(** [np.sort] on strings: ascending code-point order. *)
Fixpoint insert_str (s : string) (l : list string) : list string :=
  match l with
  | [] => [s]
  | h :: t => if String.leb s h then s :: l else h :: insert_str s t
  end.

Definition sort_str (l : list string) : list string :=
  fold_right insert_str [] l.

(** [head(n)]: the first [n] entries, or all but the last [-n] for a
    negative [n]. *)
Definition head {A : Type} (n : Z) (l : list A) : list A :=
  if n <? 0 then firstn (List.length l - Z.to_nat (- n)) l
  else firstn (Z.to_nat n) l.

Definition is_null (c : cell) : bool :=
  match c with None => true | Some _ => false end.

Definition dropna {A : Type} (l : list (option A)) : list A :=
  flat_map (fun o => match o with Some a => [a] | None => [] end) l.

(** ** Series methods used by the module *)

(** [s.isnull()] *)
Definition isnull (s : Series) : list bool := map is_null (cells s).

(** [s.nunique()], [s.nunique(dropna=True)]: number of distinct non-null
    values. *)
Definition nunique (s : Series) : Z :=
  len (dropna (unique cell_eq_dec (cells s))).

(** [s.duplicated().sum()] *)
Definition duplicated_sum (s : Series) : Z :=
  sum_mask (duplicated cell_eq_dec (cells s)).

(** ** Numeric reductions (pandas [nanops], [skipna=True]) *)

Definition is_numeric (s : Series) : bool :=
  match s with
  | Int64 _ | Float64 _ => true
  | Object _ | Boolean _ => false
  end.

(** [select_dtypes(include=["object", "category"])]; the model has no
    categorical dtype, so these are the object columns. *)
Definition is_categorical (s : Series) : bool :=
  match s with
  | Object _ => true
  | Int64 _ | Float64 _ | Boolean _ => false
  end.

(** The values of a numeric column as doubles. *)
Definition to_float (s : Series) : list float :=
  match s with
  | Int64 xs => map float_of_int xs
  | Float64 xs => xs
  | Object _ | Boolean _ => []
  end.

(** [s == 0]: element-wise mask; NaN and None compare unequal. *)
Definition eq_zero (s : Series) : list bool :=
  match s with
  | Int64 xs => map (fun z => z =? 0) xs
  | Float64 xs => map (fun f => PrimFloat.eqb f 0%float) xs
  | Object xs => map (fun _ => false) xs
  | Boolean xs => map negb xs
  end.

(** Sums are taken from left to right; on long columns numpy's pairwise
    summation can differ from that in the last bit. What is proved below
    depends only on the reductions of columns with no or one value. *)
Module nanops.

(** The non-null values a reduction works on. *)
Definition valid (xs : list float) : list float :=
  filter (fun f => negb (PrimFloat.is_nan f)) xs.

Fixpoint insert_float (x : float) (l : list float) : list float :=
  match l with
  | [] => [x]
  | h :: t => if PrimFloat.leb x h then x :: l else h :: insert_float x t
  end.

Definition sort_float (l : list float) : list float :=
  fold_right insert_float [] l.

Definition float_min (a b : float) : float := if PrimFloat.ltb b a then b else a.
Definition float_max (a b : float) : float := if PrimFloat.ltb a b then b else a.

(** [s.mean()]: NaN when no value is left. *)
Definition mean (xs : list float) : float :=
  let v := valid xs in
  if len v =? 0 then nan
  else PrimFloat.div (float_sum v) (float_of_int (len v)).

(** [nanvar] with [ddof=1]: NaN as soon as [count <= ddof]. *)
Definition var (xs : list float) : float :=
  let v := valid xs in
  let n := len v in
  if n <=? 1 then nan
  else
    let avg := PrimFloat.div (float_sum v) (float_of_int n) in
    let sq x := PrimFloat.mul (PrimFloat.sub avg x) (PrimFloat.sub avg x) in
    PrimFloat.div (float_sum (map sq v)) (float_of_int (n - 1)).

(** [s.std()]: sample standard deviation. *)
Definition std (xs : list float) : float := PrimFloat.sqrt (var xs).

Definition min (xs : list float) : float :=
  match valid xs with
  | [] => nan
  | x :: t => fold_left float_min t x
  end.

Definition max (xs : list float) : float :=
  match valid xs with
  | [] => nan
  | x :: t => fold_left float_max t x
  end.

(** [s.median()]: middle value, or the mean of the two middle values. *)
Definition median (xs : list float) : float :=
  let v := sort_float (valid xs) in
  let n := List.length v in
  if (n =? 0)%nat then nan
  else if Nat.odd n then nth (n / 2) v nan
  else PrimFloat.div (PrimFloat.add (nth (n / 2 - 1) v nan) (nth (n / 2) v nan))
                     2%float.

(** [s.quantile(k/4)] with linear interpolation: position [k*(n-1)/4]
    between the two neighbouring order statistics. *)
Definition quantile (k : Z) (xs : list float) : float :=
  let v := sort_float (valid xs) in
  let n := len v in
  if n =? 0 then nan
  else
    let pos4 := k * (n - 1) in
    let lo := Z.to_nat (pos4 / 4) in
    let hi := Nat.min (S lo) (Z.to_nat (n - 1)) in
    let t := PrimFloat.div (float_of_int (pos4 mod 4)) 4%float in
    let a := nth lo v nan in
    let b := nth hi v nan in
    PrimFloat.add a (PrimFloat.mul (PrimFloat.sub b a) t).

End nanops.

(* ===================================================================== *)
(** * Tables *)
(* ===================================================================== *)

Record DataFrame : Type := {
  index_len : nat;                       (* len(df) *)
  items : list (string * Series)         (* the labelled columns, in order *)
}.

(** All columns are as long as the index and the labels are unique. *)
Definition well_formed (df : DataFrame) : Prop :=
  Forall (fun it => size (snd it) = index_len df) (items df)
  /\ NoDup (map fst (items df)).

(** [df.columns] *)
Definition columns (df : DataFrame) : list string := map fst (items df).

(** Dictionary lookup [d[k]]. *)
Fixpoint dict_get {V : Type} (k : string) (d : list (string * V)) : result V :=
  match d with
  | [] => Raise (KeyError k)
  | (k', v) :: t => if String.eqb k k' then Ok v else dict_get k t
  end.

(** [df[col]] *)
Definition getitem (df : DataFrame) (col : string) : result Series :=
  dict_get col (items df).

(** [df.select_dtypes(...).columns.tolist()] *)
Definition select_dtypes (p : Series -> bool) (df : DataFrame) : list string :=
  map fst (filter (fun it => p (snd it)) (items df)).

(** [str(dtype)] *)
Definition dtype_name (s : Series) : string :=
  match s with
  | Int64 _ => "int64"
  | Float64 _ => "float64"
  | Object _ => "object"
  | Boolean _ => "bool"
  end.

(* ===================================================================== *)
(** * The profilers *)
(* ===================================================================== *)

Section Profilers.

(** [df.memory_usage(deep=True).sum()], in bytes: it depends on the
    interpreter's object layout and is taken as given. *)
Variable memory_usage : DataFrame -> Z.

Record BasicStats : Type := {
  num_rows : Z;
  num_columns : Z;
  bs_columns : list string;
  dtypes : list (string * string);
  memory_usage_mb : float
}.

Definition compute_basic_stats (df : DataFrame) : BasicStats :=
  {| num_rows := Z.of_nat (index_len df);
     num_columns := len (columns df);
     bs_columns := columns df;
     dtypes := map (fun it => (fst it, dtype_name (snd it))) (items df);
     memory_usage_mb := np_true_divide (memory_usage df) (1024 ^ 2) |}.

Record MissingStats : Type := {
  missing_counts : list (string * Z);
  missing_shares : list (string * float);
  cols_with_missing : list string;
  total_missing : Z;
  total_missing_share : float
}.

(** [missing_counts] is a Series of numpy integers indexed by the column
    labels, so both divisions are numpy divisions. *)
Definition compute_missing_stats (df : DataFrame) : MissingStats :=
  let n := Z.of_nat (index_len df) in
  let missing_counts :=
    map (fun it => (fst it, sum_mask (isnull (snd it)))) (items df) in
  let missing_shares :=
    map (fun e => (fst e, np_true_divide (snd e) n)) missing_counts in
  let cols_with_missing :=
    map fst (filter (fun e => 0 <? snd e) missing_counts) in
  {| missing_counts := missing_counts;
     missing_shares := missing_shares;
     cols_with_missing := cols_with_missing;
     total_missing := Zsum (map snd missing_counts);
     total_missing_share :=
       np_true_divide (Zsum (map snd missing_counts))
                      (n * len (columns df)) |}.

Record NumericColStats : Type := {
  mean : float;
  std : float;
  min : float;
  max : float;
  median : float;
  q25 : float;
  q75 : float;
  zeros_count : Z;
  zeros_share : float
}.

Record NumericStats : Type := {
  numeric_cols : list string;
  nstats : list (string * NumericColStats)     (* key "stats" *)
}.

(** The dictionary built for one numeric column [s = df[col]]. *)
Definition numeric_col_stats (df : DataFrame) (s : Series) : NumericColStats :=
  {| mean := nanops.mean (to_float s);
     std := nanops.std (to_float s);
     min := nanops.min (to_float s);
     max := nanops.max (to_float s);
     median := nanops.median (to_float s);
     q25 := nanops.quantile 1 (to_float s);
     q75 := nanops.quantile 3 (to_float s);
     zeros_count := sum_mask (eq_zero s);
     zeros_share := np_true_divide (sum_mask (eq_zero s))
                                   (Z.of_nat (index_len df)) |}.

Definition compute_numeric_stats (df : DataFrame) : result NumericStats :=
  let numeric_cols := select_dtypes is_numeric df in
  match numeric_cols with
  | [] => Ok {| numeric_cols := []; nstats := [] |}
  | _ =>
      stats <- mapM (fun col =>
                       s <- getitem df col ;;
                       Ok (col, numeric_col_stats df s))
                    numeric_cols ;;
      Ok {| numeric_cols := numeric_cols; nstats := stats |}
  end.

Record CatColStats : Type := {
  unique_count : Z;
  mode : option string;
  mode_count : Z;
  top_values : list (option string * Z)
}.

Record CategoricalStats : Type := {
  categorical_cols : list string;
  cstats : list (string * CatColStats)         (* key "stats" *)
}.

(** The values of an object column. *)
Definition object_values (s : Series) : list (option string) :=
  match s with
  | Object xs => xs
  | Int64 _ | Float64 _ | Boolean _ => []
  end.

(** [s.value_counts(dropna=False)]: the frequency table, nulls included,
    by decreasing count. *)
Definition value_counts (s : Series) : list (option string * Z) :=
  sort_desc (frequencies ostring_eq_dec (object_values s)).

(** [s.mode()]: the most frequent non-null values, sorted. *)
Definition series_mode (s : Series) : list string :=
  let freq := frequencies string_dec (dropna (object_values s)) in
  let top := fold_right Z.max 0 (map snd freq) in
  sort_str (map fst (filter (fun e => snd e =? top) freq)).

(** The dictionary built for one categorical column [s = df[col]]. *)
Definition categorical_col_stats (top_k : Z) (s : Series) : CatColStats :=
  let value_counts := value_counts s in
  let top_values := head top_k value_counts in
  {| unique_count := nunique s;
     mode := match series_mode s with
             | m :: _ => Some m
             | [] => None
             end;
     mode_count := match value_counts with
                   | e :: _ => snd e
                   | [] => 0
                   end;
     top_values := top_values |}.

Definition compute_categorical_stats (df : DataFrame) (top_k : Z)
  : result CategoricalStats :=
  let cat_cols := select_dtypes is_categorical df in
  match cat_cols with
  | [] => Ok {| categorical_cols := []; cstats := [] |}
  | _ =>
      stats <- mapM (fun col =>
                       s <- getitem df col ;;
                       Ok (col, categorical_col_stats top_k s))
                    cat_cols ;;
      Ok {| categorical_cols := cat_cols; cstats := stats |}
  end.

(* ===================================================================== *)
(** * The quality scorer *)
(* ===================================================================== *)

Record HighCardinalityCol : Type := {
  hc_column : string;                  (* key "column" *)
  hc_unique_count : Z;                 (* key "unique_count" *)
  hc_unique_ratio : float              (* key "unique_ratio" *)
}.

Record IdDuplicates : Type := {
  dup_column : string;                 (* key "column" *)
  duplicate_count : Z;
  duplicate_share : float
}.

Record ManyZerosCol : Type := {
  mz_column : string;                  (* key "column" *)
  zero_count : Z;
  zero_share : float
}.

Record QualityFlags : Type := {
  has_high_missing_share : bool;
  high_missing_cols : list string;
  high_missing_threshold : float;
  has_constant_columns : bool;
  constant_columns : list string;
  has_high_cardinality_categoricals : bool;
  high_cardinality_cols : list HighCardinalityCol;
  high_cardinality_threshold : float;
  has_suspicious_id_duplicates : bool;
  suspicious_id_duplicates : list IdDuplicates;
  has_many_zero_values : bool;
  many_zeros_cols : list ManyZerosCol;
  zero_threshold : float;
  quality_score : Z;
  quality_penalties : list (string * Z)
}.

(** The test [col] is an identifier candidate. *)
Definition is_id_candidate (col : string) : bool :=
  str_in "id" (lower col) || str_in "ID" col.

Definition compute_quality_flags (df : DataFrame) (min_missing_share : float)
  : result QualityFlags :=
  let n := Z.of_nat (index_len df) in
  let missing_stats := compute_missing_stats df in
  numeric_stats <- compute_numeric_stats df ;;
  cat_stats <- compute_categorical_stats df 5 ;;
  (* 1. high share of missing values *)
  let high_missing_cols :=
    map fst (filter (fun e => float_gt (snd e) min_missing_share)
                    (missing_shares missing_stats)) in
  (* 2. constant columns *)
  constant_cols <-
    filter_mapM (fun col =>
                   s <- getitem df col ;;
                   Ok (if nunique s <=? 1 then Some col else None))
                (columns df) ;;
  (* 3. high-cardinality categoricals *)
  let high_cardinality_threshold := 0.5%float in
  high_cardinality_cols <-
    filter_mapM (fun col =>
                   st <- dict_get col (cstats cat_stats) ;;
                   unique_ratio <- py_true_divide (unique_count st) n ;;
                   Ok (if float_gt unique_ratio high_cardinality_threshold
                       then Some {| hc_column := col;
                                    hc_unique_count := unique_count st;
                                    hc_unique_ratio := unique_ratio |}
                       else None))
                (categorical_cols cat_stats) ;;
  (* 4. duplicated identifiers *)
  let id_candidates := filter is_id_candidate (columns df) in
  suspicious_id_duplicates <-
    filter_mapM (fun col =>
                   s <- getitem df col ;;
                   let duplicate_count := duplicated_sum s in
                   Ok (if 0 <? duplicate_count
                       then Some {| dup_column := col;
                                    duplicate_count := duplicate_count;
                                    duplicate_share :=
                                      np_true_divide duplicate_count n |}
                       else None))
                id_candidates ;;
  (* 5. many zeros in numeric columns *)
  let zero_threshold := 0.4%float in
  many_zeros_cols <-
    filter_mapM (fun col =>
                   st <- dict_get col (nstats numeric_stats) ;;
                   let zero_share := zeros_share st in
                   Ok (if float_gt zero_share zero_threshold
                       then Some {| mz_column := col;
                                    zero_count := zeros_count st;
                                    zero_share := zero_share |}
                       else None))
                (numeric_cols numeric_stats) ;;
  (* the integral score *)
  let quality_score := 100 in
  let penalties :=
    [ ("high_missing"%string, len high_missing_cols * 15);
      ("constant_cols"%string, len constant_cols * 10);
      ("high_cardinality"%string, len high_cardinality_cols * 8);
      ("id_duplicates"%string, len suspicious_id_duplicates * 12);
      ("many_zeros"%string, len many_zeros_cols * 7) ] in
  let total_penalty := Zsum (map snd penalties) in
  let quality_score := Z.max 0 (quality_score - total_penalty) in
  Ok {| has_high_missing_share := 0 <? len high_missing_cols;
        high_missing_cols := high_missing_cols;
        high_missing_threshold := min_missing_share;
        has_constant_columns := 0 <? len constant_cols;
        constant_columns := constant_cols;
        has_high_cardinality_categoricals := 0 <? len high_cardinality_cols;
        high_cardinality_cols := high_cardinality_cols;
        high_cardinality_threshold := high_cardinality_threshold;
        has_suspicious_id_duplicates := 0 <? len suspicious_id_duplicates;
        suspicious_id_duplicates := suspicious_id_duplicates;
        has_many_zero_values := 0 <? len many_zeros_cols;
        many_zeros_cols := many_zeros_cols;
        zero_threshold := zero_threshold;
        quality_score := quality_score;
        quality_penalties := penalties |}.

(* ===================================================================== *)
(** * The report assembler *)
(* ===================================================================== *)

Record ReportParams : Type := {
  max_hist_columns : Z;
  top_k_categories : Z;
  min_missing_share : float;
  rp_title : string                    (* key "title" *)
}.

Record ReportData : Type := {
  title : string;
  basic_stats : BasicStats;
  missing_stats : MissingStats;
  numeric_stats : NumericStats;
  categorical_stats : CategoricalStats;
  quality_flags : QualityFlags;
  report_params : ReportParams
}.

Definition generate_report_data (df : DataFrame) (max_hist_columns : Z)
    (top_k_categories : Z) (min_missing_share : float) (title : string)
  : result ReportData :=
  let basic := compute_basic_stats df in
  let missing := compute_missing_stats df in
  numeric <- compute_numeric_stats df ;;
  categorical <- compute_categorical_stats df top_k_categories ;;
  quality <- compute_quality_flags df min_missing_share ;;
  Ok {| title := title;
        basic_stats := basic;
        missing_stats := missing;
        numeric_stats := numeric;
        categorical_stats := categorical;
        quality_flags := quality;
        report_params := {| max_hist_columns := max_hist_columns;
                            top_k_categories := top_k_categories;
                            min_missing_share := min_missing_share;
                            rp_title := title |} |}.

End Profilers.

Arguments compute_basic_stats memory_usage df : rename.

(** Default arguments of the signatures. *)
Definition default_min_missing_share : float := 0.3%float.
Definition default_top_k : Z := 5.
Definition default_max_hist_columns : Z := 10.

(** The column a label denotes: [df[col]] for a label of [df.columns]. Used
    to state what the loops over [df.columns] compute. *)
Definition column_of (df : DataFrame) (col : string) : Series :=
  match getitem df col with
  | Ok s => s
  | Raise _ => Object []
  end.

(** The lists the five rules of [compute_quality_flags] collect, written
    as comprehensions over the columns. *)
Definition high_missing_of (df : DataFrame) (min_missing_share : float)
  : list string :=
  map fst (filter (fun e => float_gt (snd e) min_missing_share)
                  (missing_shares (compute_missing_stats df))).

Definition constant_of (df : DataFrame) : list string :=
  filter (fun col => nunique (column_of df col) <=? 1) (columns df).

Definition unique_ratio_of (df : DataFrame) (col : string) : float :=
  PrimFloat.div (float_of_int (nunique (column_of df col)))
                (float_of_int (Z.of_nat (index_len df))).

Definition high_cardinality_of (df : DataFrame) : list HighCardinalityCol :=
  map (fun col => {| hc_column := col;
                     hc_unique_count := nunique (column_of df col);
                     hc_unique_ratio := unique_ratio_of df col |})
      (filter (fun col => float_gt (unique_ratio_of df col) 0.5%float)
              (select_dtypes is_categorical df)).

Definition id_duplicates_of (df : DataFrame) : list IdDuplicates :=
  map (fun col => {| dup_column := col;
                     duplicate_count := duplicated_sum (column_of df col);
                     duplicate_share :=
                       np_true_divide (duplicated_sum (column_of df col))
                                      (Z.of_nat (index_len df)) |})
      (filter (fun col => 0 <? duplicated_sum (column_of df col))
              (filter is_id_candidate (columns df))).

Definition zeros_share_of (df : DataFrame) (col : string) : float :=
  np_true_divide (sum_mask (eq_zero (column_of df col)))
                 (Z.of_nat (index_len df)).

Definition many_zeros_of (df : DataFrame) : list ManyZerosCol :=
  map (fun col => {| mz_column := col;
                     zero_count := sum_mask (eq_zero (column_of df col));
                     zero_share := zeros_share_of df col |})
      (filter (fun col => float_gt (zeros_share_of df col) 0.4%float)
              (select_dtypes is_numeric df)).

(** The dictionary [compute_quality_flags] returns when no exception
    is raised. *)
Definition flags_of (df : DataFrame) (min_missing_share : float) : QualityFlags :=
  let penalties :=
    [ ("high_missing"%string, len (high_missing_of df min_missing_share) * 15);
      ("constant_cols"%string, len (constant_of df) * 10);
      ("high_cardinality"%string, len (high_cardinality_of df) * 8);
      ("id_duplicates"%string, len (id_duplicates_of df) * 12);
      ("many_zeros"%string, len (many_zeros_of df) * 7) ] in
  {| has_high_missing_share := 0 <? len (high_missing_of df min_missing_share);
     high_missing_cols := high_missing_of df min_missing_share;
     high_missing_threshold := min_missing_share;
     has_constant_columns := 0 <? len (constant_of df);
     constant_columns := constant_of df;
     has_high_cardinality_categoricals := 0 <? len (high_cardinality_of df);
     high_cardinality_cols := high_cardinality_of df;
     high_cardinality_threshold := 0.5%float;
     has_suspicious_id_duplicates := 0 <? len (id_duplicates_of df);
     suspicious_id_duplicates := id_duplicates_of df;
     has_many_zero_values := 0 <? len (many_zeros_of df);
     many_zeros_cols := many_zeros_of df;
     zero_threshold := 0.4%float;
     quality_score := Z.max 0 (100 - Zsum (map snd penalties));
     quality_penalties := penalties |}.

(** [df[col] = s] for a new label: the column is appended. *)
Definition add_column (df : DataFrame) (col : string) (s : Series) : DataFrame :=
  {| index_len := index_len df; items := items df ++ [(col, s)] |}.

(* ===================================================================== *)
(** * Tables of the test-suite ([tests/test_core.py]) and of the scenarios *)
(* ===================================================================== *)

(** [test_compute_quality_flags_constant_columns] *)
Definition df_constant : DataFrame :=
  {| index_len := 5;
     items := [ ("id"%string, Int64 [1; 2; 3; 4; 5]);
                ("constant_col"%string, Int64 [1; 1; 1; 1; 1]);
                ("normal_col"%string, Int64 [1; 2; 3; 4; 5]) ] |}.

(** [test_compute_quality_flags_id_duplicates] *)
Definition df_id_duplicates : DataFrame :=
  {| index_len := 5;
     items := [ ("user_id"%string, Int64 [1; 2; 2; 3; 4]);
                ("transaction_id"%string, Int64 [100; 101; 102; 103; 104]);
                ("value"%string, Int64 [10; 20; 30; 40; 50]) ] |}.

(** [test_compute_numeric_stats] *)
Definition df_numeric : DataFrame :=
  {| index_len := 5;
     items := [ ("A"%string, Int64 [1; 2; 3; 4; 5]);
                ("B"%string, Int64 [0; 0; 1; 2; 3]);
                ("C"%string, Object [Some "a"; Some "b"; Some "c"; Some "d";
                                     Some "e"]%string) ] |}.

(** A table with a header and no data row. *)
Definition df_no_rows : DataFrame :=
  {| index_len := 0;
     items := [ ("name"%string, Object []); ("amount"%string, Float64 []) ] |}.

(* ===================================================================== *)
(** * Notions of the specification *)
(* ===================================================================== *)

(** The name contains the substring "id", case-insensitively: somewhere
    in it an [i] or [I] is followed by a [d] or [D]. *)
Definition contains_id_ci (name : string) : Prop :=
  exists pre c1 c2 post,
    name = (pre ++ String c1 (String c2 post))%string
    /\ (c1 = "i"%char \/ c1 = "I"%char)
    /\ (c2 = "d"%char \/ c2 = "D"%char).

(** The number of occurrences beyond the first of each value: every
    distinct value contributes its number of occurrences minus one. *)
Definition occurrences_beyond_first (l : list cell) : Z :=
  Zsum (map (fun k => count cell_eq_dec k l - 1) (unique cell_eq_dec l)).

(** The number of cells of a numeric column that are exactly equal
    to 0. *)
Definition count_zero_cells (s : Series) : Z :=
  match s with
  | Int64 xs => len (filter (fun z => z =? 0) xs)
  | Float64 xs => len (filter (fun f => PrimFloat.eqb f 0%float) xs)
  | Object _ | Boolean _ => 0
  end.

(** The number of non-null cells of a column. *)
Definition non_null_count (s : Series) : Z := len (dropna (cells s)).

(** The first entry of a list carries its largest count. *)
Definition head_is_max {K : Type} (l : list (K * Z)) : Prop :=
  match l with
  | [] => True
  | h :: _ => forall x, In x l -> snd x <= snd h
  end.

(** A numeric table with a header and no data row. *)
Definition df_amount_no_rows : DataFrame :=
  {| index_len := 0; items := [ ("amount"%string, Float64 []) ] |}.

(** A table with missing cells: the null is the most frequent class of
    [city]. *)
Definition df_missing : DataFrame :=
  {| index_len := 4;
     items := [ ("city"%string, Object [None; Some "Riga"; None; Some "Oslo"]%string);
                ("score"%string, Float64 [0; nan; 0; 1]%float) ] |}.

(** The first entry of a list of strings is its least one. *)
Definition head_is_min (l : list string) : Prop :=
  match l with
  | [] => True
  | h :: _ => forall x, In x l -> String.leb h x = true
  end.

(** The mode as the specification words it: the most frequent non-null
    value, the first encountered one among equally frequent values. *)
Definition first_encountered_mode (xs : list (option string)) : option string :=
  let freq := frequencies string_dec (dropna xs) in
  let top := fold_right Z.max 0 (map snd freq) in
  match filter (fun e => snd e =? top) freq with
  | e :: _ => Some (fst e)
  | [] => None
  end.

(** Two equally frequent values, the later one first in the alphabet. *)
Definition df_ties : DataFrame :=
  {| index_len := 4;
     items := [ ("pet"%string,
                 Object [Some "dog"; Some "cat"; Some "dog"; Some "cat"]%string) ] |}.

(** The number of distinct non-null values of an object column. *)
Definition distinct_non_null (xs : list (option string)) : Z :=
  len (nodup string_dec (dropna xs)).

(** A reported aggregate is a NaN handed on as a number: the dictionaries
    hold Python floats, and [float(nan)] is the float NaN. *)
Definition nan_as_number (x : float) : Prop := PrimFloat.is_nan x = true.

(** The domain the specification gives the configuration:
    [max_hist_columns > 0], [top_k_categories > 0] and
    [0 <= min_missing_share <= 1]. *)
Definition config_in_domain (max_hist_columns top_k_categories : Z)
    (min_missing_share : float) : bool :=
  (0 <? max_hist_columns) && (0 <? top_k_categories)
  && PrimFloat.leb 0%float min_missing_share
  && PrimFloat.leb min_missing_share 1%float.

(** A table with a single data row. *)
Definition df_one_row : DataFrame :=
  {| index_len := 1;
     items := [ ("price"%string, Float64 [5%float]);
                ("discount"%string, Float64 [nan]);
                ("units"%string, Int64 [3]) ] |}.

(** The number of null cells of a column. *)
Definition null_count (s : Series) : Z := len (filter is_null (cells s)).

(** [test_compute_quality_flags_many_zeros] *)
Definition df_many_zeros : DataFrame :=
  {| index_len := 10;
     items := [ ("col_with_many_zeros"%string,
                 Int64 [0; 0; 0; 0; 1; 2; 3; 4; 5; 6]);
                ("col_with_few_zeros"%string,
                 Int64 [0; 1; 2; 3; 4; 5; 6; 7; 8; 9]);
                ("categorical_col"%string,
                 Object [Some "A"; Some "B"; Some "A"; Some "B"; Some "A";
                         Some "B"; Some "A"; Some "B"; Some "A"; Some "B"]%string) ] |}.

(** [test_compute_categorical_stats] *)
Definition df_categorical : DataFrame :=
  {| index_len := 5;
     items := [ ("A"%string,
                 Object [Some "cat"; Some "dog"; Some "cat"; Some "dog";
                         Some "bird"]%string);
                ("B"%string, Int64 [1; 2; 3; 4; 5]) ] |}.

(** The order of a frequency table: counts do not increase. *)
Definition by_count_desc {K : Type} (a b : K * Z) : Prop := snd b <= snd a.

(* ===================================================================== *)
(** * Histograms ([eda_cli/viz.py]) *)
(* ===================================================================== *)





(** [range(a, b)] *)
Definition range (a b : Z) : list Z :=
  map (fun k => a + Z.of_nat k) (seq 0 (Z.to_nat (b - a))).


Section Histograms.

(** [str(Path(save_dir) / name)]: the path arithmetic of [pathlib] is
    taken as given. *)
Variable path_join : string -> string -> string.


End Histograms.

(* ===================================================================== *)
(** * Properties of the embedding: exceptions, dictionaries, loops *)
(* ===================================================================== *)

Lemma bind_ok {A B : Type} (m : result A) (k : A -> result B) (b : B) :
  bind m k = Ok b -> exists a, m = Ok a /\ k a = Ok b.
Proof.
  destruct m as [a|e]; simpl; intro H.
  - exists a. split; [reflexivity|exact H].
  - discriminate.
Qed.

Lemma dict_get_in {V : Type} (k : string) (d : list (string * V)) :
  In k (map fst d) -> exists v, dict_get k d = Ok v /\ In (k, v) d.
Proof.
  induction d as [|[k' v'] d IH]; simpl; intro H.
  - contradiction.
  - destruct (String.eqb k k') eqn:E.
    + apply String.eqb_eq in E. subst k'. exists v'. auto.
    + destruct H as [H|H].
      * subst k'. rewrite String.eqb_refl in E. discriminate.
      * destruct (IH H) as [v [Hv Hin]]. exists v. auto.
Qed.

Lemma dict_get_nodup {V : Type} (k : string) (v : V) (d : list (string * V)) :
  NoDup (map fst d) -> In (k, v) d -> dict_get k d = Ok v.
Proof.
  induction d as [|[k' v'] d IH]; simpl; intros Hnd Hin.
  - contradiction.
  - inversion Hnd as [|x l Hnotin Hnd']; subst.
    destruct Hin as [Heq|Hin].
    + inversion Heq; subst. rewrite String.eqb_refl. reflexivity.
    + destruct (String.eqb k k') eqn:E.
      * apply String.eqb_eq in E. subst k'. exfalso. apply Hnotin.
        change k with (fst (k, v)). apply in_map. exact Hin.
      * apply IH; assumption.
Qed.

Lemma dict_get_app_l {V : Type} (k : string) (v : V) (d d' : list (string * V)) :
  dict_get k d = Ok v -> dict_get k (d ++ d') = Ok v.
Proof.
  induction d as [|[k' v'] d IH]; simpl; intro H.
  - discriminate.
  - destruct (String.eqb k k'); [exact H|apply IH; exact H].
Qed.

Lemma dict_get_app_in {V : Type} (k : string) (d d' : list (string * V)) :
  In k (map fst d) -> dict_get k (d ++ d') = dict_get k d.
Proof.
  intro H. destruct (dict_get_in k d H) as [v [Hv _]].
  rewrite Hv. apply dict_get_app_l. exact Hv.
Qed.

(** A dictionary whose values are computed from the keys alone. *)
Lemma dict_get_keyed {V : Type} (f : string -> V) (k : string) (l : list string) :
  In k l -> dict_get k (map (fun c => (c, f c)) l) = Ok (f k).
Proof.
  induction l as [|c l IH]; simpl; intro H.
  - contradiction.
  - destruct (String.eqb k c) eqn:E.
    + apply String.eqb_eq in E. subst c. reflexivity.
    + destruct H as [H|H].
      * subst c. rewrite String.eqb_refl in E. discriminate.
      * apply IH. exact H.
Qed.

Lemma getitem_column_of (df : DataFrame) (col : string) :
  In col (columns df) -> getitem df col = Ok (column_of df col).
Proof.
  intro H. unfold column_of.
  destruct (dict_get_in col (items df) H) as [s [Hs _]].
  unfold getitem. rewrite Hs. reflexivity.
Qed.

Lemma column_of_own (df : DataFrame) (col : string) (s : Series) :
  NoDup (columns df) -> In (col, s) (items df) -> column_of df col = s.
Proof.
  intros Hnd Hin. unfold column_of, getitem.
  rewrite (dict_get_nodup col s (items df) Hnd Hin). reflexivity.
Qed.

Lemma mapM_pure {A B : Type} (f : A -> result B) (g : A -> B) (l : list A) :
  (forall a, In a l -> f a = Ok (g a)) -> mapM f l = Ok (map g l).
Proof.
  induction l as [|a l IH]; simpl; intro H.
  - reflexivity.
  - rewrite (H a (or_introl eq_refl)). simpl.
    rewrite IH by (intros; apply H; auto). reflexivity.
Qed.

Lemma filter_mapM_pure {A B : Type} (f : A -> result (option B))
    (p : A -> bool) (g : A -> B) (l : list A) :
  (forall a, In a l -> f a = Ok (if p a then Some (g a) else None)) ->
  filter_mapM f l = Ok (map g (filter p l)).
Proof.
  induction l as [|a l IH]; simpl; intro H.
  - reflexivity.
  - rewrite (H a (or_introl eq_refl)). simpl.
    rewrite IH by (intros; apply H; auto). simpl.
    destruct (p a); reflexivity.
Qed.

Lemma filter_mapM_raise {A B : Type} (f : A -> result (option B))
    (e : exn) (a : A) (l : list A) :
  f a = Raise e -> filter_mapM f (a :: l) = Raise e.
Proof. intro H. simpl. rewrite H. reflexivity. Qed.

Lemma select_dtypes_incl (p : Series -> bool) (df : DataFrame) :
  incl (select_dtypes p df) (columns df).
Proof.
  unfold select_dtypes, columns. intros c H.
  apply in_map_iff in H. destruct H as [it [Hc Hit]].
  apply filter_In in Hit. destruct Hit as [Hit _].
  subst c. apply in_map. exact Hit.
Qed.

(* ===================================================================== *)
(** * What the profilers return *)
(* ===================================================================== *)

Lemma compute_numeric_stats_eq (df : DataFrame) :
  compute_numeric_stats df =
  Ok {| numeric_cols := select_dtypes is_numeric df;
        nstats := map (fun col => (col, numeric_col_stats df (column_of df col)))
                      (select_dtypes is_numeric df) |}.
Proof.
  unfold compute_numeric_stats.
  pose proof (select_dtypes_incl is_numeric df) as Hincl.
  destruct (select_dtypes is_numeric df) as [|c l] eqn:E.
  - reflexivity.
  - rewrite (mapM_pure _ (fun col => (col, numeric_col_stats df (column_of df col)))).
    + reflexivity.
    + intros a Ha. rewrite (getitem_column_of df a (Hincl a Ha)). reflexivity.
Qed.

Lemma compute_categorical_stats_eq (df : DataFrame) (top_k : Z) :
  compute_categorical_stats df top_k =
  Ok {| categorical_cols := select_dtypes is_categorical df;
        cstats := map (fun col => (col, categorical_col_stats top_k (column_of df col)))
                      (select_dtypes is_categorical df) |}.
Proof.
  unfold compute_categorical_stats.
  pose proof (select_dtypes_incl is_categorical df) as Hincl.
  destruct (select_dtypes is_categorical df) as [|c l] eqn:E.
  - reflexivity.
  - rewrite (mapM_pure _ (fun col => (col, categorical_col_stats top_k (column_of df col)))).
    + reflexivity.
    + intros a Ha. rewrite (getitem_column_of df a (Hincl a Ha)). reflexivity.
Qed.

(* ===================================================================== *)
(** * What the quality scorer returns, and when it raises *)
(* ===================================================================== *)

Lemma compute_quality_flags_eq (df : DataFrame) (t : float) :
  index_len df <> 0%nat \/ select_dtypes is_categorical df = [] ->
  compute_quality_flags df t = Ok (flags_of df t).
Proof.
  intro Hdom. unfold compute_quality_flags.
  rewrite compute_numeric_stats_eq, compute_categorical_stats_eq.
  cbn [bind numeric_cols nstats categorical_cols cstats].
  rewrite (filter_mapM_pure _ (fun col => nunique (column_of df col) <=? 1)
                            (fun col => col)).
  2:{ intros a Ha. rewrite (getitem_column_of df a Ha). reflexivity. }
  cbn [bind]. rewrite map_id.
  rewrite (filter_mapM_pure _
             (fun col => float_gt (unique_ratio_of df col) 0.5%float)
             (fun col => {| hc_column := col;
                            hc_unique_count := nunique (column_of df col);
                            hc_unique_ratio := unique_ratio_of df col |})).
  2:{ intros a Ha.
      rewrite (dict_get_keyed (fun c => categorical_col_stats 5 (column_of df c)) a _ Ha).
      cbn [bind unique_count categorical_col_stats]. unfold py_true_divide.
      destruct (Z.of_nat (index_len df) =? 0) eqn:E.
      - apply Z.eqb_eq in E. destruct Hdom as [Hn|Hc].
        + exfalso. apply Hn. lia.
        + rewrite Hc in Ha. contradiction.
      - reflexivity. }
  cbn [bind].
  rewrite (filter_mapM_pure _
             (fun col => 0 <? duplicated_sum (column_of df col))
             (fun col => {| dup_column := col;
                            duplicate_count := duplicated_sum (column_of df col);
                            duplicate_share :=
                              np_true_divide (duplicated_sum (column_of df col))
                                             (Z.of_nat (index_len df)) |})).
  2:{ intros a Ha. apply filter_In in Ha. destruct Ha as [Ha _].
      rewrite (getitem_column_of df a Ha). reflexivity. }
  cbn [bind].
  rewrite (filter_mapM_pure _
             (fun col => float_gt (zeros_share_of df col) 0.4%float)
             (fun col => {| mz_column := col;
                            zero_count := sum_mask (eq_zero (column_of df col));
                            zero_share := zeros_share_of df col |})).
  2:{ intros a Ha.
      rewrite (dict_get_keyed (fun c => numeric_col_stats df (column_of df c)) a _ Ha).
      reflexivity. }
  reflexivity.
Qed.

(** With no rows and an object column the cardinality ratio is the Python
    division [0 / 0]. *)
Lemma compute_quality_flags_raises (df : DataFrame) (t : float) :
  index_len df = 0%nat -> select_dtypes is_categorical df <> [] ->
  compute_quality_flags df t = Raise ZeroDivisionError.
Proof.
  intros Hn Hc. unfold compute_quality_flags.
  rewrite compute_numeric_stats_eq, compute_categorical_stats_eq.
  cbn [bind numeric_cols nstats categorical_cols cstats].
  rewrite (filter_mapM_pure _ (fun col => nunique (column_of df col) <=? 1)
                            (fun col => col)).
  2:{ intros a Ha. rewrite (getitem_column_of df a Ha). reflexivity. }
  cbn [bind].
  destruct (select_dtypes is_categorical df) as [|c l] eqn:E.
  - contradiction.
  - rewrite (filter_mapM_raise _ ZeroDivisionError); [reflexivity|].
    cbn [map dict_get]. rewrite String.eqb_refl. cbn [bind].
    unfold py_true_divide. rewrite Hn. reflexivity.
Qed.

Lemma compute_quality_flags_inv (df : DataFrame) (t : float) (fl : QualityFlags) :
  compute_quality_flags df t = Ok fl ->
  fl = flags_of df t
  /\ (index_len df <> 0%nat \/ select_dtypes is_categorical df = []).
Proof.
  intro H.
  destruct (Nat.eq_dec (index_len df) 0) as [Hn|Hn].
  - destruct (select_dtypes is_categorical df) as [|c l] eqn:E.
    + rewrite compute_quality_flags_eq in H by (right; exact E).
      inversion H. auto.
    + rewrite compute_quality_flags_raises in H; [discriminate|exact Hn|].
      rewrite E. discriminate.
  - rewrite compute_quality_flags_eq in H by (left; exact Hn).
    inversion H. auto.
Qed.

(* ===================================================================== *)
(** * The quality score *)
(* ===================================================================== *)

(** C1. Whenever [compute_quality_flags] returns (it does on every table
    with at least one row, and on every table without object columns), the
    returned dictionary exposes the per-rule penalties, each the number of
    evidence items of the rule times its weight (15, 10, 8, 12, 7), and the
    score [max(0, 100 - total_penalty)] where [total_penalty] is the sum of
    the five penalties. In particular one constant column and no other
    evidence gives exactly 90. *)
Theorem quality_score_formula (df : DataFrame) (t : float) :
  (index_len df <> 0%nat \/ select_dtypes is_categorical df = [] ->
   exists fl, compute_quality_flags df t = Ok fl)
  /\ (forall fl, compute_quality_flags df t = Ok fl ->
      let hm := len (high_missing_cols fl) in
      let cc := len (constant_columns fl) in
      let hc := len (high_cardinality_cols fl) in
      let dup := len (suspicious_id_duplicates fl) in
      let mz := len (many_zeros_cols fl) in
      quality_penalties fl =
        [ ("high_missing"%string, hm * 15);
          ("constant_cols"%string, cc * 10);
          ("high_cardinality"%string, hc * 8);
          ("id_duplicates"%string, dup * 12);
          ("many_zeros"%string, mz * 7) ]
      /\ quality_score fl =
           Z.max 0 (100 - (hm * 15 + cc * 10 + hc * 8 + dup * 12 + mz * 7))
      /\ quality_score fl = Z.max 0 (100 - Zsum (map snd (quality_penalties fl)))
      /\ (cc = 1 -> hm = 0 -> hc = 0 -> dup = 0 -> mz = 0 ->
          quality_score fl = 90)).
Proof.
  split.
  - intro Hdom. exists (flags_of df t). apply compute_quality_flags_eq. exact Hdom.
  - intros fl H. apply compute_quality_flags_inv in H. destruct H as [-> _].
    cbn [flags_of high_missing_cols constant_columns high_cardinality_cols
         suspicious_id_duplicates many_zeros_cols quality_penalties
         quality_score map snd Zsum].
    repeat split.
    + f_equal. lia.
    + intros Hcc Hhm Hhc Hdup Hmz. rewrite Hcc, Hhm, Hhc, Hdup, Hmz. reflexivity.
Qed.

Lemma quality_score_formula_witness :
  exists fl, compute_quality_flags df_constant default_min_missing_share = Ok fl
             /\ constant_columns fl = ["constant_col"%string]
             /\ quality_score fl = 90.
Proof.
  destruct (quality_score_formula df_constant default_min_missing_share)
    as [Hret Hscore].
  destruct Hret as [fl Hfl].
  { left. discriminate. }
  exists fl. split; [exact Hfl|].
  destruct (Hscore fl Hfl) as (_ & _ & _ & H90).
  vm_compute in Hfl. injection Hfl as <-.
  split; [reflexivity|]. apply H90; reflexivity.
Defined.

(* ===================================================================== *)
(** * Adding a column *)
(* ===================================================================== *)

Lemma len_nonneg {A : Type} (l : list A) : 0 <= len l.
Proof. unfold len. lia. Qed.

Lemma len_app {A : Type} (l l' : list A) : len (l ++ l') = len l + len l'.
Proof. unfold len. rewrite length_app. lia. Qed.

Lemma len_map {A B : Type} (f : A -> B) (l : list A) : len (map f l) = len l.
Proof. unfold len. rewrite length_map. reflexivity. Qed.

(** A filter over an extended list, by a test that agrees with the old
    one on the old elements, keeps at least as many elements. *)
Lemma filter_extended {A : Type} (p p' : A -> bool) (l l' : list A) :
  (forall x, In x l -> p' x = p x) ->
  len (filter p l) <= len (filter p' (l ++ l')).
Proof.
  intro H. rewrite filter_app, len_app.
  rewrite (filter_ext_in p' p l H).
  pose proof (len_nonneg (filter p' l')). lia.
Qed.

Lemma columns_add_column (df : DataFrame) (c : string) (s : Series) :
  columns (add_column df c s) = columns df ++ [c].
Proof. unfold columns, add_column. simpl. rewrite map_app. reflexivity. Qed.

Lemma column_of_add_column (df : DataFrame) (c : string) (s : Series) (col : string) :
  In col (columns df) -> column_of (add_column df c s) col = column_of df col.
Proof.
  intro H. unfold column_of, getitem, add_column. simpl.
  rewrite (dict_get_app_in col (items df) [(c, s)] H). reflexivity.
Qed.

Lemma select_dtypes_add_column (p : Series -> bool) (df : DataFrame)
    (c : string) (s : Series) :
  select_dtypes p (add_column df c s) =
  select_dtypes p df ++ (if p s then [c] else []).
Proof.
  unfold select_dtypes, add_column. simpl.
  rewrite filter_app, map_app. simpl. destruct (p s); reflexivity.
Qed.

Lemma high_missing_add_column (df : DataFrame) (c : string) (s : Series) (t : float) :
  len (high_missing_of df t) <= len (high_missing_of (add_column df c s) t).
Proof.
  unfold high_missing_of, compute_missing_stats, add_column.
  cbn [missing_shares index_len items].
  rewrite !len_map, !map_app.
  apply filter_extended. reflexivity.
Qed.

Lemma constant_add_column (df : DataFrame) (c : string) (s : Series) :
  len (constant_of df) <= len (constant_of (add_column df c s)).
Proof.
  unfold constant_of. rewrite columns_add_column.
  apply filter_extended. intros x Hx.
  rewrite (column_of_add_column df c s x Hx). reflexivity.
Qed.

Lemma high_cardinality_add_column (df : DataFrame) (c : string) (s : Series) :
  len (high_cardinality_of df) <= len (high_cardinality_of (add_column df c s)).
Proof.
  unfold high_cardinality_of. rewrite !len_map, select_dtypes_add_column.
  apply filter_extended. intros x Hx.
  apply select_dtypes_incl in Hx.
  unfold unique_ratio_of. rewrite (column_of_add_column df c s x Hx).
  reflexivity.
Qed.

Lemma id_duplicates_add_column (df : DataFrame) (c : string) (s : Series) :
  len (id_duplicates_of df) <= len (id_duplicates_of (add_column df c s)).
Proof.
  unfold id_duplicates_of. rewrite !len_map, columns_add_column, filter_app.
  apply filter_extended. intros x Hx.
  apply filter_In in Hx. destruct Hx as [Hx _].
  rewrite (column_of_add_column df c s x Hx). reflexivity.
Qed.

Lemma many_zeros_add_column (df : DataFrame) (c : string) (s : Series) :
  len (many_zeros_of df) <= len (many_zeros_of (add_column df c s)).
Proof.
  unfold many_zeros_of. rewrite !len_map, select_dtypes_add_column.
  apply filter_extended. intros x Hx.
  apply select_dtypes_incl in Hx.
  unfold zeros_share_of. rewrite (column_of_add_column df c s x Hx).
  reflexivity.
Qed.

(** C6. The score is non-increasing in each evidence count: of two
    returned dictionaries, the one with at least as many evidence items
    under every rule has the lower or equal score; and appending a column
    to a table, whatever rules it triggers, never raises the score. *)
Theorem quality_score_monotone :
  (forall df t df' t' fl fl',
      compute_quality_flags df t = Ok fl ->
      compute_quality_flags df' t' = Ok fl' ->
      len (high_missing_cols fl) <= len (high_missing_cols fl') ->
      len (constant_columns fl) <= len (constant_columns fl') ->
      len (high_cardinality_cols fl) <= len (high_cardinality_cols fl') ->
      len (suspicious_id_duplicates fl) <= len (suspicious_id_duplicates fl') ->
      len (many_zeros_cols fl) <= len (many_zeros_cols fl') ->
      quality_score fl' <= quality_score fl)
  /\ (forall df col s t fl',
      compute_quality_flags (add_column df col s) t = Ok fl' ->
      exists fl, compute_quality_flags df t = Ok fl
                 /\ quality_score fl' <= quality_score fl).
Proof.
  assert (Hmono : forall df t df' t' fl fl',
      compute_quality_flags df t = Ok fl ->
      compute_quality_flags df' t' = Ok fl' ->
      len (high_missing_cols fl) <= len (high_missing_cols fl') ->
      len (constant_columns fl) <= len (constant_columns fl') ->
      len (high_cardinality_cols fl) <= len (high_cardinality_cols fl') ->
      len (suspicious_id_duplicates fl) <= len (suspicious_id_duplicates fl') ->
      len (many_zeros_cols fl) <= len (many_zeros_cols fl') ->
      quality_score fl' <= quality_score fl).
  { intros df t df' t' fl fl' H H'.
    apply compute_quality_flags_inv in H. destruct H as [-> _].
    apply compute_quality_flags_inv in H'. destruct H' as [-> _].
    cbn [flags_of high_missing_cols constant_columns high_cardinality_cols
         suspicious_id_duplicates many_zeros_cols quality_score map snd Zsum].
    lia. }
  split; [exact Hmono|].
  intros df col s t fl' H'.
  assert (Hdom : index_len df <> 0%nat \/ select_dtypes is_categorical df = []).
  { apply compute_quality_flags_inv in H'. destruct H' as [_ [Hn|Hc]].
    - left. exact Hn.
    - right. rewrite select_dtypes_add_column in Hc.
      apply app_eq_nil in Hc. tauto. }
  exists (flags_of df t). split.
  - apply compute_quality_flags_eq. exact Hdom.
  - apply (Hmono df t (add_column df col s) t).
    + apply compute_quality_flags_eq. exact Hdom.
    + exact H'.
    + apply compute_quality_flags_inv in H'. destruct H' as [-> _].
      apply high_missing_add_column.
    + apply compute_quality_flags_inv in H'. destruct H' as [-> _].
      apply constant_add_column.
    + apply compute_quality_flags_inv in H'. destruct H' as [-> _].
      apply high_cardinality_add_column.
    + apply compute_quality_flags_inv in H'. destruct H' as [-> _].
      apply id_duplicates_add_column.
    + apply compute_quality_flags_inv in H'. destruct H' as [-> _].
      apply many_zeros_add_column.
Qed.

Lemma quality_score_monotone_witness :
  exists fl fl',
    compute_quality_flags df_id_duplicates default_min_missing_share = Ok fl
    /\ compute_quality_flags
         (add_column df_id_duplicates "refunds" (Int64 [0; 0; 0; 7; 0]))
         default_min_missing_share = Ok fl'
    /\ quality_score fl = 88 /\ quality_score fl' = 81
    /\ quality_score fl' <= quality_score fl.
Proof.
  destruct quality_score_monotone as [_ Hadd].
  destruct (Hadd df_id_duplicates "refunds"%string (Int64 [0; 0; 0; 7; 0])
                 default_min_missing_share
                 (flags_of (add_column df_id_duplicates "refunds"
                                       (Int64 [0; 0; 0; 7; 0]))
                           default_min_missing_share))
    as [fl [Hfl Hle]].
  { apply compute_quality_flags_eq. left. discriminate. }
  exists fl, (flags_of (add_column df_id_duplicates "refunds"
                                   (Int64 [0; 0; 0; 7; 0]))
                       default_min_missing_share).
  split; [exact Hfl|]. split.
  { apply compute_quality_flags_eq. left. discriminate. }
  vm_compute in Hfl. injection Hfl as <-.
  split; [reflexivity|]. split; [reflexivity|]. exact Hle.
Defined.

(* ===================================================================== *)
(** * Identifier candidates *)
(* ===================================================================== *)

Lemma lower_ascii_i (c : ascii) :
  lower_ascii c = "i"%char <-> c = "i"%char \/ c = "I"%char.
Proof.
  destruct c as [b0 b1 b2 b3 b4 b5 b6 b7].
  destruct b0, b1, b2, b3, b4, b5, b6, b7; vm_compute;
    (split; [intro H; try discriminate H; auto
            |intros [H|H]; try discriminate H; reflexivity]).
Qed.

Lemma lower_ascii_d (c : ascii) :
  lower_ascii c = "d"%char <-> c = "d"%char \/ c = "D"%char.
Proof.
  destruct c as [b0 b1 b2 b3 b4 b5 b6 b7].
  destruct b0, b1, b2, b3, b4, b5, b6, b7; vm_compute;
    (split; [intro H; try discriminate H; auto
            |intros [H|H]; try discriminate H; reflexivity]).
Qed.

Lemma lower_app (x y : string) : lower (x ++ y) = (lower x ++ lower y)%string.
Proof. induction x as [|c x IH]; simpl; [reflexivity|rewrite IH; reflexivity]. Qed.

Lemma lower_app_inv (x y s : string) :
  lower s = (x ++ y)%string ->
  exists x' y', s = (x' ++ y')%string /\ lower x' = x /\ lower y' = y.
Proof.
  revert s. induction x as [|c x IH]; intros s H.
  - exists EmptyString, s. auto.
  - destruct s as [|c' s]; simpl in H; [discriminate|].
    injection H as Hc Hs. destruct (IH s Hs) as [x' [y' [E [Hx Hy]]]].
    exists (String c' x'), y'. simpl. subst. auto.
Qed.

Lemma prefix_two (a b : ascii) (s : string) :
  prefix (String a (String b EmptyString)) s = true <->
  exists post, s = String a (String b post).
Proof.
  split.
  - destruct s as [|c [|d t]]; simpl; try discriminate.
    + destruct (ascii_dec a c); discriminate.
    + destruct (ascii_dec a c); [|discriminate].
      destruct (ascii_dec b d); [|discriminate].
      intros _. subst. exists t. reflexivity.
  - intros [post ->]. simpl.
    destruct (ascii_dec a a); [|congruence].
    destruct (ascii_dec b b); [|congruence].
    destruct post; reflexivity.
Qed.

Lemma str_in_two (a b : ascii) (s : string) :
  str_in (String a (String b EmptyString)) s = true <->
  exists pre post, s = (pre ++ String a (String b post))%string.
Proof.
  induction s as [|c s IH].
  - simpl. split; [discriminate|].
    intros [pre [post H]]. destruct pre; discriminate.
  - cbn [str_in]. rewrite orb_true_iff, prefix_two, IH. split.
    + intros [[post H]|[pre [post H]]].
      * exists EmptyString, post. exact H.
      * exists (String c pre), post. simpl. rewrite H. reflexivity.
    + intros [[|c' pre] [post H]]; simpl in H.
      * left. exists post. exact H.
      * right. injection H as _ H. exists pre, post. exact H.
Qed.

(** The test of the source, with its redundant second disjunct, selects
    exactly the names that contain "id" case-insensitively. *)
Lemma is_id_candidate_spec (name : string) :
  is_id_candidate name = true <-> contains_id_ci name.
Proof.
  unfold is_id_candidate, contains_id_ci.
  rewrite orb_true_iff.
  change "id"%string with (String "i" (String "d" EmptyString)).
  change "ID"%string with (String "I" (String "D" EmptyString)).
  rewrite !str_in_two. split.
  - intros [[pre [post H]]|[pre [post H]]].
    + apply lower_app_inv in H. destruct H as [x' [y' [E [Hx Hy]]]].
      destruct y' as [|c1 [|c2 y']]; simpl in Hy; try discriminate.
      injection Hy as H1 H2 H3.
      exists x', c1, c2, y'. split; [exact E|].
      split; [apply lower_ascii_i; exact H1|apply lower_ascii_d; exact H2].
    + exists pre, "I"%char, "D"%char, post. auto.
  - intros [pre [c1 [c2 [post [E [H1 H2]]]]]].
    left. exists (lower pre), (lower post).
    rewrite E, lower_app. simpl.
    apply lower_ascii_i in H1. apply lower_ascii_d in H2.
    rewrite H1, H2. reflexivity.
Qed.

(* ===================================================================== *)
(** * Hash-table algorithms *)
(* ===================================================================== *)

Section HashingFacts.
Context {K : Type} (eq_dec : forall x y : K, {x = y} + {x <> y}).

Lemma mem_true (x : K) (l : list K) : mem eq_dec x l = true <-> In x l.
Proof. unfold mem. destruct (in_dec eq_dec x l); split; auto; discriminate. Qed.

Lemma mem_false (x : K) (l : list K) : mem eq_dec x l = false <-> ~ In x l.
Proof.
  unfold mem. destruct (in_dec eq_dec x l); split; auto; try discriminate.
  intro H. contradiction.
Qed.

Lemma unique_from_in (x : K) (seen l : list K) :
  In x (unique_from eq_dec seen l) <-> In x l /\ ~ In x seen.
Proof.
  revert seen. induction l as [|a l IH]; intro seen; simpl.
  - tauto.
  - destruct (mem eq_dec a seen) eqn:E.
    + apply mem_true in E. rewrite IH. split.
      * tauto.
      * intros [[->|H] Hn]; [contradiction|auto].
    + apply mem_false in E. simpl. rewrite IH. simpl. split.
      * intros [->|[H Hn]]; [auto|]. split; [auto|]. tauto.
      * intros [[->|H] Hn]; [auto|].
        destruct (eq_dec a x) as [->|Hne]; [auto|]. right. tauto.
Qed.

Lemma unique_from_nodup (seen l : list K) : NoDup (unique_from eq_dec seen l).
Proof.
  revert seen. induction l as [|a l IH]; intro seen; simpl.
  - constructor.
  - destruct (mem eq_dec a seen) eqn:E.
    + apply IH.
    + constructor; [|apply IH].
      rewrite unique_from_in. simpl. tauto.
Qed.

Lemma unique_in (x : K) (l : list K) : In x (unique eq_dec l) <-> In x l.
Proof. unfold unique. rewrite unique_from_in. simpl. tauto. Qed.

Lemma unique_nodup (l : list K) : NoDup (unique eq_dec l).
Proof. apply unique_from_nodup. Qed.

(** Every position is either a first occurrence or a duplicate. *)
Lemma duplicated_from_unique_from (seen seen' l : list K) :
  (forall x, In x seen <-> In x seen') ->
  sum_mask (duplicated_from eq_dec seen l) + len (unique_from eq_dec seen' l)
  = len l.
Proof.
  revert seen seen'. induction l as [|a l IH]; intros seen seen' Hs.
  - reflexivity.
  - cbn [duplicated_from unique_from]. unfold sum_mask. cbn [map Zsum].
    fold (sum_mask (duplicated_from eq_dec (a :: seen) l)).
    destruct (mem eq_dec a seen') eqn:E'.
    + assert (E : mem eq_dec a seen = true).
      { apply mem_true. apply Hs. apply mem_true. exact E'. }
      rewrite E. cbn [b2z].
      assert (Hs' : forall x, In x (a :: seen) <-> In x seen').
      { intro x. simpl. rewrite Hs. apply mem_true in E'. split.
        - intros [->|H]; auto.
        - auto. }
      pose proof (IH (a :: seen) seen' Hs') as H.
      unfold len in *. cbn [List.length]. lia.
    + assert (E : mem eq_dec a seen = false).
      { apply mem_false. rewrite Hs. apply mem_false. exact E'. }
      rewrite E. cbn [b2z].
      assert (Hs' : forall x, In x (a :: seen) <-> In x (a :: seen')).
      { intro x. simpl. rewrite Hs. tauto. }
      pose proof (IH (a :: seen) (a :: seen') Hs') as H.
      unfold len in *. cbn [List.length]. lia.
Qed.

Lemma duplicated_sum_length (l : list K) :
  sum_mask (duplicated eq_dec l) = len l - len (unique eq_dec l).
Proof.
  pose proof (duplicated_from_unique_from [] [] l (fun x => iff_refl _)) as H.
  unfold duplicated, unique. lia.
Qed.

Lemma count_cons (k a : K) (l : list K) :
  count eq_dec k (a :: l) = count eq_dec k l + (if eq_dec a k then 1 else 0).
Proof. unfold count. simpl. destruct (eq_dec a k); lia. Qed.

Lemma Zsum_map_add {A : Type} (f g : A -> Z) (l : list A) :
  Zsum (map (fun x => f x + g x) l) = Zsum (map f l) + Zsum (map g l).
Proof. induction l as [|a l IH]; simpl; lia. Qed.

Lemma Zsum_map_ext {A : Type} (f g : A -> Z) (l : list A) :
  (forall x, In x l -> f x = g x) -> Zsum (map f l) = Zsum (map g l).
Proof.
  induction l as [|a l IH]; simpl; intro H; [reflexivity|].
  rewrite (H a) by auto. rewrite IH by auto. reflexivity.
Qed.

Lemma Zsum_map_const {A : Type} (c : Z) (l : list A) :
  Zsum (map (fun _ => c) l) = c * len l.
Proof.
  induction l as [|a l IH]; unfold len in *; cbn [map Zsum List.length]; lia.
Qed.

(** In a duplicate-free list a given element is met exactly once, if at
    all. *)
Lemma Zsum_indicator (a : K) (u : list K) :
  NoDup u ->
  Zsum (map (fun k => if eq_dec a k then 1 else 0) u)
  = if in_dec eq_dec a u then 1 else 0.
Proof.
  induction 1 as [|x u Hx Hnd IH]; cbn [map Zsum].
  - reflexivity.
  - rewrite IH. destruct (eq_dec a x) as [->|Hne].
    + destruct (in_dec eq_dec x u) as [Hin|Hin]; [contradiction|].
      destruct (in_dec eq_dec x (x :: u)) as [_|Hn]; [lia|].
      exfalso. apply Hn. left. reflexivity.
    + destruct (in_dec eq_dec a u) as [Hin|Hin];
        destruct (in_dec eq_dec a (x :: u)) as [Hin'|Hin']; try lia.
      * exfalso. apply Hin'. right. exact Hin.
      * destruct Hin' as [->|Hin']; contradiction.
Qed.

(** The counts of the distinct values add up to the length. *)
Lemma Zsum_counts (u l : list K) :
  NoDup u -> (forall x, In x l -> In x u) ->
  Zsum (map (fun k => count eq_dec k l) u) = len l.
Proof.
  intros Hnd. induction l as [|a l IH]; intro Hin.
  - unfold count. simpl. rewrite (Zsum_map_const 0). reflexivity.
  - rewrite (Zsum_map_ext _ (fun k => count eq_dec k l
                                      + (if eq_dec a k then 1 else 0))).
    2:{ intros x _. apply count_cons. }
    rewrite Zsum_map_add, IH by (intros; apply Hin; right; assumption).
    rewrite (Zsum_indicator a u Hnd).
    destruct (in_dec eq_dec a u) as [_|Hn].
    + unfold len. cbn [List.length]. lia.
    + exfalso. apply Hn. apply Hin. left. reflexivity.
Qed.

(** [duplicated().sum()] is the number of occurrences beyond the first
    of each value. *)
Lemma duplicated_sum_spec (l : list K) :
  sum_mask (duplicated eq_dec l)
  = Zsum (map (fun k => count eq_dec k l - 1) (unique eq_dec l)).
Proof.
  rewrite duplicated_sum_length.
  rewrite (Zsum_map_ext _ (fun k => count eq_dec k l + (-1))) by (intros; lia).
  rewrite Zsum_map_add, (Zsum_map_const (-1)).
  rewrite (Zsum_counts (unique eq_dec l) l (unique_nodup l)).
  - lia.
  - intros x Hx. apply unique_in. exact Hx.
Qed.

End HashingFacts.

(* ===================================================================== *)
(** * The suspicious-identifier rule *)
(* ===================================================================== *)

Lemma columns_items (df : DataFrame) (col : string) :
  In col (columns df) <-> exists s, In (col, s) (items df).
Proof.
  unfold columns. rewrite in_map_iff. split.
  - intros [[c s] [Hc Hin]]. simpl in Hc. subst c. exists s. exact Hin.
  - intros [s Hin]. exists (col, s). auto.
Qed.

Lemma duplicated_sum_cells (s : Series) :
  duplicated_sum s = occurrences_beyond_first (cells s).
Proof. apply duplicated_sum_spec. Qed.

Ltac solve_well_formed :=
  split;
  [ repeat constructor
  | repeat (constructor; [simpl; intuition discriminate|]); constructor ].

(** C7. On a well-formed table the suspicious-identifier rule reports
    exactly the columns whose name contains "id" case-insensitively and
    whose values contain a duplicate, each with [duplicate_count] the number
    of occurrences beyond the first of each value and [duplicate_share]
    that count divided by the row count; the flag is set exactly when there
    is such evidence. A column [user_id = [1,2,2,3,4]] sets the flag, with
    count 1 and share 0.2. *)
Theorem suspicious_id_rule (df : DataFrame) (t : float) (fl : QualityFlags) :
  well_formed df ->
  compute_quality_flags df t = Ok fl ->
  (forall e, In e (suspicious_id_duplicates fl) <->
     exists col s,
       In (col, s) (items df) /\ contains_id_ci col
       /\ 0 < occurrences_beyond_first (cells s)
       /\ e = {| dup_column := col;
                 duplicate_count := occurrences_beyond_first (cells s);
                 duplicate_share :=
                   np_true_divide (occurrences_beyond_first (cells s))
                                  (Z.of_nat (index_len df)) |})
  /\ (has_suspicious_id_duplicates fl = true <->
      suspicious_id_duplicates fl <> [])
  /\ (In ("user_id"%string, Int64 [1; 2; 2; 3; 4]) (items df) ->
      has_suspicious_id_duplicates fl = true
      /\ In {| dup_column := "user_id";
               duplicate_count := 1;
               duplicate_share := 0.2%float |} (suspicious_id_duplicates fl)).
Proof.
  intros [Hsize Hnd] H.
  apply compute_quality_flags_inv in H. destruct H as [-> _].
  cbn [flags_of suspicious_id_duplicates has_suspicious_id_duplicates].
  assert (Hev : forall e, In e (id_duplicates_of df) <->
     exists col s,
       In (col, s) (items df) /\ contains_id_ci col
       /\ 0 < occurrences_beyond_first (cells s)
       /\ e = {| dup_column := col;
                 duplicate_count := occurrences_beyond_first (cells s);
                 duplicate_share :=
                   np_true_divide (occurrences_beyond_first (cells s))
                                  (Z.of_nat (index_len df)) |}).
  { intro e. unfold id_duplicates_of. rewrite in_map_iff. split.
    - intros [col [He Hin]].
      apply filter_In in Hin. destruct Hin as [Hin Hdup].
      apply filter_In in Hin. destruct Hin as [Hin Hid].
      apply columns_items in Hin. destruct Hin as [s Hs].
      rewrite (column_of_own df col s Hnd Hs) in *.
      rewrite duplicated_sum_cells in *.
      exists col, s. split; [exact Hs|].
      split; [apply is_id_candidate_spec; exact Hid|].
      split; [apply Z.ltb_lt; exact Hdup|]. symmetry. exact He.
    - intros [col [s [Hs [Hid [Hdup He]]]]].
      exists col. rewrite (column_of_own df col s Hnd Hs).
      rewrite duplicated_sum_cells. split; [symmetry; exact He|].
      apply filter_In. split.
      + apply filter_In. split.
        * apply columns_items. exists s. exact Hs.
        * apply is_id_candidate_spec. exact Hid.
      + rewrite (column_of_own df col s Hnd Hs), duplicated_sum_cells.
        apply Z.ltb_lt. exact Hdup. }
  assert (Hflag : (0 <? len (id_duplicates_of df)) = true <->
                  id_duplicates_of df <> []).
  { rewrite Z.ltb_lt. unfold len.
    destruct (id_duplicates_of df); simpl; split; intro; try lia; congruence. }
  split; [exact Hev|]. split; [exact Hflag|].
  intro Hin.
  assert (Hmem : In {| dup_column := "user_id";
                       duplicate_count := 1;
                       duplicate_share := 0.2%float |} (id_duplicates_of df)).
  { apply Hev. exists "user_id"%string, (Int64 [1; 2; 2; 3; 4]).
    split; [exact Hin|].
    split; [apply is_id_candidate_spec; reflexivity|].
    split; [reflexivity|].
    rewrite Forall_forall in Hsize. specialize (Hsize _ Hin).
    simpl in Hsize. rewrite <- Hsize. reflexivity. }
  split; [|exact Hmem].
  apply Hflag. intro E. rewrite E in Hmem. contradiction.
Qed.

Lemma suspicious_id_rule_witness :
  exists fl,
    compute_quality_flags df_id_duplicates default_min_missing_share = Ok fl
    /\ has_suspicious_id_duplicates fl = true
    /\ suspicious_id_duplicates fl =
         [ {| dup_column := "user_id";
              duplicate_count := 1;
              duplicate_share := 0.2%float |} ].
Proof.
  exists (flags_of df_id_duplicates default_min_missing_share).
  assert (Hwf : well_formed df_id_duplicates) by solve_well_formed.
  assert (Hrun : compute_quality_flags df_id_duplicates default_min_missing_share
                 = Ok (flags_of df_id_duplicates default_min_missing_share)).
  { apply compute_quality_flags_eq. left. discriminate. }
  destruct (suspicious_id_rule df_id_duplicates default_min_missing_share _
                               Hwf Hrun) as (_ & _ & Hscenario).
  destruct Hscenario as [Hflag _].
  { left. reflexivity. }
  split; [exact Hrun|]. split; [exact Hflag|]. reflexivity.
Defined.

(* ===================================================================== *)
(** * Looking a column up in the profilers' dictionaries *)
(* ===================================================================== *)

Lemma select_dtypes_in (p : Series -> bool) (df : DataFrame) (col : string)
    (s : Series) :
  In (col, s) (items df) -> p s = true -> In col (select_dtypes p df).
Proof.
  intros Hin Hp. unfold select_dtypes.
  change col with (fst (col, s)). apply in_map.
  apply filter_In. split; [exact Hin|exact Hp].
Qed.

Lemma numeric_stats_lookup (df : DataFrame) (ns : NumericStats) (col : string)
    (s : Series) :
  well_formed df -> compute_numeric_stats df = Ok ns ->
  In (col, s) (items df) -> is_numeric s = true ->
  dict_get col (nstats ns) = Ok (numeric_col_stats df s).
Proof.
  intros [_ Hnd] H Hin Hnum.
  rewrite compute_numeric_stats_eq in H. injection H as <-.
  cbn [nstats].
  rewrite (dict_get_keyed (fun c => numeric_col_stats df (column_of df c))).
  - rewrite (column_of_own df col s Hnd Hin). reflexivity.
  - apply (select_dtypes_in _ _ _ s); assumption.
Qed.

Lemma categorical_stats_lookup (df : DataFrame) (top_k : Z)
    (cs : CategoricalStats) (col : string) (s : Series) :
  well_formed df -> compute_categorical_stats df top_k = Ok cs ->
  In (col, s) (items df) -> is_categorical s = true ->
  dict_get col (cstats cs) = Ok (categorical_col_stats top_k s).
Proof.
  intros [_ Hnd] H Hin Hcat.
  rewrite compute_categorical_stats_eq in H. injection H as <-.
  cbn [cstats].
  rewrite (dict_get_keyed (fun c => categorical_col_stats top_k (column_of df c))).
  - rewrite (column_of_own df col s Hnd Hin). reflexivity.
  - apply (select_dtypes_in _ _ _ s); assumption.
Qed.

(* ===================================================================== *)
(** * Zeros in numeric columns *)
(* ===================================================================== *)

Lemma sum_mask_filter {A : Type} (p : A -> bool) (l : list A) :
  sum_mask (map p l) = len (filter p l).
Proof.
  unfold sum_mask, len. induction l as [|a l IH]; cbn [map Zsum filter].
  - reflexivity.
  - rewrite IH. destruct (p a); cbn [b2z List.length]; lia.
Qed.

Lemma len_filter_le {A : Type} (p : A -> bool) (l : list A) :
  len (filter p l) <= len l.
Proof. unfold len. pose proof (filter_length_le p l). lia. Qed.

Lemma zeros_count_spec (s : Series) :
  is_numeric s = true -> sum_mask (eq_zero s) = count_zero_cells s.
Proof.
  destruct s; simpl; try discriminate; intros _; apply sum_mask_filter.
Qed.

(** C8. For every numeric column of a well-formed table, the numeric
    profiler returns [zeros_count], the number of cells exactly equal to 0,
    and [zeros_share], that count divided by the row count of the table,
    which is the number of all cells of the column, null cells included.
    For [B = [0,0,1,2,3]] these are 2 and 0.4. *)
Theorem zeros_count_and_share (df : DataFrame) (col : string) (s : Series) :
  well_formed df ->
  In (col, s) (items df) -> is_numeric s = true ->
  exists ns st,
    compute_numeric_stats df = Ok ns
    /\ dict_get col (nstats ns) = Ok st
    /\ zeros_count st = count_zero_cells s
    /\ zeros_share st = np_true_divide (zeros_count st) (Z.of_nat (index_len df))
    /\ Z.of_nat (index_len df) = len (cells s)
    /\ non_null_count s <= Z.of_nat (index_len df)
    /\ 0 <= zeros_count st <= Z.of_nat (index_len df)
    /\ (s = Int64 [0; 0; 1; 2; 3] ->
        zeros_count st = 2 /\ zeros_share st = 0.4%float).
Proof.
  intros Hwf Hin Hnum.
  eexists. exists (numeric_col_stats df s).
  split; [apply compute_numeric_stats_eq|].
  split; [apply (numeric_stats_lookup df _ col s Hwf
                   (compute_numeric_stats_eq df) Hin Hnum)|].
  destruct Hwf as [Hsize _].
  rewrite Forall_forall in Hsize. specialize (Hsize _ Hin).
  cbn [snd] in Hsize. unfold size in Hsize.
  cbn [numeric_col_stats zeros_count zeros_share].
  rewrite zeros_count_spec by exact Hnum.
  assert (Hlen : Z.of_nat (index_len df) = len (cells s)).
  { unfold len. rewrite Hsize. reflexivity. }
  split; [reflexivity|]. split; [reflexivity|]. split; [exact Hlen|].
  split.
  { rewrite Hlen. unfold non_null_count, len, dropna.
    clear. induction (cells s) as [|[c|] l IH]; cbn [flat_map List.length app];
      [lia| |]; cbn [List.length]; lia. }
  split.
  { rewrite Hlen. destruct s; try discriminate; cbn [count_zero_cells cells];
      rewrite len_map; split; try apply len_nonneg; apply len_filter_le. }
  intros ->. simpl in Hsize. rewrite <- Hsize. split; reflexivity.
Qed.

Lemma zeros_count_and_share_witness :
  exists ns st,
    compute_numeric_stats df_numeric = Ok ns
    /\ dict_get "B" (nstats ns) = Ok st
    /\ zeros_count st = 2 /\ zeros_share st = 0.4%float.
Proof.
  assert (Hwf : well_formed df_numeric) by solve_well_formed.
  destruct (zeros_count_and_share df_numeric "B" (Int64 [0; 0; 1; 2; 3]) Hwf)
    as (ns & st & Hns & Hst & _ & _ & _ & _ & _ & Hscenario).
  { right. left. reflexivity. }
  { reflexivity. }
  exists ns, st. split; [exact Hns|]. split; [exact Hst|].
  apply Hscenario. reflexivity.
Defined.

(** The denominator counts the null cell: [score = [0, NaN, 0, 1]] has
    three non-null cells and a share of zeros of 2/4. *)
Lemma zeros_share_counts_null_cells :
  exists ns st,
    compute_numeric_stats df_missing = Ok ns
    /\ dict_get "score" (nstats ns) = Ok st
    /\ non_null_count (Float64 [0; nan; 0; 1]%float) = 3
    /\ zeros_count st = 2
    /\ zeros_share st = 0.5%float.
Proof.
  eexists. eexists.
  split; [vm_compute; reflexivity|].
  split; [vm_compute; reflexivity|].
  repeat split.
Qed.

(* ===================================================================== *)
(** * Frequency tables *)
(* ===================================================================== *)

Lemma insert_desc_in {K : Type} (e x : K * Z) (l : list (K * Z)) :
  In x (insert_desc e l) <-> x = e \/ In x l.
Proof.
  induction l as [|h t IH]; simpl.
  - intuition.
  - destruct (snd e <? snd h); simpl; rewrite ?IH; intuition.
Qed.

Lemma sort_desc_in {K : Type} (x : K * Z) (l : list (K * Z)) :
  In x (sort_desc l) <-> In x l.
Proof.
  unfold sort_desc. induction l as [|a l IH]; simpl.
  - tauto.
  - rewrite insert_desc_in, IH. intuition.
Qed.

Lemma insert_desc_head {K : Type} (e : K * Z) (l : list (K * Z)) :
  head_is_max l -> head_is_max (insert_desc e l).
Proof.
  destruct l as [|h t]; simpl.
  - intros _ x [->|[]]. lia.
  - intro Hmax. destruct (snd e <? snd h) eqn:E.
    + apply Z.ltb_lt in E. simpl. intros x [->|Hx]; [lia|].
      apply insert_desc_in in Hx. destruct Hx as [->|Hx]; [lia|].
      apply Hmax. right. exact Hx.
    + apply Z.ltb_ge in E. simpl. intros x [->|Hx]; [lia|].
      specialize (Hmax x Hx). lia.
Qed.

Lemma sort_desc_head {K : Type} (l : list (K * Z)) : head_is_max (sort_desc l).
Proof.
  unfold sort_desc. induction l as [|a l IH]; simpl.
  - exact I.
  - apply insert_desc_head. exact IH.
Qed.

Lemma sort_desc_nil {K : Type} (l : list (K * Z)) : sort_desc l = [] -> l = [].
Proof.
  destruct l as [|a l]; [reflexivity|]. intro H.
  assert (Hin : In a (sort_desc (a :: l))) by (apply sort_desc_in; left; reflexivity).
  rewrite H in Hin. contradiction.
Qed.

Section FrequencyFacts.
Context {K : Type} (eq_dec : forall x y : K, {x = y} + {x <> y}).

Lemma count_nonneg (k : K) (l : list K) : 0 <= count eq_dec k l.
Proof. unfold count. lia. Qed.

Lemma count_pos (k : K) (l : list K) : 0 < count eq_dec k l <-> In k l.
Proof.
  unfold count. rewrite (count_occ_In eq_dec l k). lia.
Qed.

Lemma frequencies_in (k : K) (c : Z) (l : list K) :
  In (k, c) (frequencies eq_dec l) <-> In k l /\ c = count eq_dec k l.
Proof.
  unfold frequencies. rewrite in_map_iff. split.
  - intros [k' [E Hin]]. injection E as -> <-.
    apply unique_in in Hin. auto.
  - intros [Hin ->]. exists k. split; [reflexivity|].
    apply unique_in. exact Hin.
Qed.

(** The first count of the sorted frequency table is the largest number of
    occurrences of any value. *)
Lemma sorted_frequencies_head (l : list K) :
  match sort_desc (frequencies eq_dec l) with
  | [] => l = []
  | e :: _ => In (fst e) l /\ snd e = count eq_dec (fst e) l
              /\ forall k, count eq_dec k l <= snd e
  end.
Proof.
  pose proof (sort_desc_head (frequencies eq_dec l)) as Hmax.
  pose proof (fun x => sort_desc_in x (frequencies eq_dec l)) as Hin.
  destruct (sort_desc (frequencies eq_dec l)) as [|[k c] r] eqn:E.
  - apply sort_desc_nil in E. unfold frequencies in E.
    apply map_eq_nil in E. destruct l as [|a l]; [reflexivity|].
    assert (Ha : In a (unique eq_dec (a :: l))) by (apply unique_in; left; reflexivity).
    rewrite E in Ha. contradiction.
  - simpl in Hmax. cbn [fst snd].
    assert (Hk : In (k, c) (frequencies eq_dec l)) by (apply Hin; left; reflexivity).
    apply frequencies_in in Hk. destruct Hk as [Hk ->].
    split; [exact Hk|]. split; [reflexivity|].
    intro k'. destruct (in_dec eq_dec k' l) as [Hk'|Hk'].
    + apply (Hmax (k', count eq_dec k' l)).
      apply Hin. apply frequencies_in. auto.
    + assert (count eq_dec k' l = 0).
      { unfold count. rewrite (proj1 (count_occ_not_In eq_dec l k') Hk'). reflexivity. }
      pose proof (count_nonneg k l). lia.
Qed.

End FrequencyFacts.

(* ===================================================================== *)
(** * [mode_count] against [mode] *)
(* ===================================================================== *)

Lemma categorical_stats_returns (df : DataFrame) (top_k : Z) (col : string)
    (s : Series) :
  well_formed df -> In (col, s) (items df) -> is_categorical s = true ->
  exists cs, compute_categorical_stats df top_k = Ok cs
             /\ dict_get col (cstats cs) = Ok (categorical_col_stats top_k s).
Proof.
  intros Hwf Hin Hcat. eexists. split.
  - apply compute_categorical_stats_eq.
  - apply (categorical_stats_lookup df top_k _ col s Hwf
             (compute_categorical_stats_eq df top_k) Hin Hcat).
Qed.

Lemma mode_count_is_null_count (top_k : Z) (xs : list (option string)) :
  (forall v, count ostring_eq_dec (Some v) xs < count ostring_eq_dec None xs) ->
  mode_count (categorical_col_stats top_k (Object xs))
  = count ostring_eq_dec None xs.
Proof.
  intro Hnull. cbn [categorical_col_stats mode_count].
  unfold value_counts. cbn [object_values].
  pose proof (sorted_frequencies_head ostring_eq_dec xs) as H.
  destruct (sort_desc (frequencies ostring_eq_dec xs)) as [|[k c] r].
  - subst xs. specialize (Hnull EmptyString). unfold count in Hnull.
    simpl in Hnull. lia.
  - cbn [fst snd] in *. destruct H as [_ [Hc Hmax]].
    destruct k as [v|]; [|exact Hc].
    specialize (Hmax None). specialize (Hnull v). lia.
Qed.

(** C10. [mode_count] is the first count of the frequency table that
    includes nulls, while [mode] is computed without them. So for every
    object column in which the null is strictly more frequent than every
    non-null value, the reported [mode_count] is the number of nulls, and
    it is not the number of occurrences of the reported [mode]. *)
Theorem mode_count_counts_nulls (df : DataFrame) (top_k : Z) (col : string)
    (xs : list (option string)) :
  well_formed df -> In (col, Object xs) (items df) ->
  (forall v, count ostring_eq_dec (Some v) xs < count ostring_eq_dec None xs) ->
  exists cs st,
    compute_categorical_stats df top_k = Ok cs
    /\ dict_get col (cstats cs) = Ok st
    /\ mode_count st = count ostring_eq_dec None xs
    /\ forall m, mode st = Some m ->
                 mode_count st <> count ostring_eq_dec (Some m) xs.
Proof.
  intros Hwf Hin Hnull.
  destruct (categorical_stats_returns df top_k col (Object xs) Hwf Hin eq_refl)
    as [cs [Hcs Hst]].
  exists cs, (categorical_col_stats top_k (Object xs)).
  split; [exact Hcs|]. split; [exact Hst|].
  pose proof (mode_count_is_null_count top_k xs Hnull) as Hcount.
  split; [exact Hcount|].
  intros m _. rewrite Hcount. specialize (Hnull m). lia.
Qed.

Lemma null_most_frequent_in_city (v : string) :
  count ostring_eq_dec (Some v) [None; Some "Riga"; None; Some "Oslo"]%string
  < count ostring_eq_dec None [None; Some "Riga"; None; Some "Oslo"]%string.
Proof.
  unfold count. cbn [count_occ].
  destruct (ostring_eq_dec None (Some v)) as [E|_]; [discriminate|].
  destruct (ostring_eq_dec None None) as [_|N]; [|congruence].
  destruct (ostring_eq_dec (Some "Riga"%string) None) as [E|_]; [discriminate|].
  destruct (ostring_eq_dec (Some "Oslo"%string) None) as [E|_]; [discriminate|].
  destruct (ostring_eq_dec (Some "Riga"%string) (Some v)) as [E1|_];
    destruct (ostring_eq_dec (Some "Oslo"%string) (Some v)) as [E2|_];
    try lia.
  rewrite <- E2 in E1. discriminate.
Defined.

Lemma mode_count_counts_nulls_witness :
  exists cs st,
    compute_categorical_stats df_missing default_top_k = Ok cs
    /\ dict_get "city" (cstats cs) = Ok st
    /\ mode st = Some "Oslo"%string
    /\ mode_count st = 2
    /\ count ostring_eq_dec (Some "Oslo"%string)
                            [None; Some "Riga"; None; Some "Oslo"]%string = 1.
Proof.
  assert (Hwf : well_formed df_missing) by solve_well_formed.
  destruct (mode_count_counts_nulls df_missing default_top_k "city"
              [None; Some "Riga"; None; Some "Oslo"]%string Hwf)
    as (cs & st & Hcs & Hst & Hcount & _).
  { left. reflexivity. }
  { exact null_most_frequent_in_city. }
  exists cs, st. split; [exact Hcs|]. split; [exact Hst|].
  vm_compute in Hcs. injection Hcs as <-.
  vm_compute in Hst. injection Hst as <-.
  repeat split.
Defined.

(* ===================================================================== *)
(** * The order of strings and [np.sort] *)
(* ===================================================================== *)

Lemma leb_compare (a b : string) :
  String.leb a b = true <-> String.compare a b <> Gt.
Proof.
  unfold String.leb. destruct (String.compare a b); split; congruence.
Qed.

Lemma leb_refl (a : string) : String.leb a a = true.
Proof.
  apply leb_compare.
  pose proof (proj2 (String_as_OT.cmp_eq a a) eq_refl) as H.
  unfold String_as_OT.cmp in H. rewrite H. discriminate.
Qed.

Lemma leb_trans (a b c : string) :
  String.leb a b = true -> String.leb b c = true -> String.leb a c = true.
Proof.
  rewrite !leb_compare. intros Hab Hbc.
  destruct (String.compare a b) eqn:Eab; [| |congruence].
  - apply String_as_OT.cmp_eq in Eab. subst b. exact Hbc.
  - destruct (String.compare b c) eqn:Ebc; [| |congruence].
    + apply String_as_OT.cmp_eq in Ebc. subst c. rewrite Eab. discriminate.
    + apply String_as_OT.cmp_lt in Eab. apply String_as_OT.cmp_lt in Ebc.
      pose proof (String_as_OT.lt_trans _ _ _ Eab Ebc) as Hac.
      apply String_as_OT.cmp_lt in Hac.
      unfold String_as_OT.cmp in Hac. rewrite Hac. discriminate.
Qed.

Lemma insert_str_in (s x : string) (l : list string) :
  In x (insert_str s l) <-> x = s \/ In x l.
Proof.
  induction l as [|h t IH]; simpl.
  - intuition.
  - destruct (String.leb s h); simpl; rewrite ?IH; intuition.
Qed.

Lemma sort_str_in (x : string) (l : list string) :
  In x (sort_str l) <-> In x l.
Proof.
  unfold sort_str. induction l as [|a l IH]; simpl.
  - tauto.
  - rewrite insert_str_in, IH. intuition.
Qed.

Lemma insert_str_head (s : string) (l : list string) :
  head_is_min l -> head_is_min (insert_str s l).
Proof.
  destruct l as [|h t]; simpl.
  - intros _ x [->|[]]. apply leb_refl.
  - intro Hmin. destruct (String.leb s h) eqn:E.
    + simpl. intros x [->|Hx]; [apply leb_refl|].
      apply (leb_trans s h x E). apply Hmin. exact Hx.
    + assert (Ehs : String.leb h s = true).
      { destruct (String.leb_total s h) as [H|H]; [congruence|exact H]. }
      simpl. intros x [->|Hx]; [apply leb_refl|].
      apply insert_str_in in Hx. destruct Hx as [->|Hx]; [exact Ehs|].
      apply Hmin. right. exact Hx.
Qed.

Lemma sort_str_head (l : list string) : head_is_min (sort_str l).
Proof.
  unfold sort_str. induction l as [|a l IH]; simpl.
  - exact I.
  - apply insert_str_head. exact IH.
Qed.

(* ===================================================================== *)
(** * The mode of a categorical column *)
(* ===================================================================== *)

Lemma dropna_in {A : Type} (a : A) (l : list (option A)) :
  In a (dropna l) <-> In (Some a) l.
Proof.
  unfold dropna. rewrite in_flat_map. split.
  - intros [[b|] [Hin Hb]]; simpl in Hb; [|contradiction].
    destruct Hb as [->|[]]. exact Hin.
  - intro H. exists (Some a). split; [exact H|left; reflexivity].
Qed.

Lemma count_dropna (v : string) (xs : list (option string)) :
  count string_dec v (dropna xs) = count ostring_eq_dec (Some v) xs.
Proof.
  unfold count. f_equal.
  induction xs as [|[a|] xs IH]; cbn [dropna flat_map app count_occ].
  - reflexivity.
  - fold (dropna xs). rewrite IH.
    destruct (string_dec a v) as [Ea|Hne];
      destruct (ostring_eq_dec (Some a) (Some v)) as [E|Hne']; try reflexivity.
    + subst a. congruence.
    + injection E as E. contradiction.
  - fold (dropna xs). rewrite IH.
    destruct (ostring_eq_dec None (Some v)) as [E|_]; [discriminate|reflexivity].
Qed.

(** [fold_right Z.max 0] over positive counts is the largest count, and
    it is attained. *)
Lemma top_count_bound {K : Type} (l : list (K * Z)) (e : K * Z) :
  In e l -> snd e <= fold_right Z.max 0 (map snd l).
Proof.
  induction l as [|h t IH]; simpl; intro H; [contradiction|].
  destruct H as [->|H]; [lia|]. specialize (IH H). lia.
Qed.

Lemma top_count_attained {K : Type} (l : list (K * Z)) :
  0 < fold_right Z.max 0 (map snd l) ->
  exists e, In e l /\ snd e = fold_right Z.max 0 (map snd l).
Proof.
  induction l as [|h t IH]; simpl; intro H; [lia|].
  destruct (Z.max_spec (snd h) (fold_right Z.max 0 (map snd t))) as [[Hlt E]|[Hle E]].
  - rewrite E in *. destruct (IH H) as [e [He Hs]]. exists e. auto.
  - exists h. split; [left; reflexivity|]. rewrite E. reflexivity.
Qed.

(** What [mode] is: the least, in code-point order, of the most frequent
    non-null values; [None] when the column has no non-null value. *)
Lemma mode_spec (top_k : Z) (xs : list (option string)) :
  match mode (categorical_col_stats top_k (Object xs)) with
  | None => forall v, ~ In (Some v) xs
  | Some m =>
      In (Some m) xs
      /\ (forall v, count ostring_eq_dec (Some v) xs
                    <= count ostring_eq_dec (Some m) xs)
      /\ (forall v, count ostring_eq_dec (Some v) xs
                    = count ostring_eq_dec (Some m) xs ->
                    String.leb m v = true)
  end.
Proof.
  cbn [categorical_col_stats mode]. unfold series_mode. cbn [object_values].
  set (freq := frequencies string_dec (dropna xs)).
  set (top := fold_right Z.max 0 (map snd freq)).
  set (cands := map fst (filter (fun e => snd e =? top) freq)).
  assert (Hfreq : forall v c, In (v, c) freq <->
                   In (Some v) xs /\ c = count ostring_eq_dec (Some v) xs).
  { intros v c. unfold freq. rewrite frequencies_in, dropna_in, count_dropna.
    tauto. }
  assert (Hcand : forall v, In v cands <->
                   In (Some v) xs /\ count ostring_eq_dec (Some v) xs = top).
  { intro v. unfold cands. rewrite in_map_iff. split.
    - intros [[v' c] [E Hin]]. simpl in E. subst v'.
      apply filter_In in Hin. destruct Hin as [Hin Hc].
      apply Hfreq in Hin. destruct Hin as [Hv ->].
      apply Z.eqb_eq in Hc. auto.
    - intros [Hv Hc]. exists (v, top). split; [reflexivity|].
      apply filter_In. split.
      + apply Hfreq. auto.
      + apply Z.eqb_refl. }
  assert (Hbound : forall v, count ostring_eq_dec (Some v) xs <= top).
  { intro v. destruct (in_dec ostring_eq_dec (Some v) xs) as [Hv|Hv].
    - apply (top_count_bound freq (v, count ostring_eq_dec (Some v) xs)).
      apply Hfreq. auto.
    - assert (top_nonneg : 0 <= top).
      { unfold top. clear. induction (map snd freq); simpl; lia. }
      unfold count. rewrite (proj1 (count_occ_not_In _ xs (Some v)) Hv).
      exact top_nonneg. }
  pose proof (sort_str_head cands) as Hmin.
  pose proof (fun x => sort_str_in x cands) as Hin.
  destruct (sort_str cands) as [|m r] eqn:E.
  - intros v Hv.
    assert (Hpos : 0 < top).
    { pose proof (proj2 (count_pos ostring_eq_dec (Some v) xs) Hv).
      specialize (Hbound v). lia. }
    destruct (top_count_attained freq Hpos) as [[w c] [Hw Hc]].
    simpl in Hc. fold top in Hc. subst c.
    apply Hfreq in Hw. destruct Hw as [Hw Htop].
    assert (Hwc : In w cands) by (apply Hcand; auto).
    apply Hin in Hwc. contradiction.
  - simpl in Hmin.
    assert (Hm : In m cands) by (apply Hin; left; reflexivity).
    apply Hcand in Hm. destruct Hm as [Hm Hmtop].
    split; [exact Hm|]. rewrite Hmtop. split; [exact Hbound|].
    intros v Hv. apply Hmin. apply Hin. apply Hcand. split; [|exact Hv].
    apply (count_pos ostring_eq_dec). rewrite Hv, <- Hmtop.
    apply (count_pos ostring_eq_dec). exact Hm.
Qed.

(** C9 (as the code has it). For every object column of a well-formed
    table, the reported [mode] is the most frequent non-null value, and
    among equally frequent values the least one in ascending (code-point)
    order, because [Series.mode()] returns its modes sorted; it is [None]
    exactly when the column has no non-null value. *)
Theorem mode_is_least_most_frequent (df : DataFrame) (top_k : Z) (col : string)
    (xs : list (option string)) :
  well_formed df -> In (col, Object xs) (items df) ->
  exists cs st,
    compute_categorical_stats df top_k = Ok cs
    /\ dict_get col (cstats cs) = Ok st
    /\ match mode st with
       | None => forall v, ~ In (Some v) xs
       | Some m =>
           In (Some m) xs
           /\ (forall v, count ostring_eq_dec (Some v) xs
                         <= count ostring_eq_dec (Some m) xs)
           /\ (forall v, count ostring_eq_dec (Some v) xs
                         = count ostring_eq_dec (Some m) xs ->
                         String.leb m v = true)
       end.
Proof.
  intros Hwf Hin.
  destruct (categorical_stats_returns df top_k col (Object xs) Hwf Hin eq_refl)
    as [cs [Hcs Hst]].
  exists cs, (categorical_col_stats top_k (Object xs)).
  split; [exact Hcs|]. split; [exact Hst|]. apply mode_spec.
Qed.

Lemma mode_is_least_most_frequent_witness :
  exists cs st,
    compute_categorical_stats df_ties default_top_k = Ok cs
    /\ dict_get "pet" (cstats cs) = Ok st
    /\ mode st = Some "cat"%string.
Proof.
  assert (Hwf : well_formed df_ties) by solve_well_formed.
  destruct (mode_is_least_most_frequent df_ties default_top_k "pet"
              [Some "dog"; Some "cat"; Some "dog"; Some "cat"]%string Hwf)
    as (cs & st & Hcs & Hst & _).
  { left. reflexivity. }
  exists cs, st. split; [exact Hcs|]. split; [exact Hst|].
  vm_compute in Hcs. injection Hcs as <-.
  vm_compute in Hst. injection Hst as <-. reflexivity.
Defined.

(** On [pet = [dog, cat, dog, cat]] both values occur twice; the first
    encountered is [dog], the reported mode is [cat]. *)
Lemma mode_not_first_encountered :
  exists cs st,
    compute_categorical_stats df_ties default_top_k = Ok cs
    /\ dict_get "pet" (cstats cs) = Ok st
    /\ mode st = Some "cat"%string
    /\ first_encountered_mode
         [Some "dog"; Some "cat"; Some "dog"; Some "cat"]%string
       = Some "dog"%string
    /\ mode st <> first_encountered_mode
                    [Some "dog"; Some "cat"; Some "dog"; Some "cat"]%string.
Proof.
  eexists. eexists.
  split; [vm_compute; reflexivity|].
  split; [vm_compute; reflexivity|].
  split; [reflexivity|]. split; [reflexivity|].
  vm_compute. discriminate.
Qed.

(* ===================================================================== *)
(** * [unique_count] *)
(* ===================================================================== *)

Lemma NoDup_dropna {A : Type} (l : list (option A)) : NoDup l -> NoDup (dropna l).
Proof.
  induction 1 as [|[a|] l Hx Hnd IH]; cbn [dropna flat_map app].
  - constructor.
  - fold (dropna l). constructor; [|exact IH].
    rewrite dropna_in. exact Hx.
  - exact IH.
Qed.

Lemma NoDup_map_SStr (l : list string) : NoDup l -> NoDup (map SStr l).
Proof.
  induction 1 as [|a l Hx Hnd IH]; simpl; constructor; [|exact IH].
  rewrite in_map_iff. intros [b [E Hb]]. injection E as ->. contradiction.
Qed.

Lemma same_elements_length {A : Type} (l1 l2 : list A) :
  NoDup l1 -> NoDup l2 -> (forall x, In x l1 <-> In x l2) ->
  List.length l1 = List.length l2.
Proof.
  intros H1 H2 H. apply Nat.le_antisymm.
  - apply NoDup_incl_length; [exact H1|]. intros x Hx. apply H. exact Hx.
  - apply NoDup_incl_length; [exact H2|]. intros x Hx. apply H. exact Hx.
Qed.

(** [nunique()] does not count the null. *)
Lemma nunique_object (xs : list (option string)) :
  nunique (Object xs) = distinct_non_null xs.
Proof.
  unfold nunique, distinct_non_null, len. f_equal. cbn [cells].
  rewrite <- (length_map SStr (nodup string_dec (dropna xs))).
  apply same_elements_length.
  - apply NoDup_dropna. apply unique_nodup.
  - apply NoDup_map_SStr. apply NoDup_nodup.
  - intro sc. rewrite dropna_in, unique_in, !in_map_iff. split.
    + intros [[v|] [E Hin]]; simpl in E; [|discriminate].
      injection E as <-. exists v. split; [reflexivity|].
      apply nodup_In. apply dropna_in. exact Hin.
    + intros [v [<- Hin]]. apply nodup_In in Hin. apply dropna_in in Hin.
      exists (Some v). split; [reflexivity|exact Hin].
Qed.

(** C5 (as the code has it). For every object column of a well-formed
    table, with or without nulls, the reported [unique_count] is the number
    of distinct non-null values: [nunique()] drops the null, which is not
    counted as a value class. *)
Theorem unique_count_ignores_nulls (df : DataFrame) (top_k : Z) (col : string)
    (xs : list (option string)) :
  well_formed df -> In (col, Object xs) (items df) ->
  exists cs st,
    compute_categorical_stats df top_k = Ok cs
    /\ dict_get col (cstats cs) = Ok st
    /\ unique_count st = distinct_non_null xs.
Proof.
  intros Hwf Hin.
  destruct (categorical_stats_returns df top_k col (Object xs) Hwf Hin eq_refl)
    as [cs [Hcs Hst]].
  exists cs, (categorical_col_stats top_k (Object xs)).
  split; [exact Hcs|]. split; [exact Hst|]. apply nunique_object.
Qed.

Lemma unique_count_ignores_nulls_witness :
  exists cs st,
    compute_categorical_stats df_missing default_top_k = Ok cs
    /\ dict_get "city" (cstats cs) = Ok st
    /\ unique_count st = 2.
Proof.
  assert (Hwf : well_formed df_missing) by solve_well_formed.
  destruct (unique_count_ignores_nulls df_missing default_top_k "city"
              [None; Some "Riga"; None; Some "Oslo"]%string Hwf)
    as (cs & st & Hcs & Hst & Hcount).
  { left. reflexivity. }
  exists cs, st. split; [exact Hcs|]. split; [exact Hst|].
  rewrite Hcount. reflexivity.
Defined.

(** [city = [None, Riga, None, Oslo]] contains nulls and two distinct
    non-null values; the reported count is 2, not 3. *)
Lemma unique_count_null_not_counted :
  exists cs st,
    compute_categorical_stats df_missing default_top_k = Ok cs
    /\ dict_get "city" (cstats cs) = Ok st
    /\ In None [None; Some "Riga"; None; Some "Oslo"]%string
    /\ unique_count st = 2
    /\ unique_count st
       <> distinct_non_null [None; Some "Riga"; None; Some "Oslo"]%string + 1.
Proof.
  eexists. eexists.
  split; [vm_compute; reflexivity|].
  split; [vm_compute; reflexivity|].
  split; [left; reflexivity|]. split; [reflexivity|].
  vm_compute. discriminate.
Qed.

(* ===================================================================== *)
(** * Undefined aggregates *)
(* ===================================================================== *)

Lemma valid_length_le (xs : list float) :
  len (nanops.valid xs) <= len xs.
Proof. apply len_filter_le. Qed.

Lemma non_null_float_cells (xs : list float) :
  len (dropna (map float_cell xs)) = len (nanops.valid xs).
Proof.
  unfold len, nanops.valid. f_equal.
  induction xs as [|f xs IH]; cbn [map dropna flat_map filter].
  - reflexivity.
  - fold (dropna (map float_cell xs)). unfold float_cell at 1.
    destruct (PrimFloat.is_nan f); cbn [negb app List.length]; rewrite IH;
      reflexivity.
Qed.

Lemma non_null_int_cells (xs : list Z) :
  len (dropna (map (fun z => Some (SInt z)) xs)) = len xs.
Proof.
  unfold len. f_equal.
  induction xs as [|z xs IH]; cbn [map dropna flat_map app List.length].
  - reflexivity.
  - fold (dropna (map (fun z => Some (SInt z)) xs)). rewrite IH. reflexivity.
Qed.

(** The reductions work on at most as many values as the column has
    non-null cells. *)
Lemma valid_non_null (s : Series) :
  len (nanops.valid (to_float s)) <= non_null_count s.
Proof.
  unfold non_null_count. destruct s as [xs|xs|xs|xs]; cbn [cells to_float].
  - rewrite non_null_int_cells.
    pose proof (valid_length_le (map float_of_int xs)) as H.
    rewrite len_map in H. exact H.
  - rewrite non_null_float_cells. lia.
  - apply len_nonneg.
  - apply len_nonneg.
Qed.

Lemma std_few_values (xs : list float) :
  len (nanops.valid xs) <= 1 -> nanops.std xs = nan.
Proof.
  intro H. unfold nanops.std, nanops.var.
  rewrite (proj2 (Z.leb_le _ _) H). reflexivity.
Qed.

Lemma len_zero_nil {A : Type} (l : list A) : len l <= 0 -> l = [].
Proof. destruct l; [reflexivity|]. unfold len. simpl. lia. Qed.

(** C3 (as the code has it). For every numeric column of a well-formed
    table with at most one non-null value, [std] is reported as the float
    NaN ([float(nan)]), so it is neither 0 nor a separate marker; for an
    all-null column [mean], [min], [max], [median], [q25] and [q75] are the
    float NaN as well. *)
Theorem std_undefined_is_nan (df : DataFrame) (col : string) (s : Series) :
  well_formed df -> In (col, s) (items df) -> is_numeric s = true ->
  non_null_count s <= 1 ->
  exists ns st,
    compute_numeric_stats df = Ok ns
    /\ dict_get col (nstats ns) = Ok st
    /\ std st = nan
    /\ nan_as_number (std st)
    /\ PrimFloat.eqb (std st) 0%float = false
    /\ (non_null_count s = 0 ->
        mean st = nan /\ min st = nan /\ max st = nan
        /\ median st = nan /\ q25 st = nan /\ q75 st = nan).
Proof.
  intros Hwf Hin Hnum Hfew.
  eexists. exists (numeric_col_stats df s).
  split; [apply compute_numeric_stats_eq|].
  split; [apply (numeric_stats_lookup df _ col s Hwf
                   (compute_numeric_stats_eq df) Hin Hnum)|].
  cbn [numeric_col_stats std mean min max median q25 q75].
  pose proof (valid_non_null s) as Hvalid.
  rewrite std_few_values by lia.
  split; [reflexivity|]. split; [reflexivity|]. split; [reflexivity|].
  intro Hnone.
  assert (E : nanops.valid (to_float s) = []) by (apply len_zero_nil; lia).
  unfold nanops.mean, nanops.min, nanops.max, nanops.median, nanops.quantile.
  rewrite E. repeat split.
Qed.

Lemma std_undefined_is_nan_witness :
  exists ns st,
    compute_numeric_stats df_one_row = Ok ns
    /\ dict_get "discount" (nstats ns) = Ok st
    /\ std st = nan /\ mean st = nan.
Proof.
  assert (Hwf : well_formed df_one_row) by solve_well_formed.
  destruct (std_undefined_is_nan df_one_row "discount" (Float64 [nan]) Hwf)
    as (ns & st & Hns & Hst & Hstd & _ & _ & Hall).
  { right. left. reflexivity. }
  { reflexivity. }
  { vm_compute. discriminate. }
  exists ns, st. split; [exact Hns|]. split; [exact Hst|].
  split; [exact Hstd|]. apply Hall. reflexivity.
Defined.

(** With the single value [price = [5.0]] the reported [std] is the float
    NaN, with no marker in its place. *)
Lemma std_single_value_nan_as_number :
  exists ns st,
    compute_numeric_stats df_one_row = Ok ns
    /\ dict_get "price" (nstats ns) = Ok st
    /\ non_null_count (Float64 [5%float]) = 1
    /\ mean st = 5%float
    /\ nan_as_number (std st).
Proof.
  eexists. eexists.
  split; [vm_compute; reflexivity|].
  split; [vm_compute; reflexivity|].
  repeat split.
Qed.

(* ===================================================================== *)
(** * Tables without rows *)
(* ===================================================================== *)

(** No number is below NaN. *)
Lemma ltb_nan_r (t : float) : PrimFloat.ltb t nan = false.
Proof.
  rewrite FloatAxioms.ltb_spec.
  change (Prim2SF nan) with S754_nan.
  unfold SFltb, SFcompare.
  destruct (Prim2SF t) as [ | | |[] ? ?]; reflexivity.
Qed.

Lemma empty_column_cells (df : DataFrame) (col : string) (s : Series) :
  well_formed df -> index_len df = 0%nat -> In (col, s) (items df) ->
  cells s = [].
Proof.
  intros [Hsize _] Hn Hin. rewrite Forall_forall in Hsize.
  specialize (Hsize _ Hin). cbn [snd] in Hsize. unfold size in Hsize.
  rewrite Hn in Hsize. destruct (cells s); [reflexivity|discriminate].
Qed.

Lemma empty_column_eq_zero (s : Series) : cells s = [] -> eq_zero s = [].
Proof.
  destruct s as [xs|xs|xs|xs]; cbn [cells eq_zero]; intro H;
    apply map_eq_nil in H; subst xs; reflexivity.
Qed.

Lemma Zsum_zeros {A : Type} (f : A -> Z) (l : list A) :
  (forall a, In a l -> f a = 0) -> Zsum (map f l) = 0.
Proof.
  induction l as [|a l IH]; simpl; intro H; [reflexivity|].
  rewrite (H a) by auto. rewrite IH by auto. reflexivity.
Qed.

(** C2 (as the code has it). On a well-formed table with no rows and at
    least one column the three profilers raise nothing, and every share
    they compute is the float NaN that numpy gives for 0/0, not 0: each
    per-column null share, [total_missing_share] and each [zeros_share].
    The scorer completes, with no high-missing and no many-zeros evidence,
    when the table has no object column. *)
Theorem zero_rows_shares_are_nan (df : DataFrame) (top_k : Z) (t : float) :
  well_formed df -> index_len df = 0%nat -> items df <> [] ->
  let ms := compute_missing_stats df in
  (forall col share, In (col, share) (missing_shares ms) -> share = nan)
  /\ map fst (missing_shares ms) = columns df
  /\ total_missing ms = 0
  /\ total_missing_share ms = nan
  /\ (exists ns, compute_numeric_stats df = Ok ns
                 /\ forall col st, In (col, st) (nstats ns) ->
                                   zeros_share st = nan)
  /\ (exists cs, compute_categorical_stats df top_k = Ok cs)
  /\ (select_dtypes is_categorical df = [] ->
      exists fl, compute_quality_flags df t = Ok fl
                 /\ high_missing_cols fl = [] /\ many_zeros_cols fl = []).
Proof.
  intros Hwf Hn Hcols ms.
  assert (Hnull : forall it, In it (items df) -> sum_mask (isnull (snd it)) = 0).
  { intros [col s] Hin. cbn [snd]. unfold isnull.
    rewrite (empty_column_cells df col s Hwf Hn Hin). reflexivity. }
  assert (Hshares : forall col share,
             In (col, share) (missing_shares ms) -> share = nan).
  { intros col share Hin. unfold ms, compute_missing_stats in Hin.
    cbn [missing_shares] in Hin. rewrite map_map in Hin.
    apply in_map_iff in Hin. destruct Hin as [it [E Hit]].
    cbn [fst snd] in E. injection E as _ <-.
    rewrite (Hnull it Hit), Hn. reflexivity. }
  assert (Htotal : Zsum (map snd (map (fun it => (fst it, sum_mask (isnull (snd it))))
                                      (items df))) = 0).
  { rewrite map_map. cbn [snd]. apply Zsum_zeros. exact Hnull. }
  assert (Hzeros : forall col, In col (columns df) -> zeros_share_of df col = nan).
  { intros col Hcol. apply columns_items in Hcol. destruct Hcol as [s Hs].
    unfold zeros_share_of. destruct Hwf as [Hsize Hnd].
    rewrite (column_of_own df col s Hnd Hs).
    rewrite (empty_column_eq_zero s
               (empty_column_cells df col s (conj Hsize Hnd) Hn Hs)).
    rewrite Hn. reflexivity. }
  split; [exact Hshares|].
  split.
  { unfold ms, compute_missing_stats, columns. cbn [missing_shares].
    rewrite !map_map. reflexivity. }
  split; [exact Htotal|].
  split.
  { unfold ms, compute_missing_stats. cbn [total_missing_share].
    rewrite Htotal, Hn. reflexivity. }
  split.
  { eexists. split; [apply compute_numeric_stats_eq|].
    cbn [nstats]. intros col st Hin.
    apply in_map_iff in Hin. destruct Hin as [c [E Hc]].
    injection E as -> <-. apply select_dtypes_incl in Hc.
    cbn [numeric_col_stats zeros_share]. apply (Hzeros col Hc). }
  split.
  { eexists. apply compute_categorical_stats_eq. }
  intro Hcat. exists (flags_of df t).
  split; [apply compute_quality_flags_eq; right; exact Hcat|].
  cbn [flags_of high_missing_cols many_zeros_cols]. split.
  - unfold high_missing_of. fold ms.
    assert (E : filter (fun e : string * float => float_gt (snd e) t)
                       (missing_shares ms) = []).
    { induction (missing_shares ms) as [|[c sh] l IH]; [reflexivity|].
      cbn [filter snd]. rewrite (Hshares c sh) by (left; reflexivity).
      unfold float_gt at 1. rewrite ltb_nan_r.
      apply IH. intros c' sh' H'. apply (Hshares c' sh'). right. exact H'. }
    rewrite E. reflexivity.
  - unfold many_zeros_of.
    assert (E : filter (fun col => float_gt (zeros_share_of df col) 0.4%float)
                       (select_dtypes is_numeric df) = []).
    { pose proof (select_dtypes_incl is_numeric df) as Hincl.
      induction (select_dtypes is_numeric df) as [|c l IH]; [reflexivity|].
      cbn [filter]. rewrite (Hzeros c) by (apply Hincl; left; reflexivity).
      change (float_gt nan 0.4%float) with false.
      apply IH. intros c' H'. apply Hincl. right. exact H'. }
    rewrite E. reflexivity.
Qed.

Lemma zero_rows_shares_are_nan_witness :
  missing_shares (compute_missing_stats df_amount_no_rows)
  = [("amount"%string, nan)]
  /\ total_missing_share (compute_missing_stats df_amount_no_rows) = nan
  /\ exists fl,
       compute_quality_flags df_amount_no_rows default_min_missing_share = Ok fl.
Proof.
  assert (Hwf : well_formed df_amount_no_rows) by solve_well_formed.
  destruct (zero_rows_shares_are_nan df_amount_no_rows default_top_k
                                     default_min_missing_share Hwf eq_refl)
    as (_ & _ & _ & Htotal & _ & _ & Hflags).
  { discriminate. }
  split; [reflexivity|]. split; [exact Htotal|].
  destruct (Hflags eq_refl) as [fl [Hfl _]]. exists fl. exact Hfl.
Defined.

(** A file with a header and no data row: the shares are NaN, not 0, and
    the scorer and the report assembler stop on a division by zero. *)
Lemma zero_rows_not_zero_shares :
  missing_shares (compute_missing_stats df_no_rows)
  = [("name"%string, nan); ("amount"%string, nan)]
  /\ PrimFloat.eqb (total_missing_share (compute_missing_stats df_no_rows))
                   0%float = false
  /\ (exists ns st, compute_numeric_stats df_no_rows = Ok ns
                    /\ dict_get "amount" (nstats ns) = Ok st
                    /\ PrimFloat.eqb (zeros_share st) 0%float = false)
  /\ compute_quality_flags df_no_rows default_min_missing_share
     = Raise ZeroDivisionError
  /\ generate_report_data (fun _ => 0) df_no_rows default_max_hist_columns
       default_top_k default_min_missing_share "report"
     = Raise ZeroDivisionError.
Proof.
  split; [reflexivity|]. split; [reflexivity|].
  split.
  { eexists. eexists. split; [vm_compute; reflexivity|].
    split; [vm_compute; reflexivity|]. reflexivity. }
  split; reflexivity.
Qed.

(* ===================================================================== *)
(** * The report assembler and its configuration *)
(* ===================================================================== *)

(** The assembler fails exactly when the scorer does, whatever the
    configuration. *)
Lemma generate_report_data_raises (memory_usage : DataFrame -> Z)
    (df : DataFrame) (max_hist_columns top_k_categories : Z)
    (min_missing_share : float) (title : string) :
  index_len df = 0%nat -> select_dtypes is_categorical df <> [] ->
  generate_report_data memory_usage df max_hist_columns top_k_categories
                       min_missing_share title
  = Raise ZeroDivisionError.
Proof.
  intros Hn Hc. unfold generate_report_data.
  rewrite compute_numeric_stats_eq, compute_categorical_stats_eq.
  cbn [bind]. rewrite (compute_quality_flags_raises df _ Hn Hc). reflexivity.
Qed.

(** C4 (as the code has it). [generate_report_data] validates none of
    its configuration parameters: on every table with at least one row (or
    without object columns), and for all values of [max_hist_columns],
    [top_k_categories] and [min_missing_share], in or out of their
    domains, it returns the complete report, the parameters echoed
    unchanged in [report_params] and passed on as they are to the
    categorical profiler and to the scorer. *)
Theorem generate_report_data_no_validation (memory_usage : DataFrame -> Z)
    (df : DataFrame) (max_hist_columns top_k_categories : Z)
    (min_missing_share : float) (heading : string) :
  index_len df <> 0%nat \/ select_dtypes is_categorical df = [] ->
  exists r cs,
    generate_report_data memory_usage df max_hist_columns top_k_categories
                         min_missing_share heading = Ok r
    /\ report_params r = {| max_hist_columns := max_hist_columns;
                            top_k_categories := top_k_categories;
                            min_missing_share := min_missing_share;
                            rp_title := heading |}
    /\ title r = heading
    /\ basic_stats r = compute_basic_stats memory_usage df
    /\ missing_stats r = compute_missing_stats df
    /\ compute_numeric_stats df = Ok (numeric_stats r)
    /\ compute_categorical_stats df top_k_categories = Ok cs
    /\ categorical_stats r = cs
    /\ quality_flags r = flags_of df min_missing_share
    /\ high_missing_threshold (quality_flags r) = min_missing_share.
Proof.
  intro Hdom. unfold generate_report_data.
  rewrite compute_numeric_stats_eq, compute_categorical_stats_eq.
  cbn [bind]. rewrite (compute_quality_flags_eq df _ Hdom). cbn [bind].
  eexists. eexists. split; [reflexivity|].
  cbn [report_params title basic_stats missing_stats numeric_stats
       categorical_stats quality_flags].
  repeat split.
Qed.

Lemma generate_report_data_no_validation_witness :
  config_in_domain (-3) 0 2.5%float = false
  /\ exists r,
       generate_report_data (fun _ => 0) df_numeric (-3) 0 2.5%float "report"
       = Ok r
       /\ top_k_categories (report_params r) = 0.
Proof.
  split; [reflexivity|].
  destruct (generate_report_data_no_validation
              (fun _ => 0) df_numeric (-3) 0 2.5%float "report")
    as (r & cs & Hr & Hparams & _).
  { left. discriminate. }
  exists r. split; [exact Hr|]. rewrite Hparams. reflexivity.
Defined.

(** With [max_hist_columns = -3], [top_k_categories = 0] and
    [min_missing_share = 2.5], all out of domain, no error is raised and a
    report is produced. *)
Lemma out_of_domain_config_accepted :
  config_in_domain (-3) 0 2.5%float = false
  /\ is_ok (generate_report_data (fun _ => 0) df_numeric (-3) 0 2.5%float
                                 "report") = true.
Proof. repeat split. Qed.

(* ===================================================================== *)
(** * The missingness profiler *)
(* ===================================================================== *)

Lemma null_count_isnull (s : Series) : sum_mask (isnull s) = null_count s.
Proof. apply sum_mask_filter. Qed.

Lemma null_non_null_cells {A : Type} (l : list (option A)) :
  len (filter (fun c => match c with None => true | Some _ => false end) l)
  + len (dropna l) = len l.
Proof.
  unfold len, dropna.
  induction l as [|[a|] l IH]; cbn [filter flat_map app List.length]; lia.
Qed.

Lemma null_non_null_count (s : Series) :
  null_count s + non_null_count s = len (cells s).
Proof. apply (null_non_null_cells (cells s)). Qed.

Lemma null_count_nonneg (s : Series) : 0 <= null_count s.
Proof. apply len_nonneg. Qed.

Lemma Zsum_nonneg {A : Type} (f : A -> Z) (l : list A) :
  (forall a, In a l -> 0 <= f a) -> 0 <= Zsum (map f l).
Proof.
  induction l as [|a l IH]; simpl; intro H; [lia|].
  pose proof (H a (or_introl eq_refl)). pose proof (IH (fun x Hx => H x (or_intror Hx))).
  lia.
Qed.

Lemma Zsum_zero_iff {A : Type} (f : A -> Z) (l : list A) :
  (forall a, In a l -> 0 <= f a) ->
  (Zsum (map f l) = 0 <-> forall a, In a l -> f a = 0).
Proof.
  induction l as [|a l IH]; simpl; intro H.
  - split; [intros _ a []|reflexivity].
  - pose proof (H a (or_introl eq_refl)) as Ha.
    pose proof (Zsum_nonneg f l (fun x Hx => H x (or_intror Hx))) as Hl.
    specialize (IH (fun x Hx => H x (or_intror Hx))). split.
    + intros E x [<-|Hx]; [lia|]. apply IH; [lia|exact Hx].
    + intro E. rewrite (E a) by auto.
      rewrite (proj2 IH) by (intros; apply E; auto). reflexivity.
Qed.

(** X1. The missingness profiler on a well-formed table: the two
    dictionaries are keyed by the columns in table order; the entry of a
    column is its number of null cells, respectively that number divided by
    the row count; null and non-null cells of a column add up to the row
    count; [total_missing] is the sum of the per-column counts, and with
    the non-null cells it accounts for all [rows * columns] cells. *)
Theorem missing_counts_account_for_all_cells (df : DataFrame) :
  well_formed df ->
  let ms := compute_missing_stats df in
  let n := Z.of_nat (index_len df) in
  map fst (missing_counts ms) = columns df
  /\ map fst (missing_shares ms) = columns df
  /\ (forall col s, In (col, s) (items df) ->
        dict_get col (missing_counts ms) = Ok (null_count s)
        /\ dict_get col (missing_shares ms)
           = Ok (np_true_divide (null_count s) n)
        /\ null_count s + non_null_count s = n)
  /\ total_missing ms = Zsum (map snd (missing_counts ms))
  /\ total_missing ms
     + Zsum (map (fun it => non_null_count (snd it)) (items df))
     = n * len (columns df).
Proof.
  intros [Hsize Hnd] ms n.
  unfold ms, compute_missing_stats.
  cbn [missing_counts missing_shares total_missing].
  assert (Hkeys : map fst (map (fun it : string * Series =>
                                  (fst it, sum_mask (isnull (snd it))))
                               (items df)) = columns df).
  { rewrite map_map. reflexivity. }
  split; [exact Hkeys|].
  split; [rewrite !map_map; reflexivity|].
  split.
  { intros col s Hin. split; [|split].
    - apply dict_get_nodup; [rewrite Hkeys; exact Hnd|].
      rewrite <- null_count_isnull.
      apply (in_map (fun it => (fst it, sum_mask (isnull (snd it)))) _ _ Hin).
    - apply dict_get_nodup; [rewrite !map_map; exact Hnd|].
      rewrite map_map. rewrite <- null_count_isnull.
      apply (in_map (fun it => (fst it,
                                np_true_divide (sum_mask (isnull (snd it)))
                                               (Z.of_nat (index_len df))))
                    _ _ Hin).
    - rewrite null_non_null_count. unfold n, len.
      rewrite Forall_forall in Hsize. specialize (Hsize _ Hin).
      unfold size in Hsize. cbn [snd] in Hsize. rewrite Hsize. reflexivity. }
  split; [reflexivity|].
  rewrite map_map. cbn [snd]. unfold columns. rewrite len_map.
  rewrite Forall_forall in Hsize. clear Hkeys Hnd.
  induction (items df) as [|it l IH].
  - simpl. unfold len. simpl. lia.
  - cbn [map Zsum].
    assert (Hit : null_count (snd it) + non_null_count (snd it) = n).
    { rewrite null_non_null_count. unfold n, len.
      pose proof (Hsize it (or_introl eq_refl)) as H. unfold size in H.
      rewrite H. reflexivity. }
    specialize (IH (fun x Hx => Hsize x (or_intror Hx))).
    rewrite null_count_isnull.
    unfold len in *. cbn [List.length]. lia.
Qed.

Lemma missing_counts_account_for_all_cells_witness :
  total_missing (compute_missing_stats df_missing) = 3
  /\ dict_get "city" (missing_counts (compute_missing_stats df_missing)) = Ok 2.
Proof.
  assert (Hwf : well_formed df_missing) by solve_well_formed.
  destruct (missing_counts_account_for_all_cells df_missing Hwf)
    as (_ & _ & Hcol & Htotal & Hcells).
  split; [rewrite Htotal; reflexivity|].
  destruct (Hcol "city"%string
                 (Object [None; Some "Riga"; None; Some "Oslo"]%string))
    as [Hcount _].
  { left. reflexivity. }
  rewrite Hcount. reflexivity.
Defined.

(** X2. [cols_with_missing] lists, in table order, exactly the columns
    that have a null cell; it is empty exactly when [total_missing] is 0. *)
Theorem cols_with_missing_in_table_order (df : DataFrame) :
  let ms := compute_missing_stats df in
  cols_with_missing ms
  = map fst (filter (fun it => existsb is_null (cells (snd it))) (items df))
  /\ (cols_with_missing ms = [] <-> total_missing ms = 0).
Proof.
  intro ms. unfold ms, compute_missing_stats.
  cbn [cols_with_missing total_missing].
  assert (Hpos : forall s, (0 <? sum_mask (isnull s)) = existsb is_null (cells s)).
  { intro s. unfold isnull. rewrite sum_mask_filter. unfold len.
    induction (cells s) as [|c l IH]; [reflexivity|].
    cbn [filter existsb]. destruct (is_null c); cbn [orb List.length].
    - apply Z.ltb_lt. lia.
    - exact IH. }
  assert (Hlist : map fst (filter (fun e : string * Z => 0 <? snd e)
                     (map (fun it : string * Series =>
                             (fst it, sum_mask (isnull (snd it)))) (items df)))
                  = map fst (filter (fun it => existsb is_null (cells (snd it)))
                                    (items df))).
  { induction (items df) as [|it l IH]; [reflexivity|].
    cbn [map filter fst snd]. rewrite Hpos.
    destruct (existsb is_null (cells (snd it))); cbn [map fst]; rewrite IH;
      reflexivity. }
  split; [exact Hlist|].
  rewrite Hlist, map_map. cbn [snd].
  rewrite (Zsum_zero_iff (fun it => sum_mask (isnull (snd it)))).
  2:{ intros a _. rewrite null_count_isnull. apply null_count_nonneg. }
  split.
  - intros E it Hit.
    destruct (existsb is_null (cells (snd it))) eqn:Ex.
    + assert (Hin : In (fst it) (map fst (filter (fun it => existsb is_null
                                   (cells (snd it))) (items df)))).
      { apply in_map. apply filter_In. auto. }
      rewrite E in Hin. contradiction.
    + rewrite <- Hpos in Ex. apply Z.ltb_ge in Ex.
      pose proof (null_count_nonneg (snd it)) as Hn.
      rewrite <- null_count_isnull in Hn. lia.
  - intro E.
    destruct (filter (fun it => existsb is_null (cells (snd it))) (items df))
      as [|it l] eqn:F; [reflexivity|].
    assert (Hit : In it (filter (fun it => existsb is_null (cells (snd it)))
                                (items df))) by (rewrite F; left; reflexivity).
    apply filter_In in Hit. destruct Hit as [Hit Hex].
    rewrite <- Hpos, (E it Hit) in Hex. discriminate.
Qed.

(* ===================================================================== *)
(** * Columns by kind *)
(* ===================================================================== *)

Lemma select_dtypes_iff (p : Series -> bool) (df : DataFrame) (col : string)
    (s : Series) :
  NoDup (columns df) -> In (col, s) (items df) ->
  (In col (select_dtypes p df) <-> p s = true).
Proof.
  intros Hnd Hin. split.
  - intro H. unfold select_dtypes in H. apply in_map_iff in H.
    destruct H as [[c s'] [Hc Hit]]. cbn [fst] in Hc. subst c.
    apply filter_In in Hit. destruct Hit as [Hit Hp]. cbn [snd] in Hp.
    assert (E : Ok s = Ok s').
    { rewrite <- (dict_get_nodup col s (items df) Hnd Hin).
      apply (dict_get_nodup col s' (items df) Hnd Hit). }
    injection E as ->. exact Hp.
  - intro Hp. apply (select_dtypes_in p df col s Hin Hp).
Qed.

Lemma dict_get_ok_in {V : Type} (k : string) (v : V) (d : list (string * V)) :
  dict_get k d = Ok v -> In (k, v) d.
Proof.
  induction d as [|[k' v'] d IH]; simpl; intro H; [discriminate|].
  destruct (String.eqb k k') eqn:E.
  - apply String.eqb_eq in E. injection H as ->. subst k'. left. reflexivity.
  - right. apply IH. exact H.
Qed.



(* ===================================================================== *)
(** * Failure of the scorer and of the assembler *)
(* ===================================================================== *)

Lemma scorer_domain_dec (df : DataFrame) :
  {index_len df <> 0%nat \/ select_dtypes is_categorical df = []}
  + {index_len df = 0%nat /\ select_dtypes is_categorical df <> []}.
Proof.
  destruct (Nat.eq_dec (index_len df) 0) as [Hn|Hn].
  - destruct (select_dtypes is_categorical df) as [|c l] eqn:E.
    + left. right. reflexivity.
    + right. split; [exact Hn|discriminate].
  - left. left. exact Hn.
Qed.

(** X4. The only exception [compute_quality_flags] raises is
    [ZeroDivisionError], for every threshold, and it raises it exactly on
    the tables that have no rows and at least one object column; no [KeyError]
    can come from its dictionary lookups. *)
Theorem compute_quality_flags_only_fails_without_rows (df : DataFrame)
    (t : float) (e : exn) :
  compute_quality_flags df t = Raise e <->
  e = ZeroDivisionError /\ index_len df = 0%nat
  /\ select_dtypes is_categorical df <> [].
Proof.
  destruct (scorer_domain_dec df) as [Hdom|[Hn Hc]].
  - rewrite (compute_quality_flags_eq df t Hdom). split; [discriminate|].
    intros (_ & Hn & Hc). destruct Hdom as [H|H]; contradiction.
  - rewrite (compute_quality_flags_raises df t Hn Hc). split.
    + intro H. injection H as <-. auto.
    + intros (-> & _ & _). reflexivity.
Qed.

(** X5. [generate_report_data] fails exactly when the scorer does: with
    [ZeroDivisionError] on the tables without rows and with an object
    column, whatever the configuration, and with no other exception. *)
Theorem generate_report_data_fails_with_scorer (memory_usage : DataFrame -> Z)
    (df : DataFrame) (max_hist_columns top_k_categories : Z)
    (min_missing_share : float) (heading : string) (e : exn) :
  generate_report_data memory_usage df max_hist_columns top_k_categories
                       min_missing_share heading = Raise e <->
  compute_quality_flags df min_missing_share = Raise e.
Proof.
  unfold generate_report_data.
  rewrite compute_numeric_stats_eq, compute_categorical_stats_eq.
  cbn [bind].
  destruct (compute_quality_flags df min_missing_share) as [fl|e'];
    cbn [bind]; split; intro H; try discriminate H;
    injection H as ->; reflexivity.
Qed.

(* ===================================================================== *)
(** * Range of the score *)
(* ===================================================================== *)

Lemma len_pos_iff {A : Type} (l : list A) : (0 <? len l) = true <-> l <> [].
Proof.
  rewrite Z.ltb_lt. unfold len.
  destruct l; simpl; split; intro H; try lia; congruence.
Qed.

Lemma len_zero_iff {A : Type} (l : list A) : len l = 0 <-> l = [].
Proof.
  unfold len. destruct l; simpl; split; intro H; try lia; congruence.
Qed.

(** X6. Every returned score is an integer between 0 and 100; each of
    the five flags is set exactly when its evidence list is non-empty; the
    five penalties are non-negative; and the score is 100 exactly when no
    flag is set. *)
Theorem quality_score_range (df : DataFrame) (t : float) (fl : QualityFlags) :
  compute_quality_flags df t = Ok fl ->
  0 <= quality_score fl <= 100
  /\ (has_high_missing_share fl = true <-> high_missing_cols fl <> [])
  /\ (has_constant_columns fl = true <-> constant_columns fl <> [])
  /\ (has_high_cardinality_categoricals fl = true <->
      high_cardinality_cols fl <> [])
  /\ (has_suspicious_id_duplicates fl = true <->
      suspicious_id_duplicates fl <> [])
  /\ (has_many_zero_values fl = true <-> many_zeros_cols fl <> [])
  /\ (forall name p, In (name, p) (quality_penalties fl) -> 0 <= p)
  /\ (quality_score fl = 100 <->
      has_high_missing_share fl = false /\ has_constant_columns fl = false
      /\ has_high_cardinality_categoricals fl = false
      /\ has_suspicious_id_duplicates fl = false
      /\ has_many_zero_values fl = false).
Proof.
  intro H. apply compute_quality_flags_inv in H. destruct H as [-> _].
  cbn [flags_of quality_score has_high_missing_share high_missing_cols
       has_constant_columns constant_columns has_high_cardinality_categoricals
       high_cardinality_cols has_suspicious_id_duplicates
       suspicious_id_duplicates has_many_zero_values many_zeros_cols
       quality_penalties map snd Zsum].
  pose proof (len_nonneg (high_missing_of df t)) as H1.
  pose proof (len_nonneg (constant_of df)) as H2.
  pose proof (len_nonneg (high_cardinality_of df)) as H3.
  pose proof (len_nonneg (id_duplicates_of df)) as H4.
  pose proof (len_nonneg (many_zeros_of df)) as H5.
  split; [lia|].
  split; [apply len_pos_iff|]. split; [apply len_pos_iff|].
  split; [apply len_pos_iff|]. split; [apply len_pos_iff|].
  split; [apply len_pos_iff|].
  split.
  { intros name p Hin. simpl in Hin.
    destruct Hin as [E|[E|[E|[E|[E|[]]]]]]; injection E as _ <-; lia. }
  rewrite !Z.ltb_ge. lia.
Qed.

Lemma quality_score_range_witness :
  exists fl,
    compute_quality_flags df_id_duplicates default_min_missing_share = Ok fl
    /\ 0 <= quality_score fl <= 100
    /\ has_suspicious_id_duplicates fl = true.
Proof.
  exists (flags_of df_id_duplicates default_min_missing_share).
  assert (Hrun : compute_quality_flags df_id_duplicates default_min_missing_share
                 = Ok (flags_of df_id_duplicates default_min_missing_share)).
  { apply compute_quality_flags_eq. left. discriminate. }
  destruct (quality_score_range _ _ _ Hrun) as (Hrange & _).
  split; [exact Hrun|]. split; [exact Hrange|]. reflexivity.
Defined.

Lemma compute_quality_flags_only_fails_without_rows_witness :
  compute_quality_flags df_no_rows default_min_missing_share
  = Raise ZeroDivisionError.
Proof.
  apply (compute_quality_flags_only_fails_without_rows
           df_no_rows default_min_missing_share ZeroDivisionError).
  split; [reflexivity|]. split; [reflexivity|]. discriminate.
Defined.

Lemma generate_report_data_fails_with_scorer_witness :
  generate_report_data (fun _ => 0) df_no_rows default_max_hist_columns
                       default_top_k default_min_missing_share "report"
  = Raise ZeroDivisionError.
Proof.
  apply (generate_report_data_fails_with_scorer
           (fun _ => 0) df_no_rows default_max_hist_columns default_top_k
           default_min_missing_share "report" ZeroDivisionError).
  reflexivity.
Defined.

(* ===================================================================== *)
(** * The rules of the scorer, column by column *)
(* ===================================================================== *)

Lemma in_filter_columns (df : DataFrame) (p : Series -> bool) (col : string) :
  NoDup (columns df) ->
  (In col (filter (fun c => p (column_of df c)) (columns df)) <->
   exists s, In (col, s) (items df) /\ p s = true).
Proof.
  intro Hnd. rewrite filter_In, columns_items. split.
  - intros [[s Hs] Hp]. rewrite (column_of_own df col s Hnd Hs) in Hp.
    exists s. auto.
  - intros [s [Hs Hp]]. split; [exists s; exact Hs|].
    rewrite (column_of_own df col s Hnd Hs). exact Hp.
Qed.

Lemma in_filter_select_dtypes (df : DataFrame) (q p : Series -> bool)
    (col : string) :
  NoDup (columns df) ->
  (In col (filter (fun c => p (column_of df c)) (select_dtypes q df)) <->
   exists s, In (col, s) (items df) /\ q s = true /\ p s = true).
Proof.
  intro Hnd. rewrite filter_In. split.
  - intros [Hsel Hp].
    pose proof (select_dtypes_incl q df col Hsel) as Hcol.
    apply columns_items in Hcol. destruct Hcol as [s Hs].
    rewrite (column_of_own df col s Hnd Hs) in Hp.
    apply (select_dtypes_iff q df col s Hnd Hs) in Hsel.
    exists s. auto.
  - intros [s [Hs [Hq Hp]]]. split.
    + apply (select_dtypes_in q df col s Hs Hq).
    + rewrite (column_of_own df col s Hnd Hs). exact Hp.
Qed.

(** ** Doubles: a zero count is never above a non-negative threshold *)

Lemma div_zero_not_above (t y : float) :
  PrimFloat.leb 0%float t = true ->
  PrimFloat.ltb t (PrimFloat.div 0%float y) = false.
Proof.
  rewrite FloatAxioms.leb_spec, FloatAxioms.ltb_spec, FloatAxioms.div_spec.
  change (Prim2SF 0%float) with (S754_zero false).
  unfold SF64div, SFdiv, SFleb, SFltb.
  destruct (Prim2SF t) as [st| [|] | |[|] mt et];
    destruct (Prim2SF y) as [sy|sy| |sy my ey]; cbn; congruence.
Qed.

Lemma zero_share_not_above (t : float) (n : Z) :
  PrimFloat.leb 0%float t = true -> float_gt (np_true_divide 0 n) t = false.
Proof.
  intro H. unfold float_gt, np_true_divide.
  change (float_of_int 0) with 0%float. apply div_zero_not_above. exact H.
Qed.

(** ** Constant columns *)

Lemma short_nodup_all_equal {A : Type} (l : list A) :
  NoDup l ->
  (len l <= 1 <-> forall a b, In a l -> In b l -> a = b).
Proof.
  intro Hnd. unfold len. split.
  - intros Hlen a b Ha Hb.
    destruct l as [|x [|y r]]; simpl in *; try lia; try contradiction.
    destruct Ha as [<-|[]]. destruct Hb as [<-|[]]. reflexivity.
  - intro Hall. destruct l as [|x [|y r]]; simpl; try lia.
    exfalso. inversion Hnd as [|? ? Hx _]; subst. apply Hx.
    left. apply Hall; simpl; auto.
Qed.

Lemma nunique_le_one (s : Series) :
  (nunique s <=? 1) = true <->
  forall a b, In (Some a) (cells s) -> In (Some b) (cells s) -> a = b.
Proof.
  rewrite Z.leb_le. unfold nunique.
  rewrite (short_nodup_all_equal _ (NoDup_dropna _ (unique_nodup cell_eq_dec (cells s)))).
  split; intros H a b Ha Hb.
  - apply H; apply dropna_in; apply unique_in; assumption.
  - apply dropna_in in Ha. apply dropna_in in Hb.
    apply unique_in in Ha. apply unique_in in Hb. apply H; assumption.
Qed.

(** X7. On a well-formed table a column is reported in
    [constant_columns] exactly when any two of its non-null cells hold the
    same value: columns without a non-null cell (empty or all-null) are
    reported, of whatever kind; the list follows the table order. *)
Theorem constant_columns_rule (df : DataFrame) (t : float) (fl : QualityFlags) :
  well_formed df -> compute_quality_flags df t = Ok fl ->
  (forall col, In col (constant_columns fl) <->
     exists s, In (col, s) (items df)
               /\ forall a b, In (Some a) (cells s) -> In (Some b) (cells s) ->
                              a = b)
  /\ (forall col s, In (col, s) (items df) -> non_null_count s = 0 ->
                    In col (constant_columns fl))
  /\ constant_columns fl
     = map fst (filter (fun it => nunique (snd it) <=? 1) (items df)).
Proof.
  intros [Hsize Hnd] H.
  apply compute_quality_flags_inv in H. destruct H as [-> _].
  cbn [flags_of constant_columns]. unfold constant_of.
  assert (Hiff : forall col,
    In col (filter (fun c => nunique (column_of df c) <=? 1) (columns df)) <->
    exists s, In (col, s) (items df)
              /\ forall a b, In (Some a) (cells s) -> In (Some b) (cells s) ->
                             a = b).
  { intro col.
    rewrite (in_filter_columns df (fun s => nunique s <=? 1) col Hnd).
    split; intros [s [Hs Hp]]; exists s; (split; [exact Hs|]);
      apply nunique_le_one; exact Hp. }
  split; [exact Hiff|]. split.
  - intros col s Hs Hnone. apply Hiff. exists s. split; [exact Hs|].
    intros a b Ha _. exfalso.
    apply dropna_in in Ha. unfold non_null_count in Hnone.
    apply len_zero_iff in Hnone. rewrite Hnone in Ha. contradiction.
  - unfold columns. clear Hiff.
    assert (Hown : forall it, In it (items df) -> column_of df (fst it) = snd it).
    { intros [c s] Hit. apply (column_of_own df c s Hnd Hit). }
    clear Hsize Hnd. revert Hown.
    generalize (column_of df). intros f Hown.
    induction (items df) as [|it l IH]; [reflexivity|].
    cbn [map filter]. rewrite (Hown it) by (left; reflexivity).
    rewrite IH by (intros; apply Hown; right; assumption).
    destruct (nunique (snd it) <=? 1); reflexivity.
Qed.

Lemma constant_columns_rule_witness :
  exists fl,
    compute_quality_flags df_one_row default_min_missing_share = Ok fl
    /\ In "discount"%string (constant_columns fl).
Proof.
  exists (flags_of df_one_row default_min_missing_share).
  assert (Hwf : well_formed df_one_row) by solve_well_formed.
  assert (Hrun : compute_quality_flags df_one_row default_min_missing_share
                 = Ok (flags_of df_one_row default_min_missing_share)).
  { apply compute_quality_flags_eq. left. discriminate. }
  destruct (constant_columns_rule _ _ _ Hwf Hrun) as (_ & Hnull & _).
  split; [exact Hrun|].
  apply (Hnull "discount"%string (Float64 [nan])).
  - right. left. reflexivity.
  - reflexivity.
Defined.

(** ** High share of missing values *)

(** X8. [high_missing_cols] lists, in table order, the columns whose null
    share (null cells over rows, as doubles) exceeds the threshold; for
    every threshold that is not negative, each listed column has a null
    cell, that is, it is one of [cols_with_missing]. *)
Theorem high_missing_rule (df : DataFrame) (t : float) (fl : QualityFlags) :
  compute_quality_flags df t = Ok fl ->
  high_missing_cols fl
  = map fst (filter (fun it => float_gt
                                 (np_true_divide (null_count (snd it))
                                                 (Z.of_nat (index_len df))) t)
                    (items df))
  /\ high_missing_threshold fl = t
  /\ (PrimFloat.leb 0%float t = true ->
      forall col, In col (high_missing_cols fl) ->
                  In col (cols_with_missing (compute_missing_stats df))).
Proof.
  intro H. apply compute_quality_flags_inv in H. destruct H as [-> _].
  cbn [flags_of high_missing_cols high_missing_threshold].
  unfold high_missing_of, compute_missing_stats.
  cbn [missing_shares cols_with_missing].
  assert (Hlist :
    map fst (filter (fun e : string * float => float_gt (snd e) t)
               (map (fun e : string * Z =>
                       (fst e, np_true_divide (snd e) (Z.of_nat (index_len df))))
                  (map (fun it : string * Series =>
                          (fst it, sum_mask (isnull (snd it)))) (items df))))
    = map fst (filter (fun it => float_gt
                                   (np_true_divide (null_count (snd it))
                                                   (Z.of_nat (index_len df))) t)
                      (items df))).
  { induction (items df) as [|it l IH]; [reflexivity|].
    cbn [map filter fst snd]. rewrite null_count_isnull.
    destruct (float_gt _ t); cbn [map fst]; rewrite IH; reflexivity. }
  split; [exact Hlist|]. split; [reflexivity|].
  intros Ht col Hcol. rewrite Hlist in Hcol.
  apply in_map_iff in Hcol. destruct Hcol as [it [<- Hit]].
  apply filter_In in Hit. destruct Hit as [Hit Hgt].
  apply in_map_iff. exists (fst it, sum_mask (isnull (snd it))).
  split; [reflexivity|]. apply filter_In. split.
  - apply (in_map (fun it => (fst it, sum_mask (isnull (snd it)))) _ _ Hit).
  - cbn [snd]. rewrite null_count_isnull.
    pose proof (null_count_nonneg (snd it)) as Hn.
    destruct (Z.eq_dec (null_count (snd it)) 0) as [E|E].
    + rewrite E, (zero_share_not_above t _ Ht) in Hgt. discriminate.
    + apply Z.ltb_lt. lia.
Qed.

Lemma high_missing_rule_witness :
  exists fl,
    compute_quality_flags df_missing default_min_missing_share = Ok fl
    /\ high_missing_cols fl = ["city"%string]
    /\ cols_with_missing (compute_missing_stats df_missing)
       = ["city"; "score"]%string.
Proof.
  exists (flags_of df_missing default_min_missing_share).
  assert (Hrun : compute_quality_flags df_missing default_min_missing_share
                 = Ok (flags_of df_missing default_min_missing_share)).
  { apply compute_quality_flags_eq. left. discriminate. }
  destruct (high_missing_rule _ _ _ Hrun) as (Hlist & _ & _).
  split; [exact Hrun|]. split; [rewrite Hlist; reflexivity|reflexivity].
Defined.

(** ** Many zeros *)

(** X9. On a well-formed table [many_zeros_cols] holds one entry for each
    numeric column whose share of zero cells (zero cells over rows, as
    doubles) is strictly above 0.4, with that count and share. Every
    entry has at least one zero cell. The comparison is strict: in a table
    of 10 rows a numeric column with exactly 4 zero cells is not reported,
    one with 5 is. *)
Theorem many_zeros_rule (df : DataFrame) (t : float) (fl : QualityFlags) :
  well_formed df -> compute_quality_flags df t = Ok fl ->
  let n := Z.of_nat (index_len df) in
  (forall e, In e (many_zeros_cols fl) <->
     exists col s,
       In (col, s) (items df) /\ is_numeric s = true
       /\ float_gt (np_true_divide (count_zero_cells s) n) 0.4%float = true
       /\ e = {| mz_column := col;
                 zero_count := count_zero_cells s;
                 zero_share := np_true_divide (count_zero_cells s) n |})
  /\ (forall e, In e (many_zeros_cols fl) -> 1 <= zero_count e)
  /\ (index_len df = 10%nat ->
      forall col s, In (col, s) (items df) -> is_numeric s = true ->
        (count_zero_cells s = 4 ->
         forall e, In e (many_zeros_cols fl) -> mz_column e <> col)
        /\ (count_zero_cells s = 5 ->
            exists e, In e (many_zeros_cols fl) /\ mz_column e = col
                      /\ zero_share e = 0.5%float)).
Proof.
  intros [Hsize Hnd] H n.
  apply compute_quality_flags_inv in H. destruct H as [-> _].
  cbn [flags_of many_zeros_cols]. unfold many_zeros_of.
  assert (Hev : forall e,
    In e (map (fun col => {| mz_column := col;
                            zero_count := sum_mask (eq_zero (column_of df col));
                            zero_share := zeros_share_of df col |})
              (filter (fun col => float_gt (zeros_share_of df col) 0.4%float)
                      (select_dtypes is_numeric df))) <->
    exists col s,
       In (col, s) (items df) /\ is_numeric s = true
       /\ float_gt (np_true_divide (count_zero_cells s) n) 0.4%float = true
       /\ e = {| mz_column := col;
                 zero_count := count_zero_cells s;
                 zero_share := np_true_divide (count_zero_cells s) n |}).
  { intro e. rewrite in_map_iff. split.
    - intros [col [He Hin]].
      apply (in_filter_select_dtypes df is_numeric
               (fun s => float_gt (np_true_divide (sum_mask (eq_zero s)) n)
                                  0.4%float) col Hnd) in Hin.
      destruct Hin as [s [Hs [Hnum Hgt]]].
      unfold zeros_share_of in He.
      rewrite (column_of_own df col s Hnd Hs) in He.
      rewrite (zeros_count_spec s Hnum) in *.
      exists col, s. repeat split; try assumption. symmetry. exact He.
    - intros [col [s [Hs [Hnum [Hgt He]]]]]. exists col. split.
      + unfold zeros_share_of. rewrite (column_of_own df col s Hnd Hs).
        rewrite (zeros_count_spec s Hnum). symmetry. exact He.
      + apply (in_filter_select_dtypes df is_numeric
               (fun s => float_gt (np_true_divide (sum_mask (eq_zero s)) n)
                                  0.4%float) col Hnd).
        exists s. rewrite (zeros_count_spec s Hnum). auto. }
  split; [exact Hev|]. split.
  - intros e He. apply Hev in He.
    destruct He as [col [s [Hs [Hnum [Hgt ->]]]]]. cbn [zero_count].
    assert (Hnn : 0 <= count_zero_cells s).
    { destruct s; cbn [count_zero_cells]; try lia; apply len_nonneg. }
    destruct (Z.eq_dec (count_zero_cells s) 0) as [E|E]; [|lia].
    rewrite E, (zero_share_not_above 0.4%float n eq_refl) in Hgt.
    discriminate.
  - intros Hten col s Hs Hnum. unfold n in Hev. rewrite Hten in Hev. split.
    + intros Hfour e He Hcol. apply Hev in He.
      destruct He as [col' [s' [Hs' [_ [Hgt ->]]]]]. cbn [mz_column] in Hcol.
      subst col'.
      assert (E : Ok s' = Ok s).
      { rewrite <- (dict_get_nodup col s' (items df) Hnd Hs').
        apply (dict_get_nodup col s (items df) Hnd Hs). }
      injection E as ->. rewrite Hfour in Hgt. discriminate Hgt.
    + intro Hfive. eexists. split.
      * apply Hev. exists col, s. repeat split; try eassumption.
        rewrite Hfive. reflexivity.
      * cbn [mz_column zero_share]. rewrite Hfive. split; reflexivity.
Qed.

Lemma many_zeros_rule_witness :
  exists fl,
    compute_quality_flags df_many_zeros default_min_missing_share = Ok fl
    /\ (forall e, In e (many_zeros_cols fl) ->
                  mz_column e <> "col_with_many_zeros"%string)
    /\ has_many_zero_values fl = false.
Proof.
  exists (flags_of df_many_zeros default_min_missing_share).
  assert (Hwf : well_formed df_many_zeros) by solve_well_formed.
  assert (Hrun : compute_quality_flags df_many_zeros default_min_missing_share
                 = Ok (flags_of df_many_zeros default_min_missing_share)).
  { apply compute_quality_flags_eq. left. discriminate. }
  destruct (many_zeros_rule _ _ _ Hwf Hrun) as (_ & _ & Hten).
  destruct (Hten eq_refl "col_with_many_zeros"%string
                 (Int64 [0; 0; 0; 0; 1; 2; 3; 4; 5; 6])) as [Hfour _].
  { left. reflexivity. }
  { reflexivity. }
  split; [exact Hrun|]. split; [apply Hfour; reflexivity|reflexivity].
Defined.

(** ** High-cardinality categoricals *)

(** X10. On a well-formed table [high_cardinality_cols] holds one entry
    for each object column whose number of distinct non-null values over
    the row count (as doubles) is strictly above 0.5, with that number as
    [unique_count]. Nulls do not count towards the cardinality: every entry
    has a non-null value, so an all-null column is never reported. *)
Theorem high_cardinality_rule (df : DataFrame) (t : float) (fl : QualityFlags) :
  well_formed df -> compute_quality_flags df t = Ok fl ->
  let n := Z.of_nat (index_len df) in
  (forall e, In e (high_cardinality_cols fl) <->
     exists col xs,
       In (col, Object xs) (items df)
       /\ float_gt (np_true_divide (distinct_non_null xs) n) 0.5%float = true
       /\ e = {| hc_column := col;
                 hc_unique_count := distinct_non_null xs;
                 hc_unique_ratio := np_true_divide (distinct_non_null xs) n |})
  /\ (forall e, In e (high_cardinality_cols fl) -> 1 <= hc_unique_count e)
  /\ (forall col xs, In (col, Object xs) (items df) ->
        (forall v, ~ In (Some v) xs) ->
        forall e, In e (high_cardinality_cols fl) -> hc_column e <> col).
Proof.
  intros [Hsize Hnd] H n.
  apply compute_quality_flags_inv in H. destruct H as [-> _].
  cbn [flags_of high_cardinality_cols]. unfold high_cardinality_of.
  assert (Hev : forall e,
    In e (map (fun col => {| hc_column := col;
                            hc_unique_count := nunique (column_of df col);
                            hc_unique_ratio := unique_ratio_of df col |})
              (filter (fun col => float_gt (unique_ratio_of df col) 0.5%float)
                      (select_dtypes is_categorical df))) <->
    exists col xs,
       In (col, Object xs) (items df)
       /\ float_gt (np_true_divide (distinct_non_null xs) n) 0.5%float = true
       /\ e = {| hc_column := col;
                 hc_unique_count := distinct_non_null xs;
                 hc_unique_ratio := np_true_divide (distinct_non_null xs) n |}).
  { intro e. rewrite in_map_iff. split.
    - intros [col [He Hin]].
      apply (in_filter_select_dtypes df is_categorical
               (fun s => float_gt (np_true_divide (nunique s) n) 0.5%float)
               col Hnd) in Hin.
      destruct Hin as [s [Hs [Hcat Hgt]]].
      destruct s as [?|?|xs|?]; try discriminate Hcat.
      unfold unique_ratio_of in He.
      rewrite (column_of_own df col (Object xs) Hnd Hs) in He.
      rewrite nunique_object in *.
      exists col, xs. repeat split; try assumption. symmetry. exact He.
    - intros [col [xs [Hs [Hgt He]]]]. exists col. split.
      + unfold unique_ratio_of.
        rewrite (column_of_own df col (Object xs) Hnd Hs), nunique_object.
        symmetry. exact He.
      + apply (in_filter_select_dtypes df is_categorical
               (fun s => float_gt (np_true_divide (nunique s) n) 0.5%float)
               col Hnd).
        exists (Object xs). rewrite nunique_object. auto. }
  split; [exact Hev|].
  assert (Hpos : forall e, In e (map (fun col =>
                     {| hc_column := col;
                        hc_unique_count := nunique (column_of df col);
                        hc_unique_ratio := unique_ratio_of df col |})
              (filter (fun col => float_gt (unique_ratio_of df col) 0.5%float)
                      (select_dtypes is_categorical df))) ->
            exists col xs, In (col, Object xs) (items df)
                           /\ hc_column e = col
                           /\ hc_unique_count e = distinct_non_null xs
                           /\ 1 <= distinct_non_null xs).
  { intros e He. apply Hev in He. destruct He as [col [xs [Hs [Hgt ->]]]].
    exists col, xs. repeat split; try assumption.
    pose proof (len_nonneg (nodup string_dec (dropna xs))) as Hnn.
    fold (distinct_non_null xs) in Hnn.
    destruct (Z.eq_dec (distinct_non_null xs) 0) as [E|E]; [|lia].
    rewrite E, (zero_share_not_above 0.5%float n eq_refl) in Hgt.
    discriminate. }
  split.
  - intros e He. destruct (Hpos e He) as [col [xs [_ [_ [-> Hone]]]]].
    exact Hone.
  - intros col xs Hs Hnull e He Hcol.
    destruct (Hpos e He) as [col' [xs' [Hs' [Hc [_ Hone]]]]].
    rewrite Hcol in Hc. subst col'.
    assert (E : Ok (Object xs') = Ok (Object xs)).
    { rewrite <- (dict_get_nodup col (Object xs') (items df) Hnd Hs').
      apply (dict_get_nodup col (Object xs) (items df) Hnd Hs). }
    injection E as ->.
    assert (Hnil : nodup string_dec (dropna xs) = []).
    { destruct (nodup string_dec (dropna xs)) as [|v l] eqn:N; [reflexivity|].
      exfalso. apply (Hnull v). apply dropna_in.
      apply (nodup_In string_dec). rewrite N. left. reflexivity. }
    unfold distinct_non_null in Hone. rewrite Hnil in Hone.
    unfold len in Hone. simpl in Hone. lia.
Qed.

Lemma high_cardinality_rule_witness :
  exists fl,
    compute_quality_flags df_numeric default_min_missing_share = Ok fl
    /\ high_cardinality_cols fl
       = [ {| hc_column := "C"; hc_unique_count := 5;
              hc_unique_ratio := 1%float |} ].
Proof.
  exists (flags_of df_numeric default_min_missing_share).
  assert (Hwf : well_formed df_numeric) by solve_well_formed.
  assert (Hrun : compute_quality_flags df_numeric default_min_missing_share
                 = Ok (flags_of df_numeric default_min_missing_share)).
  { apply compute_quality_flags_eq. left. discriminate. }
  destruct (high_cardinality_rule _ _ _ Hwf Hrun) as (_ & Hone & _).
  split; [exact Hrun|]. reflexivity.
Defined.

(* ===================================================================== *)
(** * Identifier candidates and their duplicates *)
(* ===================================================================== *)

Lemma lower_ascii_idem (c : ascii) : lower_ascii (lower_ascii c) = lower_ascii c.
Proof.
  destruct c as [b0 b1 b2 b3 b4 b5 b6 b7].
  destruct b0, b1, b2, b3, b4, b5, b6, b7; reflexivity.
Qed.

Lemma lower_idem (s : string) : lower (lower s) = lower s.
Proof.
  induction s as [|c s IH]; simpl; [reflexivity|].
  rewrite lower_ascii_idem, IH. reflexivity.
Qed.

Lemma bool_eq_iff (a b : bool) : (a = true <-> b = true) -> a = b.
Proof. destruct a, b; intros [H1 H2]; auto; symmetry; auto. Qed.

(** X11. The identifier test is a plain case-insensitive substring test:
    its second disjunct ["ID" in col] never changes the outcome, the
    outcome does not depend on the case of the name, and every name that
    contains a candidate name (as [width] or [paid] contain [id]) is a
    candidate too. *)
Theorem id_candidate_is_substring_test (col : string) :
  is_id_candidate col = str_in "id" (lower col)
  /\ is_id_candidate (lower col) = is_id_candidate col
  /\ (is_id_candidate col = true ->
      forall pre post, is_id_candidate (pre ++ col ++ post) = true).
Proof.
  assert (Hid : forall c, is_id_candidate c = str_in "id" (lower c)).
  { intro c. apply bool_eq_iff. split.
    - intro H. apply is_id_candidate_spec in H.
      destruct H as [pre [c1 [c2 [post [E [H1 H2]]]]]].
      change "id"%string with (String "i" (String "d" EmptyString)).
      apply str_in_two. exists (lower pre), (lower post).
      rewrite E, lower_app. simpl.
      apply lower_ascii_i in H1. apply lower_ascii_d in H2.
      rewrite H1, H2. reflexivity.
    - intro H. unfold is_id_candidate. rewrite H. reflexivity. }
  split; [apply Hid|]. split.
  - rewrite !Hid, lower_idem. reflexivity.
  - intros H pre post. apply is_id_candidate_spec in H.
    destruct H as [p [c1 [c2 [q [E [H1 H2]]]]]].
    apply is_id_candidate_spec.
    exists (pre ++ p)%string, c1, c2, (q ++ post)%string.
    split; [|auto]. rewrite E.
    clear. induction pre as [|a pre IH]; simpl.
    + induction p as [|b p IHp]; simpl; [reflexivity|].
      rewrite IHp. reflexivity.
    + rewrite IH. reflexivity.
Qed.

Lemma id_candidate_is_substring_test_witness :
  is_id_candidate "Width" = true /\ is_id_candidate "paid_amount" = true
  /\ is_id_candidate "value" = false.
Proof.
  destruct (id_candidate_is_substring_test "id") as (_ & _ & Hsub).
  split; [|split; [|reflexivity]].
  - destruct (id_candidate_is_substring_test "Width") as (_ & <- & _).
    apply (Hsub eq_refl "w"%string "th"%string).
  - apply (Hsub eq_refl "pa"%string "_amount"%string).
Defined.

Lemma unique_nonempty {K : Type} (eq_dec : forall x y : K, {x = y} + {x <> y})
    (l : list K) :
  l <> [] -> 1 <= len (unique eq_dec l).
Proof.
  destruct l as [|a l]; [congruence|]. intros _.
  assert (Ha : In a (unique eq_dec (a :: l))) by (apply unique_in; left; reflexivity).
  unfold len. destruct (unique eq_dec (a :: l)); [contradiction|].
  simpl. lia.
Qed.

(** X12. On a well-formed table with [n] rows every entry of
    [suspicious_id_duplicates] names a column of the table, all entries name
    different columns, and its [duplicate_count] is [n] minus the number of
    distinct cell values of that column (all nulls counting as one value),
    hence between 1 and [n - 1]. *)
Theorem duplicate_count_bounds (df : DataFrame) (t : float) (fl : QualityFlags) :
  well_formed df -> compute_quality_flags df t = Ok fl ->
  let n := Z.of_nat (index_len df) in
  (forall e, In e (suspicious_id_duplicates fl) ->
     exists s, In (dup_column e, s) (items df)
               /\ duplicate_count e + len (unique cell_eq_dec (cells s)) = n
               /\ 1 <= duplicate_count e <= n - 1
               /\ duplicate_share e = np_true_divide (duplicate_count e) n)
  /\ NoDup (map dup_column (suspicious_id_duplicates fl)).
Proof.
  intros [Hsize Hnd] H n.
  apply compute_quality_flags_inv in H. destruct H as [-> _].
  cbn [flags_of suspicious_id_duplicates]. unfold id_duplicates_of. split.
  - intros e He. apply in_map_iff in He. destruct He as [col [<- Hin]].
    apply filter_In in Hin. destruct Hin as [Hin Hdup].
    apply filter_In in Hin. destruct Hin as [Hin _].
    apply columns_items in Hin. destruct Hin as [s Hs].
    rewrite (column_of_own df col s Hnd Hs) in *.
    cbn [dup_column duplicate_count duplicate_share].
    exists s. split; [exact Hs|].
    apply Z.ltb_lt in Hdup. unfold duplicated_sum in *.
    rewrite duplicated_sum_length in *.
    assert (Hlen : len (cells s) = n).
    { unfold n, len. rewrite Forall_forall in Hsize.
      specialize (Hsize _ Hs). unfold size in Hsize. cbn [snd] in Hsize.
      rewrite Hsize. reflexivity. }
    assert (Hne : cells s <> []).
    { intro E. rewrite E in Hdup. unfold unique, len in Hdup. simpl in Hdup. lia. }
    pose proof (unique_nonempty cell_eq_dec (cells s) Hne) as Hu.
    rewrite Hlen in *. repeat split; lia.
  - rewrite map_map. cbn [dup_column]. rewrite map_id.
    apply NoDup_filter. apply NoDup_filter. exact Hnd.
Qed.

Lemma duplicate_count_bounds_witness :
  exists fl,
    compute_quality_flags df_id_duplicates default_min_missing_share = Ok fl
    /\ map dup_column (suspicious_id_duplicates fl) = ["user_id"%string]
    /\ map duplicate_count (suspicious_id_duplicates fl) = [1].
Proof.
  exists (flags_of df_id_duplicates default_min_missing_share).
  assert (Hwf : well_formed df_id_duplicates) by solve_well_formed.
  assert (Hrun : compute_quality_flags df_id_duplicates default_min_missing_share
                 = Ok (flags_of df_id_duplicates default_min_missing_share)).
  { apply compute_quality_flags_eq. left. discriminate. }
  destruct (duplicate_count_bounds _ _ _ Hwf Hrun) as [_ Hnd].
  split; [exact Hrun|]. split; reflexivity.
Defined.

(* ===================================================================== *)
(** * [top_values] and [mode_count] *)
(* ===================================================================== *)

Lemma insert_desc_perm {K : Type} (e : K * Z) (l : list (K * Z)) :
  Permutation (insert_desc e l) (e :: l).
Proof.
  induction l as [|h t IH]; simpl.
  - apply Permutation_refl.
  - destruct (snd e <? snd h).
    + apply (Permutation_trans (perm_skip h IH)). apply perm_swap.
    + apply Permutation_refl.
Qed.

Lemma sort_desc_perm {K : Type} (l : list (K * Z)) : Permutation (sort_desc l) l.
Proof.
  unfold sort_desc. induction l as [|a l IH]; simpl.
  - apply Permutation_refl.
  - apply (Permutation_trans (insert_desc_perm a _)). apply perm_skip. exact IH.
Qed.

Lemma insert_desc_sorted {K : Type} (e : K * Z) (l : list (K * Z)) :
  StronglySorted by_count_desc l -> StronglySorted by_count_desc (insert_desc e l).
Proof.
  induction 1 as [|h t Hs IH Hh]; simpl.
  - constructor; constructor.
  - destruct (snd e <? snd h) eqn:E.
    + apply Z.ltb_lt in E. constructor; [exact IH|].
      apply (Permutation_Forall (Permutation_sym (insert_desc_perm e t))).
      constructor; [unfold by_count_desc; lia|exact Hh].
    + apply Z.ltb_ge in E. constructor; [constructor; assumption|].
      constructor; [unfold by_count_desc; lia|].
      rewrite Forall_forall in *. intros x Hx. specialize (Hh x Hx).
      unfold by_count_desc in *. lia.
Qed.

Lemma sort_desc_sorted {K : Type} (l : list (K * Z)) :
  StronglySorted by_count_desc (sort_desc l).
Proof.
  unfold sort_desc. induction l as [|a l IH]; simpl.
  - constructor.
  - apply insert_desc_sorted. exact IH.
Qed.

Lemma in_firstn {A : Type} (x : A) (k : nat) (l : list A) :
  In x (firstn k l) -> In x l.
Proof.
  revert k. induction l as [|a l IH]; intros [|k]; simpl; try tauto.
  intros [H|H]; [auto|right; apply (IH k H)].
Qed.

Lemma firstn_sorted {A : Type} (R : A -> A -> Prop) (k : nat) (l : list A) :
  StronglySorted R l -> StronglySorted R (firstn k l).
Proof.
  intro H. revert k. induction H as [|a l Hs IH Ha]; intros [|k]; simpl;
    try constructor.
  - apply IH.
  - rewrite Forall_forall in *. intros x Hx. apply Ha. apply (in_firstn x k l Hx).
Qed.

Lemma firstn_nodup {A : Type} (k : nat) (l : list A) :
  NoDup l -> NoDup (firstn k l).
Proof.
  intro H. revert k. induction H as [|a l Ha Hnd IH]; intros [|k]; simpl;
    try constructor.
  - intro Hin. apply Ha. apply (in_firstn a k l Hin).
  - apply IH.
Qed.

Lemma sorted_app_order {A : Type} (R : A -> A -> Prop) (l1 l2 : list A) :
  StronglySorted R (l1 ++ l2) ->
  forall a b, In a l1 -> In b l2 -> R a b.
Proof.
  induction l1 as [|x l1 IH]; simpl; intros H a b Ha Hb; [contradiction|].
  inversion H as [|? ? Hs Hx]; subst. destruct Ha as [<-|Ha].
  - rewrite Forall_forall in Hx. apply Hx. apply in_or_app. right. exact Hb.
  - apply (IH Hs a b Ha Hb).
Qed.

(** [head] keeps a prefix. *)
Lemma head_firstn {A : Type} (k : Z) (l : list A) :
  exists j, head k l = firstn j l
            /\ Z.of_nat (Nat.min j (List.length l))
               = if k <? 0 then Z.max 0 (len l + k) else Z.min k (len l).
Proof.
  unfold head, len. destruct (k <? 0) eqn:E.
  - apply Z.ltb_lt in E. exists (List.length l - Z.to_nat (- k))%nat.
    split; [reflexivity|]. lia.
  - apply Z.ltb_ge in E. exists (Z.to_nat k). split; [reflexivity|]. lia.
Qed.

Lemma Zsum_perm (l l' : list Z) : Permutation l l' -> Zsum l = Zsum l'.
Proof. induction 1; simpl; lia. Qed.

Lemma value_counts_object (xs : list (option string)) :
  value_counts (Object xs) = sort_desc (frequencies ostring_eq_dec xs).
Proof. reflexivity. Qed.

Lemma value_counts_keys (xs : list (option string)) :
  Permutation (map fst (value_counts (Object xs))) (unique ostring_eq_dec xs).
Proof.
  rewrite value_counts_object.
  apply (Permutation_trans (Permutation_map fst (sort_desc_perm _))).
  unfold frequencies. rewrite map_map. cbn [fst]. rewrite map_id.
  apply Permutation_refl.
Qed.

(** What [top_values] holds for one object column. *)
Lemma top_values_spec (top_k : Z) (xs : list (option string)) :
  let st := categorical_col_stats top_k (Object xs) in
  let classes := len (unique ostring_eq_dec xs) in
  len (top_values st)
  = (if top_k <? 0 then Z.max 0 (classes + top_k) else Z.min top_k classes)
  /\ StronglySorted by_count_desc (top_values st)
  /\ NoDup (map fst (top_values st))
  /\ (forall v c, In (v, c) (top_values st) ->
                  In v xs /\ c = count ostring_eq_dec v xs)
  /\ (forall v c w, In (v, c) (top_values st) -> In w xs ->
                    ~ In w (map fst (top_values st)) ->
                    count ostring_eq_dec w xs <= c)
  /\ (classes <= top_k -> Zsum (map snd (top_values st)) = len xs).
Proof.
  intros st classes. unfold st. cbn [categorical_col_stats top_values].
  set (vc := value_counts (Object xs)).
  assert (Hperm : Permutation vc (frequencies ostring_eq_dec xs)).
  { apply sort_desc_perm. }
  assert (Hlen : len vc = classes).
  { unfold len, classes, len. rewrite (Permutation_length Hperm).
    unfold frequencies. rewrite length_map. reflexivity. }
  assert (Hsorted : StronglySorted by_count_desc vc) by apply sort_desc_sorted.
  assert (Hin : forall v c, In (v, c) vc ->
                            In v xs /\ c = count ostring_eq_dec v xs).
  { intros v c H. apply (Permutation_in _ Hperm) in H.
    apply frequencies_in in H. exact H. }
  destruct (head_firstn top_k vc) as [j [Hj Hmin]]. rewrite Hj.
  split.
  { unfold len at 1. rewrite length_firstn, Hmin, Hlen. reflexivity. }
  split; [apply firstn_sorted; exact Hsorted|].
  split.
  { rewrite <- firstn_map. apply firstn_nodup.
    apply (Permutation_NoDup (Permutation_sym (value_counts_keys xs))).
    apply unique_nodup. }
  split; [intros v c H; apply Hin; apply (in_firstn _ j vc H)|].
  split.
  { intros v c w Hv Hw Hnot.
    assert (Hwvc : In (w, count ostring_eq_dec w xs) vc).
    { apply (Permutation_in _ (Permutation_sym Hperm)).
      apply frequencies_in. auto. }
    rewrite <- (firstn_skipn j vc) in Hwvc, Hsorted.
    apply in_app_or in Hwvc. destruct Hwvc as [Hl|Hr].
    - exfalso. apply Hnot.
      apply (in_map fst _ _ Hl).
    - apply (sorted_app_order by_count_desc _ _ Hsorted (v, c)
                              (w, count ostring_eq_dec w xs) Hv Hr). }
  intro Hall.
  assert (Hkpos : (top_k <? 0) = false).
  { apply Z.ltb_ge. pose proof (len_nonneg (unique ostring_eq_dec xs)).
    unfold classes in Hall. lia. }
  rewrite Hkpos in Hmin.
  rewrite firstn_all2.
  - rewrite (Zsum_perm _ _ (Permutation_map snd Hperm)).
    unfold frequencies. rewrite map_map. cbn [snd].
    apply (Zsum_counts ostring_eq_dec (unique ostring_eq_dec xs) xs).
    + apply unique_nodup.
    + intros x Hx. apply unique_in. exact Hx.
  - unfold len in *. lia.
Qed.

(** X13. For every object column of a well-formed table and every
    [top_k], [top_values] is a prefix of the frequency table that counts
    nulls as a class: it holds [min(top_k, classes)] entries for a
    non-negative [top_k] and all but the last [-top_k] for a negative one;
    its keys are distinct values of the column, each with its number of
    occurrences; the counts do not increase along it; no value left out
    occurs more often than a value kept; and when [top_k] covers all
    classes the counts add up to the number of rows. *)
Theorem top_values_are_the_most_frequent (df : DataFrame) (top_k : Z)
    (col : string) (xs : list (option string)) :
  well_formed df -> In (col, Object xs) (items df) ->
  exists cs st,
    compute_categorical_stats df top_k = Ok cs
    /\ dict_get col (cstats cs) = Ok st
    /\ let classes := len (unique ostring_eq_dec xs) in
       len (top_values st)
       = (if top_k <? 0 then Z.max 0 (classes + top_k)
          else Z.min top_k classes)
       /\ StronglySorted by_count_desc (top_values st)
       /\ NoDup (map fst (top_values st))
       /\ (forall v c, In (v, c) (top_values st) ->
                       In v xs /\ c = count ostring_eq_dec v xs)
       /\ (forall v c w, In (v, c) (top_values st) -> In w xs ->
                         ~ In w (map fst (top_values st)) ->
                         count ostring_eq_dec w xs <= c)
       /\ (classes <= top_k ->
           Zsum (map snd (top_values st)) = Z.of_nat (index_len df)).
Proof.
  intros Hwf Hin.
  destruct (categorical_stats_returns df top_k col (Object xs) Hwf Hin eq_refl)
    as [cs [Hcs Hst]].
  exists cs, (categorical_col_stats top_k (Object xs)).
  split; [exact Hcs|]. split; [exact Hst|].
  destruct (top_values_spec top_k xs) as (H1 & H2 & H3 & H4 & H5 & H6).
  repeat split; try assumption.
  - apply (H4 v c H).
  - apply (H4 v c H).
  - intro Hall. rewrite (H6 Hall).
    destruct Hwf as [Hsize _]. rewrite Forall_forall in Hsize.
    specialize (Hsize _ Hin). unfold size in Hsize. cbn [snd cells] in Hsize.
    rewrite length_map in Hsize. unfold len. rewrite Hsize. reflexivity.
Qed.

Lemma top_values_are_the_most_frequent_witness :
  exists cs st,
    compute_categorical_stats df_categorical 2 = Ok cs
    /\ dict_get "A" (cstats cs) = Ok st
    /\ top_values st = [(Some "cat", 2); (Some "dog", 2)]%string
    /\ len (top_values st) = 2.
Proof.
  assert (Hwf : well_formed df_categorical) by solve_well_formed.
  destruct (top_values_are_the_most_frequent df_categorical 2 "A"
              [Some "cat"; Some "dog"; Some "cat"; Some "dog"; Some "bird"]%string
              Hwf)
    as (cs & st & Hcs & Hst & Hlen & _).
  { left. reflexivity. }
  exists cs, st. split; [exact Hcs|]. split; [exact Hst|].
  split; [|exact Hlen].
  vm_compute in Hcs. injection Hcs as <-.
  vm_compute in Hst. injection Hst as <-. reflexivity.
Defined.

(** X14. For every object column of a well-formed table, [mode_count] is
    the largest number of occurrences of any value class, the null class
    included: no class occurs more often, some class of a non-empty column
    occurs that often, and it is 0 for a column without rows. The reported
    [mode] occurs at least once and at most [mode_count] times, and exactly
    [mode_count] times when the column has no null. *)
Theorem mode_count_is_largest_class (df : DataFrame) (top_k : Z)
    (col : string) (xs : list (option string)) :
  well_formed df -> In (col, Object xs) (items df) ->
  exists cs st,
    compute_categorical_stats df top_k = Ok cs
    /\ dict_get col (cstats cs) = Ok st
    /\ (forall v, count ostring_eq_dec v xs <= mode_count st)
    /\ (xs <> [] -> exists v, In v xs /\ mode_count st = count ostring_eq_dec v xs)
    /\ (xs = [] -> mode_count st = 0 /\ mode st = None)
    /\ (forall m, mode st = Some m ->
                  1 <= count ostring_eq_dec (Some m) xs <= mode_count st)
    /\ (~ In None xs -> forall m, mode st = Some m ->
                                  mode_count st = count ostring_eq_dec (Some m) xs).
Proof.
  intros Hwf Hin.
  destruct (categorical_stats_returns df top_k col (Object xs) Hwf Hin eq_refl)
    as [cs [Hcs Hst]].
  exists cs, (categorical_col_stats top_k (Object xs)).
  split; [exact Hcs|]. split; [exact Hst|].
  pose proof (mode_spec top_k xs) as Hmode.
  pose proof (sorted_frequencies_head ostring_eq_dec xs) as Hhead.
  cbn [categorical_col_stats mode_count] in *.
  rewrite value_counts_object.
  destruct (sort_desc (frequencies ostring_eq_dec xs)) as [|[k c] r].
  - subst xs. cbn [snd].
    split; [intro v; unfold count; simpl; lia|].
    split; [congruence|]. split; [intros _; split; reflexivity|].
    split; intros; discriminate.
  - cbn [fst snd] in Hhead. destruct Hhead as (Hk & Hc & Hmax). cbn [snd].
    split; [exact Hmax|].
    split; [intros _; exists k; auto|].
    split; [intro E; subst xs; contradiction|].
    split.
    + intros m Hm. rewrite Hm in Hmode. destruct Hmode as (Hmin & _ & _).
      split; [|apply Hmax].
      pose proof (proj2 (count_pos ostring_eq_dec (Some m) xs) Hmin). lia.
    + intros Hnonull m Hm. rewrite Hm in Hmode.
      destruct Hmode as (_ & Hbound & _).
      destruct k as [v|]; [|contradiction].
      specialize (Hbound v). specialize (Hmax (Some m)). lia.
Qed.

Lemma mode_count_is_largest_class_witness :
  exists cs st,
    compute_categorical_stats df_categorical default_top_k = Ok cs
    /\ dict_get "A" (cstats cs) = Ok st
    /\ mode st = Some "cat"%string /\ mode_count st = 2.
Proof.
  assert (Hwf : well_formed df_categorical) by solve_well_formed.
  destruct (mode_count_is_largest_class df_categorical default_top_k "A"
              [Some "cat"; Some "dog"; Some "cat"; Some "dog"; Some "bird"]%string
              Hwf)
    as (cs & st & Hcs & Hst & _).
  { left. reflexivity. }
  exists cs, st. split; [exact Hcs|]. split; [exact Hst|].
  vm_compute in Hcs. injection Hcs as <-.
  vm_compute in Hst. injection Hst as <-. split; reflexivity.
Defined.

(* ===================================================================== *)
(** * What one more column can cost *)
(* ===================================================================== *)

Lemma comprehension_extended {A B : Type} (p p' : A -> bool) (g g' : A -> B)
    (l extra : list A) :
  (forall x, In x l -> p' x = p x /\ g' x = g x) ->
  map g' (filter p' (l ++ extra))
  = map g (filter p l) ++ map g' (filter p' extra).
Proof.
  intro H. rewrite filter_app, map_app. f_equal.
  rewrite (filter_ext_in p' p l) by (intros x Hx; apply (H x Hx)).
  apply map_ext_in. intros x Hx. apply filter_In in Hx. apply (H x (proj1 Hx)).
Qed.

Lemma len_comprehension_le {A B : Type} (p : A -> bool) (g : A -> B) (l : list A) :
  len (map g (filter p l)) <= len l.
Proof. rewrite len_map. apply len_filter_le. Qed.

(** X15. Appending a column to a table leaves the evidence collected on
    the columns already there untouched: each of the five evidence lists of
    the longer table is the old list followed by at most one entry. The
    score therefore drops by at most 45 points (a column is never both
    numeric and categorical, so the two rules of weights 8 and 7 cannot
    both fire on it), and it never rises. *)
Theorem one_column_costs_at_most_45 (df : DataFrame) (col : string)
    (s : Series) (t : float) (fl' : QualityFlags) :
  compute_quality_flags (add_column df col s) t = Ok fl' ->
  exists fl,
    compute_quality_flags df t = Ok fl
    /\ (exists extra, high_missing_cols fl' = high_missing_cols fl ++ extra
                      /\ len extra <= 1)
    /\ (exists extra, constant_columns fl' = constant_columns fl ++ extra
                      /\ len extra <= 1)
    /\ (exists extra, high_cardinality_cols fl'
                      = high_cardinality_cols fl ++ extra /\ len extra <= 1)
    /\ (exists extra, suspicious_id_duplicates fl'
                      = suspicious_id_duplicates fl ++ extra /\ len extra <= 1)
    /\ (exists extra, many_zeros_cols fl' = many_zeros_cols fl ++ extra
                      /\ len extra <= 1)
    /\ quality_score fl - 45 <= quality_score fl' <= quality_score fl.
Proof.
  intro H'.
  apply compute_quality_flags_inv in H'. destruct H' as [-> Hdom'].
  assert (Hdom : index_len df <> 0%nat \/ select_dtypes is_categorical df = []).
  { destruct Hdom' as [Hn|Hc]; [left; exact Hn|].
    right. rewrite select_dtypes_add_column in Hc.
    apply app_eq_nil in Hc. tauto. }
  exists (flags_of df t). split; [apply compute_quality_flags_eq; exact Hdom|].
  cbn [flags_of high_missing_cols constant_columns high_cardinality_cols
       suspicious_id_duplicates many_zeros_cols quality_score map snd Zsum].
  (* the five lists, each with its possible new entry *)
  assert (H1 : exists extra,
             high_missing_of (add_column df col s) t
             = high_missing_of df t ++ extra /\ len extra <= 1).
  { unfold high_missing_of, compute_missing_stats, add_column.
    cbn [missing_shares index_len items].
    rewrite !map_app, filter_app, map_app. eexists. split; [reflexivity|].
    cbn [map]. apply (len_comprehension_le _ fst [_]). }
  assert (H2 : exists extra,
             constant_of (add_column df col s) = constant_of df ++ extra
             /\ len extra <= 1).
  { unfold constant_of. rewrite columns_add_column.
    rewrite <- (map_id (filter _ (columns df ++ [col]))).
    rewrite (comprehension_extended
               (fun c => nunique (column_of df c) <=? 1) _ (fun c => c)).
    - rewrite map_id. eexists. split; [reflexivity|].
      apply (len_comprehension_le _ _ [col]).
    - intros x Hx. rewrite (column_of_add_column df col s x Hx). auto. }
  assert (H3 : exists extra,
             high_cardinality_of (add_column df col s)
             = high_cardinality_of df ++ extra
             /\ len extra <= (if is_categorical s then 1 else 0)).
  { unfold high_cardinality_of. rewrite select_dtypes_add_column.
    rewrite (comprehension_extended
               (fun c => float_gt (unique_ratio_of df c) 0.5%float) _
               (fun c => {| hc_column := c;
                            hc_unique_count := nunique (column_of df c);
                            hc_unique_ratio := unique_ratio_of df c |})).
    - eexists. split; [reflexivity|].
      destruct (is_categorical s).
      + apply (len_comprehension_le _ _ [col]).
      + apply (len_comprehension_le _ _ []).
    - intros x Hx. apply select_dtypes_incl in Hx. unfold unique_ratio_of.
      rewrite (column_of_add_column df col s x Hx). auto. }
  assert (H4 : exists extra,
             id_duplicates_of (add_column df col s)
             = id_duplicates_of df ++ extra /\ len extra <= 1).
  { unfold id_duplicates_of. rewrite columns_add_column, filter_app.
    rewrite (comprehension_extended
               (fun c => 0 <? duplicated_sum (column_of df c)) _
               (fun c => {| dup_column := c;
                            duplicate_count := duplicated_sum (column_of df c);
                            duplicate_share :=
                              np_true_divide (duplicated_sum (column_of df c))
                                             (Z.of_nat (index_len df)) |})).
    - eexists. split; [reflexivity|].
      apply (Z.le_trans _ _ _ (len_comprehension_le _ _ _)).
      apply (len_filter_le is_id_candidate [col]).
    - intros x Hx. apply filter_In in Hx. destruct Hx as [Hx _].
      rewrite (column_of_add_column df col s x Hx). auto. }
  assert (H5 : exists extra,
             many_zeros_of (add_column df col s) = many_zeros_of df ++ extra
             /\ len extra <= (if is_numeric s then 1 else 0)).
  { unfold many_zeros_of. rewrite select_dtypes_add_column.
    rewrite (comprehension_extended
               (fun c => float_gt (zeros_share_of df c) 0.4%float) _
               (fun c => {| mz_column := c;
                            zero_count := sum_mask (eq_zero (column_of df c));
                            zero_share := zeros_share_of df c |})).
    - eexists. split; [reflexivity|].
      destruct (is_numeric s).
      + apply (len_comprehension_le _ _ [col]).
      + apply (len_comprehension_le _ _ []).
    - intros x Hx. apply select_dtypes_incl in Hx. unfold zeros_share_of.
      rewrite (column_of_add_column df col s x Hx). auto. }
  destruct H1 as [e1 [E1 L1]]. destruct H2 as [e2 [E2 L2]].
  destruct H3 as [e3 [E3 L3]]. destruct H4 as [e4 [E4 L4]].
  destruct H5 as [e5 [E5 L5]].
  assert (Hkinds : (if is_categorical s then 1 else 0)
                   + (if is_numeric s then 1 else 0) <= 1).
  { destruct s; simpl; lia. }
  split; [exists e1; auto|]. split; [exists e2; auto|].
  split.
  { exists e3. split; [exact E3|]. destruct (is_categorical s); lia. }
  split; [exists e4; auto|].
  split.
  { exists e5. split; [exact E5|]. destruct (is_numeric s); lia. }
  rewrite E1, E2, E3, E4, E5, !len_app.
  pose proof (len_nonneg e1). pose proof (len_nonneg e2).
  pose proof (len_nonneg e3). pose proof (len_nonneg e4).
  pose proof (len_nonneg e5). lia.
Qed.

Lemma one_column_costs_at_most_45_witness :
  exists fl fl',
    compute_quality_flags df_id_duplicates default_min_missing_share = Ok fl
    /\ compute_quality_flags
         (add_column df_id_duplicates "grid" (Float64 [0; 0; nan; nan; 0]%float))
         default_min_missing_share = Ok fl'
    /\ quality_score fl = 88 /\ quality_score fl' = 44.
Proof.
  destruct (one_column_costs_at_most_45 df_id_duplicates "grid"
              (Float64 [0; 0; nan; nan; 0]%float) default_min_missing_share
              (flags_of (add_column df_id_duplicates "grid"
                                    (Float64 [0; 0; nan; nan; 0]%float))
                        default_min_missing_share))
    as (fl & Hfl & _).
  { apply compute_quality_flags_eq. left. discriminate. }
  exists fl. eexists.
  split; [exact Hfl|]. split.
  { apply compute_quality_flags_eq. left. discriminate. }
  vm_compute in Hfl. injection Hfl as <-. split; reflexivity.
Defined.

(* ===================================================================== *)
(** * The grid of histograms *)
(* ===================================================================== *)







Lemma in_range (a b i : Z) : In i (range a b) <-> a <= i < b.
Proof.
  unfold range. rewrite in_map_iff. split.
  - intros [k [<- Hk]]. apply in_seq in Hk. lia.
  - intro H. exists (Z.to_nat (i - a)). split; [lia|]. apply in_seq. lia.
Qed.




(* ===================================================================== *)
(** * Histograms of a report *)
(* ===================================================================== *)





(* ===================================================================== *)
(** * The threshold of the missing-share rule *)
(* ===================================================================== *)

Lemma SF_le_lt_trans (a b c : spec_float) :
  SFleb a b = true -> SFltb b c = true -> SFltb a c = true.
Proof.
  unfold SFleb, SFltb, SFcompare.
  destruct a as [sa|sa| |sa ma ea], b as [sb|sb| |sb mb eb],
           c as [sc|sc| |sc mc ec];
    try destruct sa; try destruct sb; try destruct sc;
    try discriminate; try reflexivity; try (intros; assumption).
  all: change PosDef.Pos.compare_cont with Pos.compare_cont;
       rewrite <- ?Pos.compare_cont_spec; unfold Pos.switch_Eq.
  all: fold (Pos.compare ma mb); fold (Pos.compare mb mc);
       fold (Pos.compare ma mc).
  all: try (destruct (Z.compare_spec ea eb), (Z.compare_spec eb ec),
              (Z.compare_spec ea ec);
            destruct (Pos.compare_spec ma mb), (Pos.compare_spec mb mc),
              (Pos.compare_spec ma mc); simpl; intros; subst;
            try discriminate; try reflexivity; try lia).
Qed.

(** What exceeds a threshold exceeds every lower one. *)
Lemma float_gt_lower_threshold (x t1 t2 : float) :
  PrimFloat.leb t1 t2 = true -> float_gt x t2 = true -> float_gt x t1 = true.
Proof.
  unfold float_gt.
  rewrite FloatAxioms.leb_spec, !FloatAxioms.ltb_spec.
  apply SF_le_lt_trans.
Qed.

Lemma filter_implied {A : Type} (p q : A -> bool) (l : list A) :
  (forall x, In x l -> p x = true -> q x = true) ->
  incl (filter p l) (filter q l) /\ len (filter p l) <= len (filter q l).
Proof.
  intro H. split.
  - intros x Hx. apply filter_In in Hx. apply filter_In.
    split; [tauto|]. apply H; tauto.
  - unfold len. induction l as [|a l IH]; [simpl; lia|].
    cbn [filter].
    specialize (IH (fun x Hx => H x (or_intror Hx))).
    destruct (p a) eqn:Ep.
    + rewrite (H a (or_introl eq_refl) Ep). cbn [List.length]. lia.
    + destruct (q a); cbn [List.length]; lia.
Qed.

(** X18. Raising [min_missing_share] never lowers the score: for two
    thresholds [t1 <= t2] (as doubles) the columns reported as
    high-missing under [t2] are among those reported under [t1], the other
    four evidence lists do not depend on the threshold, and the score under
    [t2] is at least the score under [t1]. *)
Theorem raising_threshold_never_lowers_score (df : DataFrame) (t1 t2 : float)
    (fl1 : QualityFlags) :
  PrimFloat.leb t1 t2 = true ->
  compute_quality_flags df t1 = Ok fl1 ->
  exists fl2,
    compute_quality_flags df t2 = Ok fl2
    /\ incl (high_missing_cols fl2) (high_missing_cols fl1)
    /\ constant_columns fl2 = constant_columns fl1
    /\ high_cardinality_cols fl2 = high_cardinality_cols fl1
    /\ suspicious_id_duplicates fl2 = suspicious_id_duplicates fl1
    /\ many_zeros_cols fl2 = many_zeros_cols fl1
    /\ quality_score fl1 <= quality_score fl2.
Proof.
  intros Hle H1.
  apply compute_quality_flags_inv in H1. destruct H1 as [-> Hdom].
  exists (flags_of df t2).
  split; [apply compute_quality_flags_eq; exact Hdom|].
  cbn [flags_of high_missing_cols constant_columns high_cardinality_cols
       suspicious_id_duplicates many_zeros_cols quality_score map snd Zsum].
  destruct (filter_implied
              (fun e : string * float => float_gt (snd e) t2)
              (fun e : string * float => float_gt (snd e) t1)
              (missing_shares (compute_missing_stats df)))
    as [Hincl Hlen].
  { intros x _. apply float_gt_lower_threshold. exact Hle. }
  split.
  { unfold high_missing_of. intros c Hc. apply in_map_iff in Hc.
    destruct Hc as [e [<- He]]. apply in_map. apply Hincl. exact He. }
  repeat (split; [reflexivity|]).
  unfold high_missing_of. rewrite !len_map. lia.
Qed.

Lemma raising_threshold_never_lowers_score_witness :
  exists fl1 fl2,
    compute_quality_flags df_missing 0.3%float = Ok fl1
    /\ compute_quality_flags df_missing 0.5%float = Ok fl2
    /\ quality_score fl1 = 78 /\ quality_score fl2 = 93.
Proof.
  assert (H1 : compute_quality_flags df_missing 0.3%float
               = Ok (flags_of df_missing 0.3%float)).
  { apply compute_quality_flags_eq. left. discriminate. }
  destruct (raising_threshold_never_lowers_score df_missing 0.3%float
              0.5%float _ eq_refl H1) as (fl2 & H2 & _).
  exists (flags_of df_missing 0.3%float), fl2.
  split; [exact H1|]. split; [exact H2|].
  vm_compute in H2. injection H2 as <-. split; reflexivity.
Defined.

(* ===================================================================== *)
(** * [unique_count] against the frequency table *)
(* ===================================================================== *)

Lemma null_class_count (l : list (option string)) :
  NoDup l ->
  len (filter (fun c : option string =>
                 match c with None => true | Some _ => false end) l)
  = if in_dec ostring_eq_dec None l then 1 else 0.
Proof.
  unfold len. induction 1 as [|a l Ha Hnd IH]; [reflexivity|].
  destruct a as [v|]; simpl filter.
  - rewrite IH.
    destruct (in_dec ostring_eq_dec None l) as [Hin|Hin];
      destruct (in_dec ostring_eq_dec None (Some v :: l)) as [Hin'|Hin'];
      try reflexivity.
    + exfalso. apply Hin'. right. exact Hin.
    + destruct Hin' as [E|Hin']; [discriminate|contradiction].
  - cbn [List.length]. rewrite Nat2Z.inj_succ, IH.
    destruct (in_dec ostring_eq_dec None l) as [Hin|Hin]; [contradiction|].
    destruct (in_dec ostring_eq_dec None (None :: l)) as [_|Hin'];
      [reflexivity|].
    exfalso. apply Hin'. left. reflexivity.
Qed.

Lemma classes_of_column (xs : list (option string)) :
  len (unique ostring_eq_dec xs)
  = distinct_non_null xs + (if in_dec ostring_eq_dec None xs then 1 else 0).
Proof.
  rewrite <- (null_non_null_cells (unique ostring_eq_dec xs)).
  rewrite (null_class_count _ (unique_nodup ostring_eq_dec xs)).
  assert (Hd : len (dropna (unique ostring_eq_dec xs)) = distinct_non_null xs).
  { unfold distinct_non_null, len. f_equal. apply same_elements_length.
    - apply NoDup_dropna. apply unique_nodup.
    - apply NoDup_nodup.
    - intro v. rewrite dropna_in, unique_in, nodup_In, dropna_in. tauto. }
  rewrite Hd.
  destruct (in_dec ostring_eq_dec None (unique ostring_eq_dec xs)) as [H|H];
    destruct (in_dec ostring_eq_dec None xs) as [H'|H']; try lia.
  - exfalso. apply H'. apply (unique_in ostring_eq_dec). exact H.
  - exfalso. apply H. apply (unique_in ostring_eq_dec). exact H'.
Qed.

Lemma head_keeps_first {A : Type} (k : Z) (a : A) (l : list A) :
  1 <= k -> exists r, head k (a :: l) = a :: r.
Proof.
  intro Hk. unfold head.
  replace (k <? 0) with false by (symmetry; apply Z.ltb_ge; lia).
  destruct (Z.to_nat k) as [|j] eqn:E; [lia|].
  exists (firstn j l). reflexivity.
Qed.

(** X19. For every object column of a well-formed table the parts of
    its dictionary agree: when [top_k] covers all value classes,
    [top_values] has [unique_count] entries, and one more if the column has
    a null; and for [top_k >= 1] the first entry of [top_values] carries
    [mode_count] (there is none exactly when the column has no rows). *)
Theorem top_values_agree_with_counts (df : DataFrame) (top_k : Z)
    (col : string) (xs : list (option string)) :
  well_formed df -> In (col, Object xs) (items df) ->
  exists cs st,
    compute_categorical_stats df top_k = Ok cs
    /\ dict_get col (cstats cs) = Ok st
    /\ (len (unique ostring_eq_dec xs) <= top_k ->
        len (top_values st)
        = unique_count st + (if in_dec ostring_eq_dec None xs then 1 else 0))
    /\ (1 <= top_k ->
        match top_values st with
        | e :: _ => snd e = mode_count st /\ xs <> []
        | [] => xs = [] /\ mode_count st = 0
        end).
Proof.
  intros Hwf Hin.
  destruct (categorical_stats_returns df top_k col (Object xs) Hwf Hin eq_refl)
    as [cs [Hcs Hst]].
  exists cs, (categorical_col_stats top_k (Object xs)).
  split; [exact Hcs|]. split; [exact Hst|].
  split.
  - intro Hall.
    destruct (top_values_spec top_k xs) as (Hlen & _).
    cbn zeta in Hlen. rewrite Hlen.
    cbn [categorical_col_stats unique_count].
    rewrite nunique_object, <- classes_of_column.
    pose proof (len_nonneg (unique ostring_eq_dec xs)).
    replace (top_k <? 0) with false by (symmetry; apply Z.ltb_ge; lia).
    lia.
  - intro Hk. cbn [categorical_col_stats top_values mode_count].
    pose proof (sorted_frequencies_head ostring_eq_dec xs) as Hhead.
    rewrite value_counts_object.
    destruct (sort_desc (frequencies ostring_eq_dec xs)) as [|e r].
    + unfold head. destruct (top_k <? 0); rewrite firstn_nil; auto.
    + destruct (head_keeps_first top_k e r Hk) as [r' ->].
      split; [reflexivity|]. destruct Hhead as [Hfst _].
      intro E. rewrite E in Hfst. contradiction.
Qed.

Lemma top_values_agree_with_counts_witness :
  exists cs st,
    compute_categorical_stats df_missing default_top_k = Ok cs
    /\ dict_get "city" (cstats cs) = Ok st
    /\ unique_count st = 2 /\ len (top_values st) = 3 /\ mode_count st = 2.
Proof.
  assert (Hwf : well_formed df_missing) by solve_well_formed.
  destruct (top_values_agree_with_counts df_missing default_top_k "city"
              [None; Some "Riga"; None; Some "Oslo"]%string Hwf)
    as (cs & st & Hcs & Hst & Hlen & _).
  { left. reflexivity. }
  exists cs, st. split; [exact Hcs|]. split; [exact Hst|].
  vm_compute in Hcs. injection Hcs as <-.
  vm_compute in Hst. injection Hst as <-. repeat split.
Defined.
